(** * popeye: base classes for population encoding models and fits

    A shallow embedding of [popeye/base_md.py] (classes [PopulationModel],
    [PopulationFit], [StimulusModel]) and the properties of the fitting
    pipeline stated in the design document.

    Numbers are IEEE binary64 values ([SpecFloat] with precision 53 and
    maximal exponent 1024); a one-axis [ndarray] is a list of them.
    Python exceptions are an error result; the mutable [PopulationFit]
    instance and an event log are threaded through a state monad. *)

From Stdlib Require Import ZArith List String Bool Lia Permutation.
From Stdlib Require Import Floats.SpecFloat.
From stdpp Require Import base option list gmap strings.

Set Warnings "-register-all".

Open Scope string_scope.
Open Scope list_scope.

(** ** Binary64 arithmetic *)

Module F.

Definition float := spec_float.

Definition prec : Z := 53.
Definition emax : Z := 1024.

Definition zero : float := S754_zero false.
Definition nan : float := S754_nan.
Definition inf : float := S754_infinity false.
Definition neg_inf : float := S754_infinity true.

Definition of_Z (z : Z) : float := binary_normalize prec emax z 0 false.
Definition of_nat (n : nat) : float := of_Z (Z.of_nat n).

(** A Python [int] as an operand of a true division: the integer itself,
    not rounded to 53 bits. *)
Definition of_int (z : Z) : float :=
  match z with
  | Z0 => S754_zero false
  | Zpos p => S754_finite false p 0
  | Zneg p => S754_finite true p 0
  end.
Definition one : float := of_Z 1.
Definition two : float := of_Z 2.

Definition add : float -> float -> float := SFadd prec emax.
Definition sub : float -> float -> float := SFsub prec emax.
Definition mul : float -> float -> float := SFmul prec emax.
Definition div : float -> float -> float := SFdiv prec emax.
Definition sqrt : float -> float := SFsqrt prec emax.
Definition abs : float -> float := SFabs.

Definition eqb : float -> float -> bool := SFeqb.
Definition ltb : float -> float -> bool := SFltb.
Definition leb : float -> float -> bool := SFleb.
Definition geb (x y : float) : bool := SFleb y x.

Definition isnan (x : float) : bool :=
  match x with S754_nan => true | _ => false end.

Definition isinf (x : float) : bool :=
  match x with S754_infinity _ => true | _ => false end.

Definition isfinite (x : float) : bool := negb (isnan x || isinf x).

(** Smallest integer not below [x]; [None] for NaN and the infinities. *)
Definition ceil (x : float) : option Z :=
  match x with
  | S754_zero _ => Some 0%Z
  | S754_finite s m e =>
      let n := (if s then Z.neg m else Z.pos m) in
      Some (match e with
            | Z.neg k => (- ((- n) / Z.pow 2 (Z.pos k)))%Z
            | _ => (n * Z.pow 2 e)%Z
            end)
  | _ => None
  end.

End F.

Abbreviation float := F.float.

(** ** Python exceptions and results *)

Inductive exn : Type :=
| AssertionError
| TypeError
| ValueError
| IndexError
| AttributeError
| NotImplementedError
| UnboundLocalError
| ZeroDivisionError
| OverflowError.

Inductive result (A : Type) : Type :=
| Ok (a : A)
| Raise (e : exn).

Arguments Ok {A} a.
Arguments Raise {A} e.

Definition rbind {A B : Type} (r : result A) (k : A -> result B) : result B :=
  match r with
  | Ok a => k a
  | Raise e => Raise e
  end.

#[global] Instance result_ret : MRet result := fun A a => Ok a.
#[global] Instance result_bind : MBind result := fun A B k r => rbind r k.

Fixpoint rmap {A B : Type} (f : A -> result B) (l : list A) : result (list B) :=
  match l with
  | [] => Ok []
  | a :: l' =>
      b ← f a; bs ← rmap f l'; Ok (b :: bs)
  end.

Definition is_ok {A : Type} (r : result A) : bool :=
  match r with Ok _ => true | Raise _ => false end.

(** ** numpy on one-axis float arrays *)

Module Np.

Definition array := list float.

(** [np.sum] on a one-axis float array adds pairwise, as numpy's
    [pairwise_sum] does.  Fewer than 8 entries are accumulated from the
    left.  Up to 128 entries are added into 8 accumulators, entry [i]
    into accumulator [i mod 8], over the full blocks of 8; the
    accumulators are then added as [((r0+r1)+(r2+r3))+((r4+r5)+(r6+r7))]
    and the entries after the last full block are added from the left.
    A longer array is split at [n/2], rounded down to a multiple of 8, and
    the sums of the two parts are added. *)
Definition accumulate (acc : float) (a : array) : float := fold_left F.add a acc.

Fixpoint add_blocks (r a : array) (blocks : nat) : array * array :=
  match blocks with
  | O => (r, a)
  | S k => add_blocks (zip_with F.add r (take 8 a)) (drop 8 a) k
  end.

Definition add_accumulators (r : array) : float :=
  match r with
  | [r0; r1; r2; r3; r4; r5; r6; r7] =>
      F.add (F.add (F.add r0 r1) (F.add r2 r3)) (F.add (F.add r4 r5) (F.add r6 r7))
  | _ => F.nan
  end.

Definition block_sum (a : array) : float :=
  let '(r, rest) := add_blocks (take 8 a) (drop 8 a) (length a / 8 - 1) in
  accumulate (add_accumulators r) rest.

(** The recursion of [pairwise_sum] halves the array at each step, so the
    length of the array is more fuel than it takes. *)
Fixpoint pairwise_sum (fuel : nat) (a : array) : float :=
  let n := length a in
  if (n <? 8)%nat then accumulate F.zero a
  else if (n <=? 128)%nat then block_sum a
  else match fuel with
       | O => block_sum a
       | S k =>
           let n2 := (n / 2 - (n / 2) mod 8)%nat in
           F.add (pairwise_sum k (take n2 a)) (pairwise_sum k (drop n2 a))
       end.

(** The reduction starts from the identity [+0.0]. *)
Definition sum (a : array) : float := F.add F.zero (pairwise_sum (length a) a).

(** [ndarray.mean]: the sum divided by the number of entries. *)
Definition mean (a : array) : float := F.div (sum a) (F.of_nat (length a)).

(** Element-wise binary operation with numpy's broadcasting rule on one
    axis: the lengths agree, or one side has a single entry. *)
Definition broadcast (op : float -> float -> float) (a b : array) : result array :=
  if Nat.eqb (length a) (length b) then Ok (zip_with op a b)
  else match a, b with
       | [x], _ => Ok (map (op x) b)
       | _, [y] => Ok (map (fun x => op x y) a)
       | _, _ => Raise ValueError
       end.

Definition subtract : array -> array -> result array := broadcast F.sub.

(** [a - s], [a * s] and [a + s] for a scalar [s]; [a ** 2]. *)
Definition subtract_scalar (a : array) (s : float) : array := map (fun x => F.sub x s) a.
Definition multiply_scalar (a : array) (s : float) : array := map (fun x => F.mul x s) a.
Definition add_scalar (a : array) (s : float) : array := map (fun x => F.add x s) a.
Definition square (a : array) : array := map (fun x => F.mul x x) a.

(** [np.maximum] and [np.minimum] on scalars: the first argument wins
    when the comparison holds or when it is NaN. *)
Definition maximum (a b : float) : float :=
  if F.geb a b || F.isnan a then a else b.
Definition minimum (a b : float) : float :=
  if F.leb a b || F.isnan a then a else b.

(** [np.linspace(start, stop, num)] with the end point included. *)
Definition linspace (start stop : float) (num : nat) : array :=
  let div := (num - 1)%nat in
  let delta := F.sub stop start in
  let step := F.div delta (F.of_nat div) in
  let scale (i : nat) : float :=
    if (0 <? div)%nat
    then (if F.eqb step F.zero
          then F.mul (F.div (F.of_nat i) (F.of_nat div)) delta
          else F.mul (F.of_nat i) step)
    else F.mul (F.of_nat i) delta in
  let y := map (fun i => F.add (scale i) start) (seq 0 num) in
  if (1 <? num)%nat then take div y ++ [stop] else y.

(** [np.arange(start, stop, step)]: [ceil((stop - start) / step)] entries,
    the first two being [start] and [start + step], the others
    [start + i * delta] with [delta] the difference of the first two. *)
Definition arange (start stop step : float) : result array :=
  match F.ceil (F.div (F.sub stop start) step) with
  | None => Raise ValueError
  | Some len =>
      let next := F.add start step in
      let delta := F.sub next start in
      Ok (map (fun i => match i with
                        | O => start
                        | S O => next
                        | _ => F.add start (F.mul (F.of_nat i) delta)
                        end)
              (seq 0 (Z.to_nat len)))
  end.

(** [itertools.product] of the per-dimension lists: the last dimension
    varies fastest. *)
Fixpoint product {A : Type} (params : list (list A)) : list (list A) :=
  match params with
  | [] => [[]]
  | p :: rest => flat_map (fun x => map (cons x) (product rest)) p
  end.

(** [np.argsort]: the indices that order the keys increasingly, by
    insertion from the right (equal keys keep their order). *)
Fixpoint insert_key (k : float * nat) (l : list (float * nat)) : list (float * nat) :=
  match l with
  | [] => [k]
  | h :: t => if F.ltb (fst h) (fst k) then h :: insert_key k t else k :: l
  end.

Definition argsort (keys : array) : list nat :=
  map snd (fold_right insert_key [] (combine keys (seq 0 (length keys)))).

(** [np.argmin]: index of the first NaN if there is one, else of the first
    minimum; the empty array raises. *)
Fixpoint argmin_from (best : float) (ibest i : nat) (a : array) : nat :=
  match a with
  | [] => ibest
  | x :: a' =>
      if F.isnan best then ibest
      else if F.isnan x || F.ltb x best then argmin_from x i (S i) a'
      else argmin_from best ibest (S i) a'
  end.

Definition argmin (a : array) : result nat :=
  match a with
  | [] => Raise ValueError
  | x :: a' => Ok (argmin_from x 0 1 a')
  end.

End Np.

Abbreviation array := Np.array.

(** numexpr's [sum] accumulates from the left, starting at [+0.0]. *)
Module Ne.

Definition sum (a : array) : float := fold_left F.add a F.zero.

End Ne.

(** ** Python values *)

(** The values an instance attribute of a fit can hold. *)
Inductive value : Type :=
| VNone
| VBool (b : bool)
| VInt (z : Z)
| VFloat (x : float)
| VArray (a : array)            (* float64 ndarray with one axis *)
| VMatrix (rows : list array)   (* float64 ndarray with two axes *)
| VObjects (l : list value)     (* object ndarray, as built by np.tile(None, n) *)
| VList (l : list value)
| VTuple (l : list value)
| VDict (items : list (string * value))
| VResult (x : value)           (* optimizer result, exposing the attribute x *)
| VText (parts : list value).   (* formatted text, kept as its arguments *)

Module Py.

(** [v[i]]. *)
Definition getitem (v : value) (i : nat) : result value :=
  match v with
  | VArray a =>
      match a !! i with Some x => Ok (VFloat x) | None => Raise IndexError end
  | VMatrix rows =>
      match rows !! i with Some r => Ok (VArray r) | None => Raise IndexError end
  | VObjects l | VList l | VTuple l =>
      match l !! i with Some x => Ok x | None => Raise IndexError end
  | _ => Raise TypeError
  end.

(** The items of [v] when it is unpacked into a call. *)
Definition iterate (v : value) : result (list value) :=
  match v with
  | VArray a => Ok (map VFloat a)
  | VMatrix rows => Ok (map VArray rows)
  | VObjects l | VList l | VTuple l => Ok l
  | _ => Raise TypeError
  end.

(** [v.x]. *)
Definition attr_x (v : value) : result value :=
  match v with
  | VResult x => Ok x
  | _ => Raise AttributeError
  end.

(** [len(v)]. *)
Definition len (v : value) : result nat :=
  match v with
  | VArray a => Ok (length a)
  | VMatrix rows => Ok (length rows)
  | VObjects l | VList l | VTuple l => Ok (length l)
  | _ => Raise TypeError
  end.

Definition to_float (v : value) : result float :=
  match v with
  | VFloat x => Ok x
  | VInt z => Ok (F.of_Z z)
  | VBool b => Ok (if b then F.one else F.zero)
  | _ => Raise TypeError
  end.

(** An operand of array arithmetic: an array, or a scalar that is
    broadcast. *)
Definition to_operand (v : value) : result array :=
  match v with
  | VArray a => Ok a
  | _ => x ← to_float v; Ok [x]
  end.

Definition to_array (v : value) : result array :=
  match v with
  | VArray a => Ok a
  | _ => Raise TypeError
  end.

Definition to_matrix (v : value) : result (list array) :=
  match v with
  | VMatrix rows => Ok rows
  | _ => Raise TypeError
  end.

(** [a / b] on two Python [int]s: the quotient of the integers, rounded
    once. *)
Definition int_truediv (a b : Z) : result float :=
  if (b =? 0)%Z then Raise ZeroDivisionError
  else
    let q := F.div (F.of_int a) (F.of_int b) in
    if F.isinf q then Raise OverflowError else Ok q.

(** The entries [np.append] sees in one argument. *)
Definition flat (v : value) : list value :=
  match v with
  | VArray a => map VFloat a
  | VMatrix rows => map VFloat (concat rows)
  | VObjects l | VList l | VTuple l => l
  | _ => [v]
  end.

Fixpoint floats (l : list value) : option array :=
  match l with
  | [] => Some []
  | v :: l' =>
      match to_float v, floats l' with
      | Ok x, Some a => Some (x :: a)
      | _, _ => None
      end
  end.

(** [np.append(v, extra)]: a float array when every entry is a number,
    an object array otherwise. *)
Definition np_append (v : value) (extra : list value) : value :=
  let items := flat v ++ extra in
  match floats items with
  | Some a => VArray a
  | None => VObjects items
  end.

(** [np.tile(None, n)]. *)
Definition np_tile_None (n : nat) : value := VObjects (replicate n VNone).

(** [[None]*n]. *)
Definition none_list (n : nat) : value := VList (replicate n VNone).

(** *** Calls

    A function is its parameter list, as [inspect.signature] lists it
    (name, kind and optional default of each parameter), and its body,
    which receives the bound arguments in parameter order: the value of
    each named parameter, the tuple of the surplus positional arguments
    for [*args], the dictionary of the surplus keyword arguments for
    [**kwargs]. *)

Inductive kind : Type :=
| Positional      (* positional or keyword *)
| VarPositional   (* *args *)
| KeywordOnly
| VarKeyword.     (* **kwargs *)

Record parameter : Type := {
  p_name : string;
  p_kind : kind;
  p_default : option value
}.

Definition parameters := list parameter.

(** A signature of positional-or-keyword parameters, each with its
    optional default. *)
Definition plain (ps : list (string * option value)) : parameters :=
  map (fun p => {| p_name := fst p; p_kind := Positional; p_default := snd p |}) ps.

(** The parameter can be given by keyword. *)
Definition named (p : parameter) : bool :=
  match p_kind p with
  | Positional | KeywordOnly => true
  | VarPositional | VarKeyword => false
  end.

Definition keyword (name : string) (kw : list (string * value)) : option value :=
  snd <$> find (fun p => String.eqb (fst p) name) kw.

(** The keyword arguments that name no parameter. *)
Definition surplus (all : parameters) (kw : list (string * value)) : list (string * value) :=
  List.filter (fun k => negb (existsb (fun p => named p && String.eqb (p_name p) (fst k)) all))
    kw.

Fixpoint bind_arguments (all ps : parameters) (pos : list value)
    (kw : list (string * value)) : result (list value) :=
  match ps with
  | [] => match pos with [] => Ok [] | _ :: _ => Raise TypeError end
  | p :: ps' =>
      match p_kind p, pos with
      | Positional, v :: pos' =>
          match keyword (p_name p) kw with
          | Some _ => Raise TypeError
          | None => vs ← bind_arguments all ps' pos' kw; Ok (v :: vs)
          end
      | Positional, [] | KeywordOnly, _ =>
          match keyword (p_name p) kw, p_default p with
          | Some v, _ | None, Some v => vs ← bind_arguments all ps' pos kw; Ok (v :: vs)
          | None, None => Raise TypeError
          end
      | VarPositional, _ => vs ← bind_arguments all ps' [] kw; Ok (VTuple pos :: vs)
      | VarKeyword, _ => vs ← bind_arguments all ps' pos kw; Ok (VDict (surplus all kw) :: vs)
      end
  end.

(** Every keyword argument names a parameter, unless there is
    [**kwargs]. *)
Definition known_keywords (ps : parameters) (kw : list (string * value)) : bool :=
  existsb (fun p => match p_kind p with VarKeyword => true | _ => false end) ps ||
  forallb (fun k => existsb (fun p => named p && String.eqb (p_name p) (fst k)) ps) kw.

Definition bind (ps : parameters) (pos : list value)
    (kw : list (string * value)) : result (list value) :=
  if known_keywords ps kw then bind_arguments ps ps pos kw else Raise TypeError.

(** A callable as its caller sees it: positional and keyword arguments in,
    an array or an exception out. *)
Definition callable := list value -> list (string * value) -> result array.

End Py.

(** ** The classes *)

(** [StimulusModel].  The fit reads the display extent [screen_dva] of the
    stimulus; the class itself does not set this attribute, a stimulus
    class derived from it may. *)
Record StimulusModel : Type := {
  stim_arr : array;
  tr_length : float;
  screen_dva : option float
}.

(** A prediction method of a model: its parameters (without [self]) and its
    body, which also sees the model's [data] attribute if it is set. *)
Record method : Type := {
  params : Py.parameters;
  body : option array -> list value -> result array
}.

Record PopulationModel : Type := {
  stimulus : StimulusModel;
  hrf_model : float -> float -> array;
  hrf_delay : option float;
  normalizer : array -> array;
  model_nuisance : option (list array);
  cached_model_path : option string;
  (** What unpickling the file at [cached_model_path] gives. *)
  cached_model_file : result (list (array * array));
  generate_ballpark_prediction : method;
  generate_prediction : method;
  (** Attributes a model may or may not have. *)
  bounded_amplitude : option bool;
  store_search_space : option value;
  model_data : option array;
  (** The memoized attributes stored on the instance. *)
  model_dict : gmap string value
}.

Definition set_model_data (d : array) (m : PopulationModel) : PopulationModel :=
  {| stimulus := stimulus m; hrf_model := hrf_model m; hrf_delay := hrf_delay m;
     normalizer := normalizer m; model_nuisance := model_nuisance m;
     cached_model_path := cached_model_path m;
     cached_model_file := cached_model_file m;
     generate_ballpark_prediction := generate_ballpark_prediction m;
     generate_prediction := generate_prediction m;
     bounded_amplitude := bounded_amplitude m;
     store_search_space := store_search_space m;
     model_data := Some d;
     model_dict := model_dict m |}.

Definition set_model_dict (d : gmap string value) (m : PopulationModel) : PopulationModel :=
  {| stimulus := stimulus m; hrf_model := hrf_model m; hrf_delay := hrf_delay m;
     normalizer := normalizer m; model_nuisance := model_nuisance m;
     cached_model_path := cached_model_path m;
     cached_model_file := cached_model_file m;
     generate_ballpark_prediction := generate_ballpark_prediction m;
     generate_prediction := generate_prediction m;
     bounded_amplitude := bounded_amplitude m;
     store_search_space := store_search_space m;
     model_data := model_data m;
     model_dict := d |}.

(** The bound method [model.f]: argument binding, then the body. *)
Definition bound (m : PopulationModel) (f : method) : Py.callable :=
  fun pos kw => args ← Py.bind (params f) pos kw; body f (model_data m) args.

(** [len(signature(model.f).parameters)]. *)
Definition signature_length (f : method) : nat := length (params f).

(** One dimension of the search grid: a [slice(start, stop, step)] or a
    [(low, high)] pair. *)
Inductive grid : Type :=
| GSlice (start stop step : float)
| GPair (low high : float).

Definition bound_pair : Type := option float * option float.

(** [scipy.optimize.NonlinearConstraint(fun, lb, ub)]. *)
Record NonlinearConstraint : Type := {
  c_fun : array -> result float;
  c_lb : float;
  c_ub : float
}.

(** A constraint holds at [x] when [lb <= fun(x) <= ub]. *)
Definition satisfied (c : NonlinearConstraint) (x : array) : bool :=
  match c_fun c x with
  | Ok v => F.leb (c_lb c) v && F.leb v (c_ub c)
  | Raise _ => false
  end.

(** [set_verbose], on an [int] ([False] and [True] are 0 and 1).  With a
    value other than 0, 1 and 2 no branch assigns [very_verbose], and the
    [return] raises. *)
Definition set_verbose (verbose : Z) : result (bool * bool) :=
  if (verbose =? 0)%Z then Ok (false, false)
  else if (verbose =? 1)%Z then Ok (true, false)
  else if (verbose =? 2)%Z then Ok (true, true)
  else Raise UnboundLocalError.

Record PopulationFit : Type := {
  grids : list grid;
  bounds : list bound_pair;
  Ns : option nat;
  voxel_index : Z * Z * Z;
  auto_fit : bool;
  grid_only : bool;
  outer_limit : float;
  model : PopulationModel;
  data : array;
  nuisance : option (array -> result array);
  verbose : bool;
  very_verbose : bool;
  fit_method : string;
  constraints : list NonlinearConstraint;
  start : option float;
  finish : option float;
  (** The attributes stored on the instance after construction. *)
  dict : gmap string value
}.

Definition set_dict (d : gmap string value) (f : PopulationFit) : PopulationFit :=
  {| grids := grids f; bounds := bounds f; Ns := Ns f; voxel_index := voxel_index f;
     auto_fit := auto_fit f; grid_only := grid_only f; outer_limit := outer_limit f;
     model := model f; data := data f; nuisance := nuisance f;
     verbose := verbose f; very_verbose := very_verbose f;
     fit_method := fit_method f; constraints := constraints f;
     start := start f; finish := finish f; dict := d |}.

Definition set_model (m : PopulationModel) (f : PopulationFit) : PopulationFit :=
  {| grids := grids f; bounds := bounds f; Ns := Ns f; voxel_index := voxel_index f;
     auto_fit := auto_fit f; grid_only := grid_only f; outer_limit := outer_limit f;
     model := m; data := data f; nuisance := nuisance f;
     verbose := verbose f; very_verbose := very_verbose f;
     fit_method := fit_method f; constraints := constraints f;
     start := start f; finish := finish f; dict := dict f |}.

Definition set_start (t : float) (f : PopulationFit) : PopulationFit :=
  {| grids := grids f; bounds := bounds f; Ns := Ns f; voxel_index := voxel_index f;
     auto_fit := auto_fit f; grid_only := grid_only f; outer_limit := outer_limit f;
     model := model f; data := data f; nuisance := nuisance f;
     verbose := verbose f; very_verbose := very_verbose f;
     fit_method := fit_method f; constraints := constraints f;
     start := Some t; finish := finish f; dict := dict f |}.

Definition set_finish (t : float) (f : PopulationFit) : PopulationFit :=
  {| grids := grids f; bounds := bounds f; Ns := Ns f; voxel_index := voxel_index f;
     auto_fit := auto_fit f; grid_only := grid_only f; outer_limit := outer_limit f;
     model := model f; data := data f; nuisance := nuisance f;
     verbose := verbose f; very_verbose := very_verbose f;
     fit_method := fit_method f; constraints := constraints f;
     start := start f; finish := Some t; dict := dict f |}.

(** ** Routines of other modules

    [utils.error_function] is only handed on, by reference, to the search
    routines. *)
Inductive function_ref : Type := utils_error_function.

(** The routines the fit calls in [popeye.utilities_md], scipy, numpy and
    [time], taken as given. *)
Record Routines : Type := {
  (** [scipy.stats.linregress(X, y)[0:2]] *)
  linregress : array -> array -> result (float * float);
  (** [np.corrcoef(x, y)[1][0]] *)
  corrcoef : array -> array -> result float;
  brute_force_search :
    array -> function_ref -> Py.callable -> list grid -> option nat -> bool ->
    result value;
  gradient_descent_search :
    array -> function_ref -> Py.callable -> value -> list bound_pair -> bool ->
    list NonlinearConstraint -> result value;
  global_search :
    array -> function_ref -> Py.callable -> list bound_pair -> bool ->
    list NonlinearConstraint -> nat -> Z -> result value;
  (** The successive readings of [time.time()]. *)
  time_time : nat -> float
}.

(** ** Execution state *)

(** What an execution leaves in the log: the completed computation of a
    memoized attribute of the fit or of its model, with its value, and the
    calls that leave the fit. *)
Inductive event : Type :=
| Computed (name : string) (v : value)
| ModelComputed (name : string) (v : value)
| NuisanceCall
| BruteForceSearch
| GradientDescentSearch
| GlobalSearch
| Regress
| TimeRead
| Printed (v : value).

Record state : Type := {
  self : PopulationFit;
  log : list event
}.

Definition M (A : Type) : Type := state -> result A * state.

#[global] Instance M_ret : MRet M := fun A a s => (Ok a, s).
#[global] Instance M_bind : MBind M := fun A B k c s =>
  match c s with
  | (Ok a, s') => k a s'
  | (Raise e, s') => (Raise e, s')
  end.

Definition get_self : M PopulationFit := fun s => (Ok (self s), s).

Definition lift {A : Type} (r : result A) : M A := fun s => (r, s).

Definition emit (e : event) : M unit :=
  fun s => (Ok tt, {| self := self s; log := log s ++ [e] |}).

(** [self.name = v]. *)
Definition setattr (name : string) (v : value) : M unit :=
  fun s => (Ok tt, {| self := set_dict (<[name := v]> (dict (self s))) (self s);
                      log := log s |}).

Definition modify (g : PopulationFit -> PopulationFit) : M unit :=
  fun s => (Ok tt, {| self := g (self s); log := log s |}).

Definition when (b : bool) (c : M unit) : M unit := if b then c else mret tt.

Definition ignore (c : M value) : M unit := _ ← c; mret tt.

(** [time.time()]: the next reading of the clock. *)
Definition read_clock (U : Routines) : M float :=
  fun s =>
    let n := length (List.filter (fun e => match e with TimeRead => true | _ => false end) (log s)) in
    (Ok (time_time U n), {| self := self s; log := log s ++ [TimeRead] |}).

(** Modelled from the spec: [popeye.onetime.auto_attr], the lazy memoized
    attribute.  The first read of the attribute executes its defining
    computation and stores the result on the owning instance; every later
    read returns the stored value without recomputation.  The log entry
    [Computed] is the execution counter of the defining computation. *)
Definition auto_attr (name : string) (getter : M value) : M value :=
  fun s =>
    match dict (self s) !! name with
    | Some v => (Ok v, s)
    | None =>
        match getter s with
        | (Ok v, s') =>
            (Ok v, {| self := set_dict (<[name := v]> (dict (self s'))) (self s');
                      log := log s' ++ [Computed name v] |})
        | (Raise e, s') => (Raise e, s')
        end
    end.

(** The same, for an attribute of the model [self.model], which the fit
    reads through its reference to the model. *)
Definition model_auto_attr (name : string) (getter : M value) : M value :=
  fun s =>
    match model_dict (model (self s)) !! name with
    | Some v => (Ok v, s)
    | None =>
        match getter s with
        | (Ok v, s') =>
            (Ok v, {| self := set_model
                                (set_model_dict (<[name := v]> (model_dict (model (self s'))))
                                   (model (self s')))
                                (self s');
                      log := log s' ++ [ModelComputed name v] |})
        | (Raise e, s') => (Raise e, s')
        end
    end.

(** How often the defining computation of [name] has run to completion. *)
Definition executions (name : string) (l : list event) : nat :=
  length (List.filter (fun e => match e with
                                | Computed n _ => String.eqb n name
                                | _ => false
                                end) l).

Definition model_executions (name : string) (l : list event) : nat :=
  length (List.filter (fun e => match e with
                                | ModelComputed n _ => String.eqb n name
                                | _ => false
                                end) l).

Definition occurs (e : event) (l : list event) : bool :=
  existsb (fun e' => match e, e' with
                     | NuisanceCall, NuisanceCall
                     | BruteForceSearch, BruteForceSearch
                     | GradientDescentSearch, GradientDescentSearch
                     | GlobalSearch, GlobalSearch
                     | Regress, Regress
                     | TimeRead, TimeRead => true
                     | _, _ => false
                     end) l.

(** ** PopulationModel *)

Section Model.

Variable U : Routines.

(** [PopulationModel.regress] *)
Definition regress (m : PopulationModel) (X y : array) : result (float * float) :=
  '(slope, intercept) ← linregress U X y;
  match bounded_amplitude m with
  | Some true => Ok (F.abs slope, intercept)
  | _ => Ok (slope, intercept)
  end.

(** [PopulationModel.hrf] *)
Definition hrf (m : PopulationModel) : result array :=
  match hrf_delay m with
  | Some delay => Ok (hrf_model m delay (tr_length (stimulus m)))
  | None => Raise NotImplementedError
  end.

(** The parameter space of [cache_model]: one list of samples per grid
    dimension, by [np.arange] when the first grid is a slice and by
    [np.linspace] otherwise. *)
Definition parameter_space (gs : list grid) (ns : option nat) : result (list array) :=
  match gs with
  | [] => Raise IndexError
  | GSlice _ _ _ :: _ =>
      rmap (fun g => match g with
                     | GSlice a b c => Np.arange a b c
                     | GPair _ _ => Raise AttributeError
                     end) gs
  | GPair _ _ :: _ =>
      rmap (fun g => match g, ns with
                     | GPair lo hi, Some n => Ok (Np.linspace lo hi n)
                     | _, _ => Raise TypeError
                     end) gs
  end.

(** [combos[idx]] *)
Definition take_rows (combos : list array) (idx : list nat) : result (list array) :=
  rmap (fun i => match combos !! i with
                 | Some c => Ok c
                 | None => Raise IndexError
                 end) idx.

(** The worker of [cache_model]: the model's data becomes the prediction
    at the combination extended by [(1, 0)], then the ballpark prediction
    is generated. *)
Definition mini_predictor (m : PopulationModel) (combo : array) : result (array * array) :=
  let combo_long := map VFloat combo ++ [VInt 1; VInt 0] in
  d ← bound m (generate_prediction m) combo_long [];
  let m' := set_model_data d m in
  p ← bound m' (generate_ballpark_prediction m') (map VFloat combo) [];
  Ok (p, combo).

(** The clean-up test of [cache_model]. *)
Definition keeps (m : array * array) : bool := negb (F.isnan (Np.sum (fst m))).

(** [PopulationModel.cache_model]; [rand] is the draw of [np.random.rand]. *)
Definition cache_model (m : PopulationModel) (gs : list grid) (ncpus : nat)
    (ns : option nat) (rand : nat -> float) : result (list (array * array)) :=
  ps ← parameter_space gs ns;
  let combos := Np.product ps in
  let idx := Np.argsort (map rand (seq 0 (length combos))) in
  combos ← take_rows combos idx;
  models ← rmap (mini_predictor m) combos;
  Ok (List.filter keeps models).

(** [resurrect_cached_model]: the two columns of the unpickled table, each
    as an array of two axes ([utils.generate_shared_array] keeps the
    values). *)
Definition resurrect_cached_model : M value :=
  model_auto_attr "resurrect_cached_model"
    (f ← get_self;
     dat ← lift (cached_model_file (model f));
     mret (VTuple [VMatrix (map fst dat); VMatrix (map snd dat)])).

Definition cached_model_timeseries : M value :=
  model_auto_attr "cached_model_timeseries"
    (r ← resurrect_cached_model; lift (Py.getitem r 0)).

Definition cached_model_parameters : M value :=
  model_auto_attr "cached_model_parameters"
    (r ← resurrect_cached_model; lift (Py.getitem r 1)).

End Model.

(** ** PopulationFit *)

Section Fit.

Variable U : Routines.

Definition value_of_Z3 (v : Z * Z * Z) : list value :=
  [VInt (fst (fst v)); VInt (snd (fst v)); VInt (snd v)].

Definition best_cached_model_parameters : M value :=
  auto_attr "best_cached_model_parameters"
    (a ← cached_model_timeseries;
     a ← lift (Py.to_matrix a);
     f ← get_self;
     rss ← lift (rmap (fun row => d ← Np.subtract row (data f);
                                  Ok (Ne.sum (Np.square d))) a);
     idx ← lift (Np.argmin rss);
     ps ← cached_model_parameters;
     lift (Py.getitem ps idx)).

Definition brute_force : M value :=
  auto_attr "brute_force"
    (f ← get_self;
     _ ← emit BruteForceSearch;
     lift (brute_force_search U (data f) utils_error_function
             (bound (model f) (generate_ballpark_prediction (model f)))
             (grids f) (Ns f) (very_verbose f))).

Definition ballpark_prediction : M value :=
  auto_attr "ballpark_prediction"
    (bf ← brute_force;
     x0 ← lift (Py.getitem bf 0);
     args ← lift (Py.iterate x0);
     f ← get_self;
     p ← lift (bound (model f) (generate_ballpark_prediction (model f))
                 (args ++ [VArray (data f)]) [("unscaled", VBool true)]);
     mret (VArray p)).

Definition regression : M (float * float) :=
  bp ← ballpark_prediction;
  f ← get_self;
  X ← lift (Py.to_array bp);
  _ ← emit Regress;
  lift (regress U (model f) X (data f)).

Definition slope : M value :=
  auto_attr "slope" (r ← regression; mret (VFloat (fst r))).

Definition intercept : M value :=
  auto_attr "intercept" (r ← regression; mret (VFloat (snd r))).

Definition ballpark : M value :=
  auto_attr "ballpark"
    (f ← get_self;
     if String.eqb (fit_method f) "global_opt" then
       let model_n := (signature_length (generate_ballpark_prediction (model f)) + 2)%nat in
       mret (Py.np_tile_None model_n)
     else
       match cached_model_path (model f) with
       | Some _ => best_cached_model_parameters
       | None =>
           bf ← brute_force;
           x0 ← lift (Py.getitem bf 0);
           s ← slope;
           i ← intercept;
           mret (Py.np_append x0 [s; i])
       end).

Definition gradient_descent : M value :=
  auto_attr "gradient_descent"
    (f ← get_self;
     _ ← when (very_verbose f) (bp ← ballpark; emit (Printed bp));
     bp ← ballpark;
     f ← get_self;
     _ ← emit GradientDescentSearch;
     lift (gradient_descent_search U (data f) utils_error_function
             (bound (model f) (generate_prediction (model f)))
             bp (bounds f) (very_verbose f) (constraints f))).

Definition global_opt : M value :=
  auto_attr "global_opt"
    (f ← get_self;
     _ ← emit GlobalSearch;
     lift (global_search U (data f) utils_error_function
             (bound (model f) (generate_prediction (model f)))
             (bounds f) (very_verbose f) (constraints f) 8 (-1))).

Definition overloaded_estimate : M value :=
  auto_attr "overloaded_estimate" (mret VNone).

Definition estimate : M value :=
  auto_attr "estimate"
    (f ← get_self;
     if String.eqb (fit_method f) "global_opt"
     then r ← global_opt; lift (Py.attr_x r)
     else r ← gradient_descent; lift (Py.attr_x r)).

Definition scaled_ballpark_prediction : M value :=
  auto_attr "scaled_ballpark_prediction"
    (bp ← ballpark_prediction;
     s ← slope;
     i ← intercept;
     a ← lift (Py.to_operand bp);
     s ← lift (Py.to_operand s);
     i ← lift (Py.to_operand i);
     m ← lift (Np.broadcast F.mul a s);
     r ← lift (Np.broadcast F.add m i);
     mret (VArray r)).

Definition prediction : M value :=
  auto_attr "prediction"
    (f ← get_self;
     if String.eqb (fit_method f) "grid_only" then
       bp ← ballpark;
       args ← lift (Py.iterate bp);
       f ← get_self;
       p ← lift (bound (model f) (generate_prediction (model f)) args []);
       mret (VArray p)
     else
       est ← estimate;
       args ← lift (Py.iterate est);
       f ← get_self;
       p ← lift (bound (model f) (generate_prediction (model f)) args []);
       mret (VArray p)).

Definition rss : M value :=
  auto_attr "rss"
    (f ← get_self;
     p ← prediction;
     p ← lift (Py.to_operand p);
     d ← lift (Np.subtract (data f) p);
     mret (VFloat (Np.sum (Np.square d)))).

(** The clean-up of [rsquared]: 0 for an infinite or NaN value, else the
    value forced into the unit interval. *)
Definition clean_up (r2 : float) : value :=
  if F.isinf r2 || F.isnan r2 then VInt 0
  else VFloat (Np.minimum (Np.maximum r2 F.zero) F.one).

Definition rsquared : M value :=
  auto_attr "rsquared"
    (r ← rss;
     r ← lift (Py.to_float r);
     f ← get_self;
     let total := Np.sum (Np.square (Np.subtract_scalar (data f) (Np.mean (data f)))) in
     let r2 := F.sub F.one (F.div r total) in
     mret (clean_up r2)).

(** [1 - r] for the value [r] of [rsquared]: a float, or the [int] 0 of the
    clean-up. *)
Definition complement (r : value) : result value :=
  match r with
  | VFloat x => Ok (VFloat (F.sub F.one x))
  | VInt z => Ok (VInt (1 - z))
  | _ => Raise TypeError
  end.

(** [1 - c * (n - 1) / (n - k - 1)] for [c] equal to [1 - rsquared], [n]
    data points and an estimate of [k] entries.  With [c] a float the
    arithmetic is that of floats, and a division by zero gives an
    infinity or NaN; with [c] an [int], the product and the divisor are
    [int]s, and a division by zero raises. *)
Definition adjusted (c : value) (n k : Z) : result value :=
  match c with
  | VFloat x =>
      Ok (VFloat (F.sub F.one (F.div (F.mul x (F.of_Z (n - 1))) (F.of_Z (n - k - 1)))))
  | VInt z =>
      q ← Py.int_truediv (z * (n - 1)) (n - k - 1);
      Ok (VFloat (F.sub F.one q))
  | _ => Raise TypeError
  end.

Definition rsquared_adj : M value :=
  auto_attr "rsquared_adj"
    (r ← rsquared;
     c ← lift (complement r);
     f ← get_self;
     est ← estimate;
     k ← lift (Py.len est);
     lift (adjusted c (Z.of_nat (length (data f))) (Z.of_nat k))).

Definition rsquared0 : M value :=
  auto_attr "rsquared0"
    (f ← get_self;
     if negb (String.eqb (fit_method f) "global_opt") then
       sp ← scaled_ballpark_prediction;
       sp ← lift (Py.to_array sp);
       f ← get_self;
       c ← lift (corrcoef U (data f) sp);
       mret (VFloat (F.mul c c))
     else mret VNone).

Definition elapsed (f : PopulationFit) : result value :=
  match finish f, start f with
  | Some t1, Some t0 => Ok (VFloat (F.mul (F.sub t1 t0) (F.of_Z 1000)))
  | _, _ => Raise AttributeError
  end.

Definition msg : M value :=
  auto_attr "msg"
    (f ← get_self;
     if auto_fit f then
       oe ← overloaded_estimate;
       match oe with
       | VNone =>
           f ← get_self;
           t ← lift (elapsed f);
           r ← rsquared;
           est ← estimate;
           mret (VText (value_of_Z3 (voxel_index f) ++ [t; r; est]))
       | _ =>
           f ← get_self;
           t ← lift (elapsed f);
           r ← rsquared;
           oe ← overloaded_estimate;
           mret (VText (value_of_Z3 (voxel_index f) ++ [t; r; oe]))
       end
     else
       r ← rsquared;
       est ← estimate;
       mret (VText (value_of_Z3 (voxel_index f) ++ [r; est]))).

End Fit.

(** ** Construction of a fit *)

Section Construction.

Variable U : Routines.

Definition valid_fit_methods : list string := ["2step"; "grid_only"; "global_opt"].

Definition is_valid_fit_method (fm : string) : bool :=
  existsb (String.eqb fm) valid_fit_methods.

Definition index (x : array) (i : nat) : result float :=
  match x !! i with Some v => Ok v | None => Raise IndexError end.

(** [lambda x: np.sqrt(x[0]**2 + x[1]**2)] *)
Definition radial_distance (x : array) : result float :=
  x0 ← index x 0;
  x1 ← index x 1;
  Ok (F.sqrt (F.add (F.mul x0 x0) (F.mul x1 x1))).

(** [lambda x: np.sqrt(x[0]**2 + x[1]**2) - self.outer_limit*x[2]] *)
Definition outer_distance (limit : float) (x : array) : result float :=
  r ← radial_distance x;
  x2 ← index x 2;
  Ok (F.sub r (F.mul limit x2)).

(** The two constraints, for the outer limit and the display extent
    [self.model.stimulus.screen_dva]. *)
Definition make_constraints (limit dva : float) : list NonlinearConstraint :=
  [ {| c_fun := radial_distance;
       c_lb := F.neg_inf;
       c_ub := dva |};
    {| c_fun := outer_distance limit;
       c_lb := F.neg_inf;
       c_ub := F.div dva F.two |} ].

Definition set_time (which : bool) : M unit :=
  t ← read_clock U;
  modify (if which then set_finish t else set_start t).

(** The flush at the end of the automatic fit. *)
Definition flush : M unit :=
  _ ← setattr "gradient_descent" (Py.none_list 6);
  _ ← setattr "brute_force" (Py.none_list 4);
  setattr "global_opt" (Py.none_list 6).

(** The body of [if self.auto_fit:]; [fit_method] is the constructor's
    argument. *)
Definition automatic_fitting (fit_method : string) : M unit :=
  _ ← set_time false;
  _ ← when (negb (String.eqb fit_method "global_opt")) (ignore (ballpark U));
  _ ← when (negb (String.eqb fit_method "grid_only"))
        (_ ← ignore (estimate U); ignore overloaded_estimate);
  _ ← set_time true;
  _ ← when (negb (String.eqb fit_method "grid_only"))
        (_ ← ignore (rss U); ignore (rsquared U));
  f ← get_self;
  _ ← when (match store_search_space (model f) with Some _ => false | None => true end) flush;
  f ← get_self;
  when (verbose f) (m ← msg U; emit (Printed m)).

(** The fit as [__init__] leaves it before the automatic fit. *)
Definition new_fit (model : PopulationModel) (data self_data : array) (grids : list grid)
    (bounds : list bound_pair) (voxel_index : Z * Z * Z) (Ns : option nat)
    (auto_fit grid_only : bool) (fit_method : string) (outer_limit : float)
    (nuisance : option (array -> result array)) (verbose very_verbose : bool)
    (dva : float) : PopulationFit :=
  {| grids := grids; bounds := bounds; Ns := Ns;
     voxel_index := voxel_index; auto_fit := auto_fit;
     grid_only := grid_only; outer_limit := outer_limit;
     model := set_model_data data model;
     data := self_data; nuisance := nuisance;
     verbose := verbose; very_verbose := very_verbose;
     fit_method := (if grid_only then "grid_only" else fit_method);
     constraints := make_constraints outer_limit dva;
     start := None; finish := None; dict := ∅ |}.

(** What [self.nuisance(self.data)] gives and logs.  The data are a
    read-only buffer: the function returns an array or raises, it does
    not change its argument. *)
Definition apply_nuisance (nuisance : option (array -> result array)) (data : array)
    : result array * list event :=
  match nuisance with
  | Some n => (n data, [NuisanceCall])
  | None => (Ok data, [])
  end.

(** [PopulationFit.__init__]: the constructed instance (or the exception)
    and the log of the construction.  In the order of the statements:
    [set_verbose] raises on a [verbose] other than 0, 1 and 2; the
    assertion on [fit_method]; the constraints read
    [self.model.stimulus.screen_dva]; the nuisance function is called;
    the data are pushed down to the model; the automatic fit runs. *)
Definition init (model : PopulationModel) (data : array) (grids : list grid)
    (bounds : list bound_pair) (voxel_index : Z * Z * Z) (Ns : option nat)
    (auto_fit grid_only : bool) (fit_method : string) (outer_limit : float)
    (nuisance : option (array -> result array)) (verbose : Z)
    : result PopulationFit * list event :=
  match set_verbose verbose with
  | Raise e => (Raise e, [])
  | Ok (verbose, very_verbose) =>
      if negb (is_valid_fit_method fit_method) then (Raise AssertionError, [])
      else
        match screen_dva (stimulus model) with
        | None => (Raise AttributeError, [])
        | Some dva =>
            match apply_nuisance nuisance data with
            | (Raise e, log0) => (Raise e, log0)
            | (Ok self_data, log0) =>
                let f := new_fit model data self_data grids bounds voxel_index Ns
                           auto_fit grid_only fit_method outer_limit nuisance
                           verbose very_verbose dva in
                if auto_fit then
                  match automatic_fitting fit_method {| self := f; log := log0 |} with
                  | (Ok _, s) => (Ok (self s), log s)
                  | (Raise e, s) => (Raise e, log s)
                  end
                else (Ok f, log0)
            end
        end
  end.

End Construction.

(** ** A concrete model, routines and data

    A three-parameter model whose ballpark prediction has the signature
    [(x, y, sigma, data=None, unscaled=False)] that the call in
    [ballpark_prediction] needs, and whose prediction is
    [(x, y, sigma, beta, baseline)]. *)

Module Scenario.

Definition display : StimulusModel :=
  {| stim_arr := []; tr_length := F.one; screen_dva := Some (F.of_Z 10) |}.

Definition three_floats (args : list value) : result (float * float * float) :=
  match args with
  | a :: b :: c :: _ =>
      x ← Py.to_float a; y ← Py.to_float b; s ← Py.to_float c; Ok (x, y, s)
  | _ => Raise TypeError
  end.

Definition ballpark_method : method :=
  {| params := Py.plain [("x", None); ("y", None); ("sigma", None);
                         ("data", Some VNone); ("unscaled", Some (VBool false))];
     body := fun _ args => '(x, y, s) ← three_floats args; Ok [x; y; s] |}.

Definition prediction_method : method :=
  {| params := Py.plain [("x", None); ("y", None); ("sigma", None);
                         ("beta", None); ("baseline", None)];
     body := fun _ args =>
       '(x, y, s) ← three_floats args;
       match args with
       | [_; _; _; b; c] =>
           beta ← Py.to_float b;
           baseline ← Py.to_float c;
           Ok (map (fun v => F.add (F.mul v beta) baseline) [x; y; s])
       | _ => Raise TypeError
       end |}.

Definition gaussian : PopulationModel :=
  {| stimulus := display;
     hrf_model := fun _ _ => [];
     hrf_delay := None;
     normalizer := fun a => a;
     model_nuisance := None;
     cached_model_path := None;
     cached_model_file := Raise ValueError;
     generate_ballpark_prediction := ballpark_method;
     generate_prediction := prediction_method;
     bounded_amplitude := None;
     store_search_space := None;
     model_data := None;
     model_dict := ∅ |}.

(** Ordinary least squares of [y] on [X]. *)
Definition least_squares (X y : array) : result (float * float) :=
  if negb (Nat.eqb (length X) (length y)) then Raise ValueError
  else
    let xm := Np.mean X in
    let ym := Np.mean y in
    let dx := Np.subtract_scalar X xm in
    let dy := Np.subtract_scalar y ym in
    let sxy := Np.sum (zip_with F.mul dx dy) in
    let sxx := Np.sum (Np.square dx) in
    let slope := F.div sxy sxx in
    Ok (slope, F.sub ym (F.mul slope xm)).

(** Pearson correlation of two arrays. *)
Definition pearson (x y : array) : result float :=
  if negb (Nat.eqb (length x) (length y)) then Raise ValueError
  else
    let dx := Np.subtract_scalar x (Np.mean x) in
    let dy := Np.subtract_scalar y (Np.mean y) in
    Ok (F.div (Np.sum (zip_with F.mul dx dy))
              (F.sqrt (F.mul (Np.sum (Np.square dx)) (Np.sum (Np.square dy))))).

(** The error of one grid point: the residual sum of squares after the
    best-fit scaling of its prediction. *)
Definition scaled_error (d : array) (predict : Py.callable) (combo : array) : result float :=
  p ← predict (map VFloat combo) [];
  '(slope, intercept) ← least_squares p d;
  r ← Np.subtract d (Np.add_scalar (Np.multiply_scalar p slope) intercept);
  Ok (Np.sum (Np.square r)).

(** Modelled from the spec: [utils.brute_force_search], which is not part
    of the sources at hand.  It evaluates the ballpark prediction over
    every combination of the sampled parameter grid, scores each with the
    error function, and selects the minimum-error combination, which is
    entry 0 of its result. *)
Definition grid_search (d : array) (_ : function_ref) (predict : Py.callable)
    (gs : list grid) (ns : option nat) (_ : bool) : result value :=
  ps ← parameter_space gs ns;
  let combos := Np.product ps in
  errors ← rmap (scaled_error d predict) combos;
  i ← Np.argmin errors;
  match combos !! i, errors !! i with
  | Some x0, Some e => Ok (VTuple [VArray x0; VFloat e; VNone; VNone])
  | _, _ => Raise IndexError
  end.

(** A local optimizer that stops at its seed. *)
Definition stay_at_seed (_ : array) (_ : function_ref) (_ : Py.callable)
    (seed : value) (_ : list bound_pair) (_ : bool)
    (_ : list NonlinearConstraint) : result value :=
  Ok (VResult seed).

(** A global optimizer that returns the lower end of every bound (0 for
    an open one). *)
Definition lower_corner (_ : array) (_ : function_ref) (_ : Py.callable)
    (bs : list bound_pair) (_ : bool) (_ : list NonlinearConstraint)
    (_ : nat) (_ : Z) : result value :=
  Ok (VResult (VArray (map (fun b => default F.zero (fst b)) bs))).

Definition routines : Routines :=
  {| linregress := least_squares;
     corrcoef := pearson;
     brute_force_search := grid_search;
     gradient_descent_search := stay_at_seed;
     global_search := lower_corner;
     time_time := F.of_nat |}.

Definition signal : array := [F.of_Z 3; F.of_Z 1; F.of_Z 4].

Definition search_grid : list grid :=
  [GPair (F.of_Z (-1)) (F.of_Z 1); GPair (F.of_Z 0) (F.of_Z 2);
   GPair (F.of_Z 1) (F.of_Z 3)].

Definition open_bounds : list bound_pair := replicate 5 (None, None).

(** Removal of the mean, as a nuisance function. *)
Definition demean (a : array) : result array := Ok (Np.subtract_scalar a (Np.mean a)).

(** [PopulationFit(gaussian, signal, search_grid, open_bounds, Ns=2, ...)] *)
Definition construct (auto_fit grid_only : bool) (fit_method : string)
    (nuisance : option (array -> result array)) (verbose : Z)
    : result PopulationFit * list event :=
  init routines gaussian signal search_grid open_bounds (1, 2, 3)%Z (Some 2%nat)
    auto_fit grid_only fit_method (F.of_Z 2) nuisance verbose.

(** The fit as the constructor leaves it when [auto_fit] is off. *)
Definition lazy_fit (fit_method : string) (m : PopulationModel)
    (bs : list bound_pair) : PopulationFit :=
  {| grids := search_grid; bounds := bs; Ns := Some 2%nat;
     voxel_index := (1, 2, 3)%Z; auto_fit := false; grid_only := false;
     outer_limit := F.of_Z 2; model := set_model_data signal m;
     data := signal; nuisance := None; verbose := false;
     very_verbose := false; fit_method := fit_method;
     constraints := make_constraints (F.of_Z 2) (F.of_Z 10);
     start := None; finish := None; dict := ∅ |}.

Definition lazy_state (fit_method : string) : state :=
  {| self := lazy_fit fit_method gaussian open_bounds; log := [] |}.

(** The state after an automatic fit; the lazy state stands in when the
    constructor raises. *)
Definition fitted_state (grid_only : bool) (fit_method : string) : state :=
  match construct true grid_only fit_method None 0 with
  | (Ok f, l) => {| self := f; log := l |}
  | (Raise _, l) => lazy_state fit_method
  end.

(** A one-parameter model whose ballpark prediction is [(1/x, x)]. *)
Definition reciprocal_method : method :=
  {| params := Py.plain [("x", None)];
     body := fun _ args =>
       match args with
       | [a] => x ← Py.to_float a; Ok [F.div F.one x; x]
       | _ => Raise TypeError
       end |}.

Definition scaled_method : method :=
  {| params := Py.plain [("x", None); ("beta", None); ("baseline", None)];
     body := fun _ args =>
       match args with
       | [a; b; c] =>
           x ← Py.to_float a; beta ← Py.to_float b; baseline ← Py.to_float c;
           Ok [F.add (F.mul x beta) baseline]
       | _ => Raise TypeError
       end |}.

Definition reciprocal : PopulationModel :=
  {| stimulus := display;
     hrf_model := fun _ _ => [];
     hrf_delay := None;
     normalizer := fun a => a;
     model_nuisance := None;
     cached_model_path := None;
     cached_model_file := Raise ValueError;
     generate_ballpark_prediction := reciprocal_method;
     generate_prediction := scaled_method;
     bounded_amplitude := None;
     store_search_space := None;
     model_data := None;
     model_dict := ∅ |}.

Definition unit_grid : list grid := [GPair F.zero F.one].

(** A draw of [np.random.rand]. *)
Definition draw (i : nat) : float := F.div (F.of_nat ((7 * i + 3) mod 10)) (F.of_Z 10).

End Scenario.

(** ** Notions used in the statements *)

(** The value lies in the closed interval from 0 to 1. *)
Definition in_unit_interval (v : value) : bool :=
  match v with
  | VInt z => (0 <=? z)%Z && (z <=? 1)%Z
  | VFloat x => F.leb F.zero x && F.leb x F.one
  | _ => false
  end.

(** The number of free parameters of a model: the parameters of its
    prediction other than the amplitude and the baseline, which
    [cache_model] adds as [(1, 0)] to a combination of the grid. *)
Definition free_parameter_count (m : PopulationModel) : nat :=
  (signature_length (generate_prediction m) - 2)%nat.

(** A parameter that a call has to give, by position or by keyword. *)
Definition required (p : Py.parameter) : Prop :=
  Py.p_kind p = Py.Positional /\ Py.p_default p = None.

(** The memoized attributes of a fit, by name. *)
Definition attributes (U : Routines) : list (string * M value) :=
  [ ("best_cached_model_parameters", best_cached_model_parameters);
    ("brute_force", brute_force U);
    ("ballpark", ballpark U);
    ("gradient_descent", gradient_descent U);
    ("global_opt", global_opt U);
    ("overloaded_estimate", overloaded_estimate);
    ("estimate", estimate U);
    ("ballpark_prediction", ballpark_prediction U);
    ("scaled_ballpark_prediction", scaled_ballpark_prediction U);
    ("slope", slope U);
    ("intercept", intercept U);
    ("prediction", prediction U);
    ("rsquared", rsquared U);
    ("rsquared_adj", rsquared_adj U);
    ("rsquared0", rsquared0 U);
    ("rss", rss U);
    ("msg", msg U) ].

(** The memoized attributes of a model, by name, as the fit reads them
    through [self.model]. *)
Definition model_attributes : list (string * M value) :=
  [ ("resurrect_cached_model", resurrect_cached_model);
    ("cached_model_timeseries", cached_model_timeseries);
    ("cached_model_parameters", cached_model_parameters) ].

(** The instance that owns a memoized attribute: the fit, or its model. *)
Inductive owner : Type := OnFit | OnModel.

(** The attributes stored on the instance. *)
Definition stored (o : owner) (f : PopulationFit) : gmap string value :=
  match o with
  | OnFit => dict f
  | OnModel => model_dict (model f)
  end.

(** The log entry of the completed computation of an attribute, and how
    often it has run to completion. *)
Definition computed (o : owner) (name : string) (v : value) : event :=
  match o with
  | OnFit => Computed name v
  | OnModel => ModelComputed name v
  end.

Definition executions_on (o : owner) (name : string) (l : list event) : nat :=
  match o with
  | OnFit => executions name l
  | OnModel => model_executions name l
  end.

(** The memoized attributes of a fit and of its model, with their
    owner. *)
Definition memoized (U : Routines) : list (owner * string * M value) :=
  map (fun a => (OnFit, fst a, snd a)) (attributes U) ++
  map (fun a => (OnModel, fst a, snd a)) model_attributes.

(** The model without what it has memoized, and the fit without what it
    and its model have memoized. *)
Definition forget (m : PopulationModel) : PopulationModel := set_model_dict ∅ m.

Definition unstored (f : PopulationFit) : PopulationFit :=
  set_dict ∅ (set_model (forget (model f)) f).

(** What a memoized attribute of the model holds when it has been computed
    from the table [table] of the cache file. *)
Definition view_of (name : string) (table : list (array * array)) : option value :=
  if String.eqb name "resurrect_cached_model" then
    Some (VTuple [VMatrix (map fst table); VMatrix (map snd table)])
  else if String.eqb name "cached_model_timeseries" then Some (VMatrix (map fst table))
  else if String.eqb name "cached_model_parameters" then Some (VMatrix (map snd table))
  else None.

(** The model has memoized nothing but views of the table its cache file
    holds: the file has not been replaced since they were computed. *)
Definition faithful_memo (m : PopulationModel) : Prop :=
  forall n v, model_dict m !! n = Some v ->
    exists table, cached_model_file m = Ok table /\ view_of n table = Some v.

(** A read of the attribute [name] of the model that returns the view of
    the table, and keeps the memo faithful. *)
Definition serves (name : string) (c : M value) : Prop :=
  forall s r s', faithful_memo (model (self s)) -> c s = (Ok r, s') ->
    faithful_memo (model (self s')) /\
    cached_model_file (model (self s')) = cached_model_file (model (self s)) /\
    data (self s') = data (self s) /\
    exists table, cached_model_file (model (self s)) = Ok table /\
                  view_of name table = Some r.

(** The state after a sequence of reads, whatever they return. *)
Definition after_reads (reads : list (M value)) (s : state) : state :=
  fold_left (fun s c => snd (c s)) reads s.

(** [s'] continues [s]: the fit and its model are the same but for what
    they have memoized, the attributes stored in [s] on the fit or on the
    model are still stored with the same value, and the log has grown
    without a new computation of any of them. *)
Record continues (s s' : state) : Prop := {
  same_configuration : unstored (self s') = unstored (self s);
  stored_kept : forall o n v, stored o (self s) !! n = Some v ->
                              stored o (self s') !! n = Some v;
  log_grown : exists l, log s' = log s ++ l /\
                forall o n v, stored o (self s) !! n = Some v ->
                              executions_on o n l = 0%nat
}.

(** A computation that only reads and memoizes. *)
Definition reading {A : Type} (c : M A) : Prop :=
  forall s r s', c s = (r, s') -> continues s s'.

(** The value with which the defining computation of [name] first
    completed, according to the log. *)
Definition first_computed (name : string) (l : list event) : option value :=
  head (omap (fun e => match e with
                       | Computed n v => if String.eqb n name then Some v else None
                       | _ => None
                       end) l).

(** The configuration of a fit: everything but the timing and the
    attributes stored on the fit and on its model. *)
Definition configuration (f : PopulationFit) : PopulationFit :=
  {| grids := grids f; bounds := bounds f; Ns := Ns f; voxel_index := voxel_index f;
     auto_fit := auto_fit f; grid_only := grid_only f; outer_limit := outer_limit f;
     model := forget (model f); data := data f; nuisance := nuisance f;
     verbose := verbose f; very_verbose := very_verbose f;
     fit_method := fit_method f; constraints := constraints f;
     start := None; finish := None; dict := ∅ |}.

(** A computation that leaves the configuration of the fit as it is. *)
Definition steady {A : Type} (c : M A) : Prop :=
  forall s r s', c s = (r, s') -> configuration (self s') = configuration (self s).

(** ** Further models and fits *)

Module Cases.

(** The three-parameter model with the attribute [store_search_space]. *)
Definition testing : PopulationModel :=
  {| stimulus := Scenario.display;
     hrf_model := fun _ _ => [];
     hrf_delay := None;
     normalizer := fun a => a;
     model_nuisance := None;
     cached_model_path := None;
     cached_model_file := Raise ValueError;
     generate_ballpark_prediction := Scenario.ballpark_method;
     generate_prediction := Scenario.prediction_method;
     bounded_amplitude := None;
     store_search_space := Some (VBool true);
     model_data := None;
     model_dict := ∅ |}.

(** The three-parameter model with [bounded_amplitude] set. *)
Definition bounded : PopulationModel :=
  {| stimulus := Scenario.display;
     hrf_model := fun _ _ => [];
     hrf_delay := None;
     normalizer := fun a => a;
     model_nuisance := None;
     cached_model_path := None;
     cached_model_file := Raise ValueError;
     generate_ballpark_prediction := Scenario.ballpark_method;
     generate_prediction := Scenario.prediction_method;
     bounded_amplitude := Some true;
     store_search_space := None;
     model_data := None;
     model_dict := ∅ |}.

(** Data that fall as the first searched parameter rises. *)
Definition falling : array := [F.of_Z 4; F.of_Z 3; F.of_Z 1].

Definition falling_state : state :=
  {| self := {| grids := Scenario.search_grid; bounds := Scenario.open_bounds;
                Ns := Some 2%nat; voxel_index := (1, 2, 3)%Z; auto_fit := false;
                grid_only := false; outer_limit := F.of_Z 2;
                model := set_model_data falling bounded; data := falling;
                nuisance := None; verbose := false; very_verbose := false;
                fit_method := "2step";
                constraints := make_constraints (F.of_Z 2) (F.of_Z 10);
                start := None; finish := None; dict := ∅ |};
     log := [] |}.

(** A fit of the one-parameter model by global search within three
    bounds, on four data points: one more than the estimate has
    entries. *)
Definition four_points : array := [F.of_Z 3; F.of_Z 1; F.of_Z 4; F.of_Z 1].

Definition three_bounds : list bound_pair :=
  replicate 3 (Some F.one, Some (F.of_Z 10)).

Definition short_state : state :=
  {| self := {| grids := Scenario.unit_grid; bounds := three_bounds;
                Ns := Some 2%nat; voxel_index := (1, 2, 3)%Z; auto_fit := false;
                grid_only := false; outer_limit := F.of_Z 2;
                model := set_model_data four_points Scenario.reciprocal;
                data := four_points;
                nuisance := None; verbose := false; very_verbose := false;
                fit_method := "global_opt";
                constraints := make_constraints (F.of_Z 2) (F.of_Z 10);
                start := None; finish := None; dict := ∅ |};
     log := [] |}.

(** A cached table of three rows, each a time series and its
    parameters. *)
Definition cached_table : list (array * array) :=
  [([F.one; F.two; F.of_Z 3], [F.zero; F.zero; F.one]);
   ([F.of_Z 3; F.one; F.of_Z 4], [F.one; F.zero; F.one]);
   ([F.two; F.two; F.two], [F.zero; F.two; F.of_Z 3])].

(** The three-parameter model constructed with the path of that table:
    [PopulationModel.__init__] has read [resurrect_cached_model], which
    is stored on the model. *)
Definition cached : PopulationModel :=
  {| stimulus := Scenario.display;
     hrf_model := fun _ _ => [];
     hrf_delay := None;
     normalizer := fun a => a;
     model_nuisance := None;
     cached_model_path := Some "cache.pkl";
     cached_model_file := Ok cached_table;
     generate_ballpark_prediction := Scenario.ballpark_method;
     generate_prediction := Scenario.prediction_method;
     bounded_amplitude := None;
     store_search_space := None;
     model_data := None;
     model_dict :=
       {[ "resurrect_cached_model" :=
            VTuple [VMatrix (map fst cached_table); VMatrix (map snd cached_table)] ]} |}.

Definition cached_state : state :=
  {| self := Scenario.lazy_fit "2step" cached Scenario.open_bounds; log := [] |}.

(** The three-parameter model on a plain [StimulusModel], which has no
    attribute [screen_dva]. *)
Definition plain_stimulus : StimulusModel :=
  {| stim_arr := []; tr_length := F.one; screen_dva := None |}.

Definition bare : PopulationModel :=
  {| stimulus := plain_stimulus;
     hrf_model := fun _ _ => [];
     hrf_delay := None;
     normalizer := fun a => a;
     model_nuisance := None;
     cached_model_path := None;
     cached_model_file := Raise ValueError;
     generate_ballpark_prediction := Scenario.ballpark_method;
     generate_prediction := Scenario.prediction_method;
     bounded_amplitude := None;
     store_search_space := None;
     model_data := None;
     model_dict := ∅ |}.

(** A nuisance function that raises. *)
Definition failing (a : array) : result array := Raise ValueError.

(** The largest binary64 number, [(2^53 - 1) * 2^971]. *)
Definition huge : float := S754_finite false 9007199254740991 971.

(** A one-parameter model whose ballpark prediction has sixteen entries:
    [x * huge] at the positions 0 and 8, its opposite at the positions 1
    and 9, and zero elsewhere. *)
Definition swinging_method : method :=
  {| params := Py.plain [("x", None)];
     body := fun _ args =>
       match args with
       | [a] =>
           x ← Py.to_float a;
           let up := F.mul x huge in
           let down := F.sub F.zero up in
           Ok ([up; down] ++ replicate 6 F.zero ++ [up; down] ++ replicate 6 F.zero)
       | _ => Raise TypeError
       end |}.

Definition swinging : PopulationModel :=
  {| stimulus := Scenario.display;
     hrf_model := fun _ _ => [];
     hrf_delay := None;
     normalizer := fun a => a;
     model_nuisance := None;
     cached_model_path := None;
     cached_model_file := Raise ValueError;
     generate_ballpark_prediction := swinging_method;
     generate_prediction := Scenario.scaled_method;
     bounded_amplitude := None;
     store_search_space := None;
     model_data := None;
     model_dict := ∅ |}.

End Cases.

(** ** The calls of [compute_model_ts] in [strf_slim_pa.py] *)

Module Strf.

(** The parameters of [compute_model_ts], as its definition lists them. *)
Definition compute_model_ts_parameters : Py.parameters :=
  Py.plain
    [("theta", None); ("spatial_sigma", None); ("temporal_sigma", None);
     ("weight", None); ("deg_x", None); ("deg_y", None); ("stim_arr", None);
     ("tr_length", None); ("projector_hz", None); ("rho", None)].

(** [compute_model_ts]: argument binding, then the body, which the
    modules [spinach] and [utilities] compute. *)
Definition compute_model_ts (body : list value -> result array) : Py.callable :=
  fun pos kw => args ← Py.bind compute_model_ts_parameters pos kw; body args.

(** What the fit reads from [self.model.stimulus]. *)
Record VisualStimulus : Type := {
  deg_x : value;
  deg_y : value;
  stim_arr : value;
  projector_hz : value
}.

(** [SpatioTemporalFit.rho] *)
Definition rho : value := VInt 4.

(** [SpatioTemporalFit.generate_prediction] *)
Definition generate_prediction (body : list value -> result array)
    (stimulus : VisualStimulus) (tr_length : value)
    (theta rho_given spatial_sigma temporal_sigma weight : value) : result array :=
  compute_model_ts body
    [theta; rho_given; spatial_sigma; temporal_sigma; weight;
     deg_x stimulus; deg_y stimulus; stim_arr stimulus; tr_length;
     projector_hz stimulus; rho] [].

(** [SpatioTemporalFit.prediction], from the values of the attributes
    [theta], [spatial_sigma], [temporal_sigma] and [weight] that it
    reads. *)
Definition prediction (body : list value -> result array)
    (stimulus : VisualStimulus) (tr_length : value)
    (theta spatial_sigma temporal_sigma weight : value) : result array :=
  compute_model_ts body
    [theta; rho; spatial_sigma; temporal_sigma; weight;
     deg_x stimulus; deg_y stimulus; stim_arr stimulus; tr_length;
     projector_hz stimulus; rho] [].

End Strf.


(** ** Notions used in the further properties *)

(** The name is one of the listed ones. *)
Definition listed (names : list string) (n : string) : bool :=
  existsb (String.eqb n) names.

(** Every required name is listed. *)
Definition covers (names required : list string) : bool :=
  forallb (listed names) required.

(** An event a computation may log: the completed computation of a listed
    attribute of the fit or of an attribute of the model, or a call that
    [calls] accepts. *)
Definition allowed (names : list string) (calls : event -> bool) (e : event) : bool :=
  match e with
  | Computed n _ => listed names n
  | ModelComputed _ _ => true
  | _ => calls e
  end.

(** [s'] comes from [s] by steps confined to the listed attributes and the
    accepted calls: the configuration of the fit is the same, the
    attributes that are not listed are stored or missing as before, and
    the log has grown by allowed events only. *)
Record confined (names : list string) (calls : event -> bool) (s s' : state) : Prop := {
  configuration_kept : configuration (self s') = configuration (self s);
  others_kept : forall n, listed names n = false ->
                          dict (self s') !! n = dict (self s) !! n;
  log_extended : exists l, log s' = log s ++ l /\
                           forallb (allowed names calls) l = true
}.

(** A computation that, run on a fit whose configuration satisfies [C],
    stays confined, whether it returns or raises. *)
Definition obeys {A : Type} (C : PopulationFit -> Prop) (names : list string)
    (calls : event -> bool) (c : M A) : Prop :=
  forall s r s', C (configuration (self s)) -> c s = (r, s') ->
                 confined names calls s s'.

Definition any_fit (f : PopulationFit) : Prop := True.

Definition grid_only_fit (f : PopulationFit) : Prop := fit_method f = "grid_only".

Definition global_opt_fit (f : PopulationFit) : Prop := fit_method f = "global_opt".

Definition silent_fit (f : PopulationFit) : Prop := verbose f = false.

(** The calls of the grid stage, and the call of the global search. *)
Definition grid_calls (e : event) : bool :=
  match e with BruteForceSearch | Regress => true | _ => false end.

Definition global_calls (e : event) : bool :=
  match e with GlobalSearch => true | _ => false end.

(** The calls of the pipeline stages: everything but the nuisance
    function and the clock. *)
Definition stage_calls (e : event) : bool :=
  match e with NuisanceCall | TimeRead => false | _ => true end.

(** The calls of an automatic fit that stops at the grid stage, and those
    of one that only runs the global search. *)
Definition grid_fit_calls (e : event) : bool :=
  match e with BruteForceSearch | Regress | TimeRead => true | _ => false end.

Definition global_fit_calls (e : event) : bool :=
  match e with GlobalSearch | TimeRead | Printed _ => true | _ => false end.

(** Every call but the nuisance function. *)
Definition fit_calls (e : event) : bool :=
  match e with NuisanceCall => false | _ => true end.

(** The attributes that reading [ballpark] may compute, and those that
    reading [estimate], [prediction], [rss], [rsquared] and [msg] may. *)
Definition ballpark_names : list string :=
  ["ballpark"; "best_cached_model_parameters"; "brute_force";
   "ballpark_prediction"; "slope"; "intercept"].

Definition estimate_names : list string :=
  "estimate" :: "gradient_descent" :: "global_opt" :: ballpark_names.

Definition prediction_names : list string := "prediction" :: estimate_names.

Definition rsquared_names : list string := "rsquared" :: "rss" :: prediction_names.

Definition msg_names : list string := "msg" :: "overloaded_estimate" :: rsquared_names.

(** The attributes that a fit of method ['global_opt'] may compute. *)
Definition global_opt_names : list string :=
  ["msg"; "overloaded_estimate"; "rsquared"; "rss"; "prediction"; "estimate"; "global_opt"].

Definition global_fit_names : list string :=
  "gradient_descent" :: "brute_force" :: global_opt_names.

(** The attributes that the stages before [rsquared] may compute. *)
Definition before_rsquared_names : list string :=
  "overloaded_estimate" :: "rss" :: prediction_names.

(** The attributes that the flush overwrites. *)
Definition flushed_names : list string := ["gradient_descent"; "brute_force"; "global_opt"].

(** The number of calls of a kind in a log. *)
Definition calls_of (kind : event -> bool) (l : list event) : nat :=
  length (List.filter kind l).

Definition is_regress (e : event) : bool :=
  match e with Regress => true | _ => false end.

Definition is_nuisance_call (e : event) : bool :=
  match e with NuisanceCall => true | _ => false end.

(** The two kinds of grid dimension. *)
Definition is_slice (g : grid) : bool :=
  match g with GSlice _ _ _ => true | GPair _ _ => false end.

Definition is_pair (g : grid) : bool := negb (is_slice g).

(** The three searches, as kinds of calls. *)
Definition is_brute_force_search (e : event) : bool :=
  match e with BruteForceSearch => true | _ => false end.

Definition is_gradient_descent_search (e : event) : bool :=
  match e with GradientDescentSearch => true | _ => false end.

Definition is_global_search (e : event) : bool :=
  match e with GlobalSearch => true | _ => false end.

(** The calls of what [gradient_descent] reads before it searches. *)
Definition seed_calls (e : event) : bool :=
  match e with BruteForceSearch | Regress | Printed _ => true | _ => false end.

(** The attributes other than the three searches. *)
Definition derived_names : list string :=
  ["best_cached_model_parameters"; "ballpark"; "overloaded_estimate"; "estimate";
   "ballpark_prediction"; "scaled_ballpark_prediction"; "slope"; "intercept";
   "prediction"; "rsquared"; "rsquared_adj"; "rsquared0"; "rss"; "msg"].

(** The search of a kind has been called at most once, and not at all
    while the attribute [name] that holds its result is not stored. *)
Definition searched_once (kind : event -> bool) (name : string) (s : state) : Prop :=
  (calls_of kind (log s) <= 1)%nat /\
  (dict (self s) !! name = None -> calls_of kind (log s) = 0%nat).

(** A computation that keeps it so when it returns, and that has not
    called the search a second time when it raises. *)
Definition once {A : Type} (kind : event -> bool) (name : string) (c : M A) : Prop :=
  forall s r s', searched_once kind name s -> c s = (r, s') ->
                 (calls_of kind (log s') <= 1)%nat /\
                 (is_ok r = true -> searched_once kind name s').

(** A computation that neither calls the search nor stores its result. *)
Definition quiet {A : Type} (kind : event -> bool) (name : string) (c : M A) : Prop :=
  forall s r s', c s = (r, s') ->
                 calls_of kind (log s') = calls_of kind (log s) /\
                 dict (self s') !! name = dict (self s) !! name.

(** * Properties *)

(** ** Reads and memoization *)

Section Reading.

Lemma executions_app (n : string) (l1 l2 : list event) :
  executions n (l1 ++ l2) = (executions n l1 + executions n l2)%nat.
Proof.
  unfold executions. rewrite List.filter_app, List.length_app. reflexivity.
Qed.

Lemma executions_on_app (o : owner) (n : string) (l1 l2 : list event) :
  executions_on o n (l1 ++ l2) = (executions_on o n l1 + executions_on o n l2)%nat.
Proof.
  destruct o; unfold executions_on, executions, model_executions;
    rewrite List.filter_app, List.length_app; reflexivity.
Qed.

Lemma executions_other (n n' : string) (v : value) :
  n <> n' -> executions n [Computed n' v] = 0%nat.
Proof.
  intros Hn. unfold executions. simpl.
  destruct (String.eqb_spec n' n) as [->|]; [contradiction | reflexivity].
Qed.

(** The completion of an attribute counts for this attribute of this
    owner only. *)
Lemma executions_on_other (o o' : owner) (n n' : string) (v : value) :
  o <> o' \/ n <> n' -> executions_on o n [computed o' n' v] = 0%nat.
Proof.
  intros H. destruct o, o'; try reflexivity;
    unfold executions_on, executions, model_executions; simpl;
    (destruct (String.eqb_spec n' n) as [->|]; [| reflexivity]);
    destruct H as [H|H]; contradiction.
Qed.

Lemma continues_refl (s : state) : continues s s.
Proof.
  split; [reflexivity | auto |].
  exists []. split; [symmetry; apply app_nil_r |]. intros [] n v _; reflexivity.
Qed.

Lemma continues_trans (s1 s2 s3 : state) :
  continues s1 s2 -> continues s2 s3 -> continues s1 s3.
Proof.
  intros [C1 D1 (l1 & L1 & E1)] [C2 D2 (l2 & L2 & E2)].
  split.
  - congruence.
  - auto.
  - exists (l1 ++ l2). split.
    + rewrite L2, L1, app_assoc. reflexivity.
    + intros o n v Hn.
      rewrite executions_on_app, (E1 o n v Hn), (E2 o n v (D1 o n v Hn)).
      reflexivity.
Qed.

Lemma reading_ret {A : Type} (a : A) : reading (mret a).
Proof. intros s r s' [= <- <-]. apply continues_refl. Qed.

Lemma reading_lift {A : Type} (r : result A) : reading (lift r).
Proof. intros s r' s' [= <- <-]. apply continues_refl. Qed.

Lemma reading_get_self : reading get_self.
Proof. intros s r s' [= <- <-]. apply continues_refl. Qed.

Lemma reading_bind {A B : Type} (c : M A) (k : A -> M B) :
  reading c -> (forall a, reading (k a)) -> reading (c ≫= k).
Proof.
  intros Hc Hk s r s'. unfold mbind, M_bind.
  destruct (c s) as [[a|e] s1] eqn:Ec; intros H.
  - eapply continues_trans; [eapply Hc, Ec | eapply Hk, H].
  - injection H as <- <-. eapply Hc, Ec.
Qed.

Lemma reading_emit (e : event) :
  (forall o n, executions_on o n [e] = 0%nat) -> reading (emit e).
Proof.
  intros He s r s' [= <- <-]. split; [reflexivity | auto |].
  exists [e]. split; [reflexivity | auto].
Qed.

Lemma reading_when (b : bool) (c : M unit) : reading c -> reading (when b c).
Proof. destruct b; [auto | intros _; apply reading_ret]. Qed.

Lemma reading_ignore (c : M value) : reading c -> reading (ignore c).
Proof.
  intros Hc. apply reading_bind; [exact Hc | intros; apply reading_ret].
Qed.

Lemma reading_auto_attr (name : string) (getter : M value) :
  reading getter -> reading (auto_attr name getter).
Proof.
  intros Hg s r s'. unfold auto_attr.
  destruct (dict (self s) !! name) as [v|] eqn:Hd.
  - intros [= <- <-]. apply continues_refl.
  - destruct (getter s) as [[v|e] s1] eqn:Eg; intros [= <- <-].
    + destruct (Hg _ _ _ Eg) as [C D (l & L & E)]. split; simpl.
      * exact C.
      * intros [] n w Hn; [| exact (D OnModel n w Hn)].
        simpl. destruct (decide (name = n)) as [<-|Hne].
        { simpl in Hn. congruence. }
        { rewrite lookup_insert_ne by exact Hne. exact (D OnFit n w Hn). }
      * exists (l ++ [Computed name v]). split.
        { rewrite L, app_assoc. reflexivity. }
        { intros o n w Hn. rewrite executions_on_app, (E o n w Hn).
          apply (executions_on_other o OnFit).
          destruct o; [right; simpl in Hn; congruence | left; discriminate]. }
    + eapply Hg, Eg.
Qed.

Lemma reading_model_auto_attr (name : string) (getter : M value) :
  reading getter -> reading (model_auto_attr name getter).
Proof.
  intros Hg s r s'. unfold model_auto_attr.
  destruct (model_dict (model (self s)) !! name) as [v|] eqn:Hd.
  - intros [= <- <-]. apply continues_refl.
  - destruct (getter s) as [[v|e] s1] eqn:Eg; intros [= <- <-].
    + destruct (Hg _ _ _ Eg) as [C D (l & L & E)]. split; simpl.
      * exact C.
      * intros [] n w Hn; [exact (D OnFit n w Hn) |].
        simpl. destruct (decide (name = n)) as [<-|Hne].
        { simpl in Hn. congruence. }
        { rewrite lookup_insert_ne by exact Hne. exact (D OnModel n w Hn). }
      * exists (l ++ [ModelComputed name v]). split.
        { rewrite L, app_assoc. reflexivity. }
        { intros o n w Hn. rewrite executions_on_app, (E o n w Hn).
          apply (executions_on_other o OnModel).
          destruct o; [left; discriminate | right; simpl in Hn; congruence]. }
    + eapply Hg, Eg.
Qed.

End Reading.

Create HintDb reading.

#[local] Hint Resolve reading_ret reading_lift reading_get_self reading_when
  reading_ignore reading_auto_attr reading_model_auto_attr : reading.

(** Decomposition of a goal [reading c] along the structure of [c]. *)
Ltac reading_step :=
  match goal with
  | |- reading (_ ≫= _) => apply reading_bind; [| intros ?]
  | |- reading (emit _) => apply reading_emit; intros [] ?; reflexivity
  | |- reading (when _ _) => apply reading_when
  | |- reading (ignore _) => apply reading_ignore
  | |- reading (if ?b then _ else _) => destruct b
  | |- reading (match ?x with _ => _ end) => destruct x
  | |- reading (let '(_, _) := ?x in _) => destruct x
  | |- reading _ => solve [eauto with reading]
  end.

Ltac reading_tac := repeat reading_step.

(** Lookup of a name in a store built by insertions over an empty one. *)
Ltac look := rewrite ?lookup_insert_ne by discriminate;
             first [ apply lookup_insert_eq
                   | match goal with
                     | H : forall n, dict _ !! n = None |- _ => apply H
                     end ].

Section Attributes.

Variable U : Routines.

Lemma reading_resurrect_cached_model : reading resurrect_cached_model.
Proof. unfold resurrect_cached_model. apply reading_model_auto_attr. reading_tac. Qed.

Hint Resolve reading_resurrect_cached_model : reading.

Lemma reading_cached_model_timeseries : reading cached_model_timeseries.
Proof. unfold cached_model_timeseries. apply reading_model_auto_attr. reading_tac. Qed.

Lemma reading_cached_model_parameters : reading cached_model_parameters.
Proof. unfold cached_model_parameters. apply reading_model_auto_attr. reading_tac. Qed.

Hint Resolve reading_cached_model_timeseries reading_cached_model_parameters : reading.

Lemma reading_best_cached_model_parameters : reading best_cached_model_parameters.
Proof. unfold best_cached_model_parameters. apply reading_auto_attr. reading_tac. Qed.

Lemma reading_brute_force : reading (brute_force U).
Proof. unfold brute_force. apply reading_auto_attr. reading_tac. Qed.

Hint Resolve reading_best_cached_model_parameters reading_brute_force : reading.

Lemma reading_ballpark_prediction : reading (ballpark_prediction U).
Proof. unfold ballpark_prediction. apply reading_auto_attr. reading_tac. Qed.

Hint Resolve reading_ballpark_prediction : reading.

Lemma reading_regression : reading (regression U).
Proof. unfold regression. reading_tac. Qed.

Hint Resolve reading_regression : reading.

Lemma reading_slope : reading (slope U).
Proof. unfold slope. apply reading_auto_attr. reading_tac. Qed.

Lemma reading_intercept : reading (intercept U).
Proof. unfold intercept. apply reading_auto_attr. reading_tac. Qed.

Hint Resolve reading_slope reading_intercept : reading.

Lemma reading_ballpark : reading (ballpark U).
Proof. unfold ballpark. apply reading_auto_attr. reading_tac. Qed.

Hint Resolve reading_ballpark : reading.

Lemma reading_gradient_descent : reading (gradient_descent U).
Proof. unfold gradient_descent. apply reading_auto_attr. reading_tac. Qed.

Lemma reading_global_opt : reading (global_opt U).
Proof. unfold global_opt. apply reading_auto_attr. reading_tac. Qed.

Lemma reading_overloaded_estimate : reading overloaded_estimate.
Proof. unfold overloaded_estimate. apply reading_auto_attr. reading_tac. Qed.

Hint Resolve reading_gradient_descent reading_global_opt
  reading_overloaded_estimate : reading.

Lemma reading_estimate : reading (estimate U).
Proof. unfold estimate. apply reading_auto_attr. reading_tac. Qed.

Lemma reading_scaled_ballpark_prediction : reading (scaled_ballpark_prediction U).
Proof. unfold scaled_ballpark_prediction. apply reading_auto_attr. reading_tac. Qed.

Hint Resolve reading_estimate reading_scaled_ballpark_prediction : reading.

Lemma reading_prediction : reading (prediction U).
Proof. unfold prediction. apply reading_auto_attr. reading_tac. Qed.

Hint Resolve reading_prediction : reading.

Lemma reading_rss : reading (rss U).
Proof. unfold rss. apply reading_auto_attr. reading_tac. Qed.

Hint Resolve reading_rss : reading.

Lemma reading_rsquared : reading (rsquared U).
Proof. unfold rsquared. apply reading_auto_attr. reading_tac. Qed.

Hint Resolve reading_rsquared : reading.

Lemma reading_rsquared_adj : reading (rsquared_adj U).
Proof. unfold rsquared_adj. apply reading_auto_attr. reading_tac. Qed.

Lemma reading_rsquared0 : reading (rsquared0 U).
Proof. unfold rsquared0. apply reading_auto_attr. reading_tac. Qed.

Lemma reading_msg : reading (msg U).
Proof. unfold msg. apply reading_auto_attr. reading_tac. Qed.

Lemma reading_attributes (name : string) (c : M value) :
  In (name, c) (attributes U) -> reading c /\ exists getter, c = auto_attr name getter.
Proof.
  unfold attributes. simpl.
  intros H.
  repeat (destruct H as [[= <- <-]|H];
          [ split; [ first [ apply reading_best_cached_model_parameters
                           | apply reading_brute_force
                           | apply reading_ballpark
                           | apply reading_gradient_descent
                           | apply reading_global_opt
                           | apply reading_overloaded_estimate
                           | apply reading_estimate
                           | apply reading_ballpark_prediction
                           | apply reading_scaled_ballpark_prediction
                           | apply reading_slope
                           | apply reading_intercept
                           | apply reading_prediction
                           | apply reading_rsquared
                           | apply reading_rsquared_adj
                           | apply reading_rsquared0
                           | apply reading_rss
                           | apply reading_msg ]
                   | eexists; reflexivity ] |]).
  contradiction.
Qed.

End Attributes.

(** ** The lazy memoized attribute *)

Section Memoization.

Variable U : Routines.

Lemma after_reads_continues (reads : list (M value)) (s : state) :
  Forall reading reads -> continues s (after_reads reads s).
Proof.
  intros H. revert s. induction H as [|c reads Hc _ IH]; intros s; simpl.
  - apply continues_refl.
  - eapply continues_trans; [| apply IH].
    destruct (c s) as [r s'] eqn:E. eapply Hc, E.
Qed.

Lemma auto_attr_stored (name : string) (getter : M value) (s : state) (v : value) :
  dict (self s) !! name = Some v -> auto_attr name getter s = (Ok v, s).
Proof. intros H. unfold auto_attr. rewrite H. reflexivity. Qed.

Lemma model_auto_attr_stored (name : string) (getter : M value) (s : state) (v : value) :
  model_dict (model (self s)) !! name = Some v -> model_auto_attr name getter s = (Ok v, s).
Proof. intros H. unfold model_auto_attr. rewrite H. reflexivity. Qed.

Lemma reading_model_attributes (name : string) (c : M value) :
  In (name, c) model_attributes ->
  reading c /\ exists getter, c = model_auto_attr name getter.
Proof.
  unfold model_attributes. simpl. intros H.
  repeat (destruct H as [[= <- <-]|H];
          [ split; [ first [ apply reading_resurrect_cached_model
                           | apply reading_cached_model_timeseries
                           | apply reading_cached_model_parameters ]
                   | eexists; reflexivity ] |]).
  contradiction.
Qed.

(** Every memoized attribute only reads and memoizes, and is the
    memoization of a defining computation on its owner. *)
Lemma reading_memoized (o : owner) (name : string) (c : M value) :
  In (o, name, c) (memoized U) ->
  reading c /\
  exists getter, c = match o with
                     | OnFit => auto_attr name getter
                     | OnModel => model_auto_attr name getter
                     end.
Proof.
  unfold memoized. intros H. apply in_app_or in H.
  destruct H as [H|H]; apply in_map_iff in H; destruct H as ([n c'] & [= <- <- <-] & H).
  - exact (reading_attributes U n c' H).
  - exact (reading_model_attributes n c' H).
Qed.

(** C5 (as amended).  For every memoized attribute of a fit or of its
    model: when the attribute is not yet stored on its owner and its
    first read returns [v], that read has run the defining computation
    (the log ends with its completion) and has stored [v] on the owner;
    after any sequence of further reads of memoized attributes of the fit
    and of the model, reading it again returns [v], leaves the state as it
    is, and the defining computation has not run again. *)
Theorem memoized_attribute_computed_once (o : owner) (name : string) (c : M value)
    (s s1 : state) (v : value) (later : list (M value)) :
  In (o, name, c) (memoized U) ->
  stored o (self s) !! name = None ->
  c s = (Ok v, s1) ->
  Forall (fun c' => exists o' n', In (o', n', c') (memoized U)) later ->
  (exists l, log s1 = l ++ [computed o name v]) /\
  stored o (self s1) !! name = Some v /\
  c (after_reads later s1) = (Ok v, after_reads later s1) /\
  executions_on o name (log (after_reads later s1)) = executions_on o name (log s1).
Proof.
  intros Hin Hnone Hc Hlater.
  destruct (reading_memoized o name c Hin) as [_ [getter ->]].
  assert (Hs1 : (exists l, log s1 = l ++ [computed o name v]) /\
                stored o (self s1) !! name = Some v).
  { destruct o; simpl in Hnone; [unfold auto_attr in Hc | unfold model_auto_attr in Hc];
      rewrite Hnone in Hc;
      (destruct (getter s) as [[w|e] s'] eqn:Eg; [|discriminate]);
      injection Hc as <- <-; simpl; (split; [eauto | apply lookup_insert_eq]). }
  destruct Hs1 as [Hlog Hstored].
  assert (Hcont : continues s1 (after_reads later s1)).
  { apply after_reads_continues.
    eapply Forall_impl; [exact Hlater |].
    intros c' (o' & n' & Hn'). apply (reading_memoized o' n' c' Hn'). }
  destruct Hcont as [_ Hkept (l & Hl & Hex)].
  repeat split; auto.
  - destruct o; [apply auto_attr_stored | apply model_auto_attr_stored];
      exact (Hkept _ _ _ Hstored).
  - rewrite Hl, executions_on_app, (Hex o name v Hstored). lia.
Qed.

(** The flush of the automatic fit replaces three stored attributes. *)
Lemma flush_overwrites (s : state) :
  let s' := snd (flush s) in
  brute_force U s' = (Ok (Py.none_list 4), s') /\
  gradient_descent U s' = (Ok (Py.none_list 6), s') /\
  global_opt U s' = (Ok (Py.none_list 6), s').
Proof.
  simpl. repeat split; apply auto_attr_stored; simpl.
  - rewrite lookup_insert_ne by discriminate. apply lookup_insert_eq.
  - rewrite !lookup_insert_ne by discriminate. apply lookup_insert_eq.
  - apply lookup_insert_eq.
Qed.

End Memoization.

Lemma memoized_attribute_computed_once_witness :
  let s := Cases.cached_state in
  let c := cached_model_timeseries in
  let later := [ballpark Scenario.routines; resurrect_cached_model; c;
                rsquared Scenario.routines] in
  stored OnModel (self s) !! "cached_model_timeseries" = None /\
  (exists v, fst (c s) = Ok v) /\
  c (after_reads later (snd (c s))) =
    (fst (c s), after_reads later (snd (c s))) /\
  model_executions "cached_model_timeseries" (log (after_reads later (snd (c s)))) =
    model_executions "cached_model_timeseries" (log (snd (c s))).
Proof.
  intros s c later.
  assert (Hv : fst (c s) =
               Ok (VMatrix [[F.one; F.two; F.of_Z 3]; [F.of_Z 3; F.one; F.of_Z 4];
                            [F.two; F.two; F.two]])).
  { vm_compute. reflexivity. }
  assert (Hc : c s = (fst (c s), snd (c s))) by apply surjective_pairing.
  rewrite Hv in Hc.
  assert (Hin : In (OnModel, "cached_model_timeseries", c) (memoized Scenario.routines)).
  { unfold memoized. apply in_or_app. right. cbn [map model_attributes In fst snd].
    right. left. reflexivity. }
  assert (Hlater : Forall (fun c' => exists o' n', In (o', n', c')
                                       (memoized Scenario.routines)) later).
  { unfold later, memoized. repeat constructor.
    - exists OnFit, "ballpark". apply in_or_app. left.
      cbn [map attributes In fst snd]. do 2 right. left. reflexivity.
    - exists OnModel, "resurrect_cached_model". apply in_or_app. right.
      cbn [map model_attributes In fst snd]. left. reflexivity.
    - exists OnModel, "cached_model_timeseries". exact Hin.
    - exists OnFit, "rsquared". apply in_or_app. left.
      cbn [map attributes In fst snd]. do 12 right. left. reflexivity. }
  destruct (memoized_attribute_computed_once Scenario.routines OnModel
              "cached_model_timeseries" c s (snd (c s)) _ later Hin eq_refl Hc Hlater)
    as (_ & _ & H1 & H2).
  split; [reflexivity |]. split; [eexists; exact Hv |]. split; [| exact H2].
  rewrite H1, Hv. reflexivity.
Defined.

(** C5 (as stated) fails after an automatic fit: the grid search ran once
    during construction, and reading [brute_force] afterwards does not
    return the value it computed. *)
Lemma flushed_attribute_differs :
  let s := Scenario.fitted_state false "2step" in
  executions "brute_force" (log s) = 1%nat /\
  match first_computed "brute_force" (log s) with
  | Some v => fst (brute_force Scenario.routines s) <> Ok v
  | None => False
  end.
Proof.
  split; [vm_compute; reflexivity |].
  vm_compute. discriminate.
Qed.

(** ** Goodness of fit *)

Section Goodness.

Variable U : Routines.

Lemma continues_data (s s' : state) : continues s s' -> data (self s') = data (self s).
Proof. intros [C _ _]. apply (f_equal data) in C. exact C. Qed.

Lemma clean_up_in_unit_interval (r2 : float) : in_unit_interval (clean_up r2) = true.
Proof.
  unfold clean_up.
  destruct (F.isinf r2 || F.isnan r2) eqn:Hnf; [reflexivity |].
  apply orb_false_iff in Hnf. destruct Hnf as [_ Hn].
  unfold in_unit_interval, Np.minimum, Np.maximum.
  rewrite Hn, !orb_false_r.
  destruct (F.geb r2 F.zero) eqn:H0.
  - rewrite Hn, orb_false_r. destruct (F.leb r2 F.one) eqn:H1.
    + change (F.leb F.zero r2 = true) in H0. rewrite H0, H1. reflexivity.
    + reflexivity.
  - reflexivity.
Qed.

Lemma clean_up_non_finite (r2 : float) :
  F.isfinite r2 = false -> clean_up r2 = VInt 0.
Proof.
  unfold F.isfinite, clean_up. intros H.
  apply negb_false_iff in H. rewrite orb_comm in H. rewrite H. reflexivity.
Qed.

(** C3.  Whenever [rsquared] is computed from a residual sum of squares
    [r], it returns, and its value is the clean-up of
    [1 - r / sum((data - mean(data))**2)]: it lies within [0, 1], and it
    is 0 when that intermediate value is infinite or NaN. *)
Theorem rsquared_within_unit_interval (s s1 : state) (r : float) :
  dict (self s) !! "rsquared" = None ->
  rss U s = (Ok (VFloat r), s1) ->
  let d := data (self s) in
  let r2 := F.sub F.one
              (F.div r (Np.sum (Np.square (Np.subtract_scalar d (Np.mean d))))) in
  exists v s', rsquared U s = (Ok v, s') /\
               v = clean_up r2 /\
               in_unit_interval v = true /\
               (F.isfinite r2 = false -> v = VInt 0).
Proof.
  intros Hnone Hrss d r2.
  pose proof (continues_data _ _ (reading_rss U _ _ _ Hrss)) as Hd.
  unfold rsquared, auto_attr. rewrite Hnone.
  unfold mbind, M_bind. rewrite Hrss. simpl. rewrite Hd.
  eexists. eexists. split; [reflexivity |].
  split; [reflexivity |].
  split; [apply clean_up_in_unit_interval | apply clean_up_non_finite].
Qed.

End Goodness.

Lemma rsquared_within_unit_interval_witness :
  let s := Scenario.lazy_state "2step" in
  dict (self s) !! "rsquared" = None /\
  fst (rss Scenario.routines s) = Ok (VFloat (S754_finite false 4503599627370496 (-53))) /\
  exists v s', rsquared Scenario.routines s = (Ok v, s') /\ in_unit_interval v = true.
Proof.
  intros s.
  assert (Hv : fst (rss Scenario.routines s) =
               Ok (VFloat (S754_finite false 4503599627370496 (-53)))).
  { vm_compute. reflexivity. }
  assert (Hc : rss Scenario.routines s =
               (fst (rss Scenario.routines s), snd (rss Scenario.routines s)))
    by apply surjective_pairing.
  rewrite Hv in Hc.
  destruct (rsquared_within_unit_interval Scenario.routines s _ _ eq_refl Hc)
    as (v & s' & H1 & _ & H2 & _).
  split; [reflexivity |]. split; [exact Hv |].
  exists v, s'. split; assumption.
Defined.

(** ** Construction *)

Section Constructed.

Variable U : Routines.

Lemma bind_ok {A B : Type} (c : M A) (k : A -> M B) (s s' : state) (b : B) :
  (c ≫= k) s = (Ok b, s') ->
  exists a s1, c s = (Ok a, s1) /\ k a s1 = (Ok b, s').
Proof.
  unfold mbind, M_bind. destruct (c s) as [[a|e] s1]; [eauto | discriminate].
Qed.

Lemma steady_reading {A : Type} (c : M A) : reading c -> steady c.
Proof.
  intros H s r s' E. destruct (H s r s' E) as [C _ _].
  apply (f_equal configuration) in C. exact C.
Qed.

Lemma steady_ret {A : Type} (a : A) : steady (mret a).
Proof. intros s r s' [= <- <-]. reflexivity. Qed.

Lemma steady_bind {A B : Type} (c : M A) (k : A -> M B) :
  steady c -> (forall a, steady (k a)) -> steady (c ≫= k).
Proof.
  intros Hc Hk s r s'. unfold mbind, M_bind.
  destruct (c s) as [[a|e] s1] eqn:Ec; intros H.
  - rewrite (Hk _ _ _ _ H). eapply Hc, Ec.
  - injection H as <- <-. eapply Hc, Ec.
Qed.

Lemma steady_when (b : bool) (c : M unit) : steady c -> steady (when b c).
Proof. destruct b; [auto | intros _; apply steady_ret]. Qed.

Lemma steady_setattr (name : string) (v : value) : steady (setattr name v).
Proof. intros s r s' [= <- <-]. reflexivity. Qed.

Lemma steady_set_time (which : bool) : steady (set_time U which).
Proof.
  unfold set_time. apply steady_bind.
  - intros s r s' [= <- <-]. reflexivity.
  - intros t s r s' [= <- <-]. destruct which; reflexivity.
Qed.

Lemma steady_flush : steady flush.
Proof.
  unfold flush. repeat (apply steady_bind; [apply steady_setattr | intros ?]).
  apply steady_setattr.
Qed.

Lemma steady_automatic_fitting (fm : string) : steady (automatic_fitting U fm).
Proof.
  unfold automatic_fitting.
  repeat first
    [ apply steady_set_time
    | apply steady_flush
    | apply steady_when
    | apply steady_bind; [| intros ?]
    | apply steady_reading; reading_tac;
      eauto using reading_ballpark, reading_estimate, reading_overloaded_estimate,
        reading_rss, reading_rsquared, reading_msg with reading ].
Qed.

(** A construction that returns: no statement before the automatic fit
    has raised, and the automatic fit, if any, has returned. *)
Lemma init_ok m d gs bs vi ns af go fm ol nu vb f l :
  init U m d gs bs vi ns af go fm ol nu vb = (Ok f, l) ->
  exists v vv dva sd,
    set_verbose vb = Ok (v, vv) /\
    is_valid_fit_method fm = true /\
    screen_dva (stimulus m) = Some dva /\
    match nu with Some n => n d = Ok sd | None => sd = d end /\
    let f0 := new_fit m d sd gs bs vi ns af go fm ol nu v vv dva in
    let l0 := match nu with Some _ => [NuisanceCall] | None => [] end in
    if af then automatic_fitting U fm {| self := f0; log := l0 |} =
               (Ok tt, {| self := f; log := l |})
    else f = f0 /\ l = l0.
Proof.
  unfold init. destruct (set_verbose vb) as [[v vv]|]; [| discriminate].
  destruct (is_valid_fit_method fm); simpl; [| discriminate].
  destruct (screen_dva (stimulus m)) as [dva|]; [| discriminate].
  assert (Hn : forall sd l0, apply_nuisance nu d = (Ok sd, l0) ->
                 match nu with Some n => n d = Ok sd | None => sd = d end /\
                 l0 = match nu with Some _ => [NuisanceCall] | None => [] end).
  { unfold apply_nuisance. destruct nu as [n|]; intros sd l0 [= H <-]; auto. }
  destruct (apply_nuisance nu d) as [[sd|] l0]; [| discriminate].
  destruct (Hn sd l0 eq_refl) as [Hsd ->]. clear Hn.
  intros H. exists v, vv, dva, sd. repeat (split; [auto; fail |]). cbv zeta.
  destruct af.
  - destruct (automatic_fitting U fm _) as [[[]|e] [f1 l1]]; [| discriminate].
    injection H as <- <-. reflexivity.
  - injection H as <- <-. auto.
Qed.

(** What the constructor fixes, whether or not it fits automatically. *)
Lemma init_configuration m d gs bs vi ns af go fm ol nu vb f l :
  init U m d gs bs vi ns af go fm ol nu vb = (Ok f, l) ->
  is_valid_fit_method fm = true /\
  fit_method f = (if go then "grid_only" else fm) /\
  (exists dva, screen_dva (stimulus m) = Some dva /\
               constraints f = make_constraints ol dva) /\
  match nu with Some n => n d = Ok (data f) | None => data f = d end /\
  forget (model f) = forget (set_model_data d m) /\
  bounds f = bs.
Proof.
  intros H. destruct (init_ok _ _ _ _ _ _ _ _ _ _ _ _ _ _ H)
    as (v & vv & dva & sd & _ & Hfm & Hdva & Hsd & Hrun).
  cbv zeta in Hrun. split; [exact Hfm |].
  assert (C : configuration f =
              configuration (new_fit m d sd gs bs vi ns af go fm ol nu v vv dva)).
  { destruct af.
    - exact (steady_automatic_fitting fm _ _ _ Hrun).
    - destruct Hrun as [-> _]. reflexivity. }
  split; [exact (f_equal fit_method C) |].
  split; [exists dva; split; [exact Hdva | exact (f_equal constraints C)] |].
  split.
  - apply (f_equal data) in C. simpl in C. rewrite C. destruct nu; congruence.
  - split; [exact (f_equal model C) | exact (f_equal bounds C)].
Qed.

End Constructed.

(** ** The constraint set *)

Section Constraints.

Variable U : Routines.

Lemma auto_attr_computed (name : string) (getter : M value) (s s' : state) (v : value) :
  dict (self s) !! name = None ->
  auto_attr name getter s = (Ok v, s') ->
  exists s1, getter s = (Ok v, s1).
Proof.
  intros Hnone. unfold auto_attr. rewrite Hnone.
  destruct (getter s) as [[w|e] s1]; [| discriminate].
  intros [= <- <-]. eauto.
Qed.

Lemma leb_not_below (v ub : float) : F.leb v ub = true -> F.leb F.neg_inf v = true.
Proof.
  destruct v as [[]|[]| |[] ? ?]; try reflexivity.
  unfold F.leb, SFleb, SFcompare. discriminate.
Qed.

(** With the lower bound at minus infinity only the upper bound binds. *)
Lemma satisfied_upper (c : NonlinearConstraint) (x : array) :
  c_lb c = F.neg_inf ->
  satisfied c x = true <-> exists v, c_fun c x = Ok v /\ F.leb v (c_ub c) = true.
Proof.
  intros Hlb. unfold satisfied. rewrite Hlb. destruct (c_fun c x) as [v|e].
  - split.
    + intros H. apply andb_true_iff in H. destruct H as [_ H]. eauto.
    + intros (w & [= <-] & H). rewrite H, (leb_not_below _ _ H). reflexivity.
  - split; [discriminate | intros (w & Hw & _); discriminate].
Qed.

Lemma continues_configuration (s s' : state) :
  continues s s' -> configuration (self s') = configuration (self s).
Proof. intros [C _ _]. apply (f_equal configuration) in C. exact C. Qed.

(** C4.  A constructed fit carries exactly two nonlinear constraints:
    [sqrt(x[0]^2 + x[1]^2)] with upper bound [screen_dva], the display
    extent of the stimulus of the model, and
    [sqrt(x[0]^2 + x[1]^2) - outer_limit * x[2]] with upper bound
    [screen_dva / 2]; both lower bounds are minus infinity, so a
    constraint holds exactly when its function is at most the upper bound;
    and gradient descent and the global search are called with these two
    constraints. *)
Theorem two_nonlinear_constraints m d gs bs vi ns af go fm ol nu vb f l :
  init U m d gs bs vi ns af go fm ol nu vb = (Ok f, l) ->
  exists dva a b,
    screen_dva (stimulus m) = Some dva /\
    constraints f = [a; b] /\
    (forall x0 x1 rest,
        c_fun a (x0 :: x1 :: rest) = Ok (F.sqrt (F.add (F.mul x0 x0) (F.mul x1 x1)))) /\
    c_lb a = F.neg_inf /\
    c_ub a = dva /\
    (forall x0 x1 x2 rest,
        c_fun b (x0 :: x1 :: x2 :: rest) =
        Ok (F.sub (F.sqrt (F.add (F.mul x0 x0) (F.mul x1 x1))) (F.mul ol x2))) /\
    c_lb b = F.neg_inf /\
    c_ub b = F.div dva F.two /\
    (forall x, satisfied a x = true <->
               exists v, c_fun a x = Ok v /\ F.leb v dva = true) /\
    (forall x, satisfied b x = true <->
               exists v, c_fun b x = Ok v /\ F.leb v (F.div dva F.two) = true) /\
    (forall s v s',
        configuration (self s) = configuration f ->
        dict (self s) !! "gradient_descent" = None ->
        gradient_descent U s = (Ok v, s') ->
        exists d g seed bs' vv,
          gradient_descent_search U d utils_error_function g seed bs' vv [a; b] = Ok v) /\
    (forall s v s',
        configuration (self s) = configuration f ->
        dict (self s) !! "global_opt" = None ->
        global_opt U s = (Ok v, s') ->
        exists d g bs' vv,
          global_search U d utils_error_function g bs' vv [a; b] 8 (-1) = Ok v).
Proof.
  intros Hinit.
  destruct (init_configuration U _ _ _ _ _ _ _ _ _ _ _ _ _ _ Hinit)
    as (_ & _ & (dva & Hdva & Hc) & _).
  unfold make_constraints in Hc.
  exists dva. eexists. eexists. split; [exact Hdva |]. split; [exact Hc |]. simpl.
  repeat split; try reflexivity.
  - apply (satisfied_upper {| c_fun := radial_distance; c_lb := F.neg_inf;
                              c_ub := dva |}). reflexivity.
  - apply (satisfied_upper {| c_fun := radial_distance; c_lb := F.neg_inf;
                              c_ub := dva |}). reflexivity.
  - apply (satisfied_upper {| c_fun := outer_distance ol; c_lb := F.neg_inf;
                              c_ub := F.div dva F.two |}).
    reflexivity.
  - apply (satisfied_upper {| c_fun := outer_distance ol; c_lb := F.neg_inf;
                              c_ub := F.div dva F.two |}).
    reflexivity.
  - intros s v s' Hconf Hnone Hgd.
    apply (f_equal constraints) in Hconf. simpl in Hconf. rewrite Hc in Hconf.
    destruct (auto_attr_computed _ _ _ _ _ Hnone Hgd) as [s1 Hg].
    apply bind_ok in Hg. destruct Hg as (f0 & s2 & [= <- <-] & Hg).
    apply bind_ok in Hg. destruct Hg as ([] & s3 & Hw & Hg).
    apply bind_ok in Hg. destruct Hg as (bp & s4 & Hbp & Hg).
    apply bind_ok in Hg. destruct Hg as (f1 & s5 & [= <- <-] & Hg).
    apply bind_ok in Hg. destruct Hg as ([] & s6 & [= <-] & Hg).
    injection Hg as Hg _.
    assert (Hw' : continues s s3).
    { revert Hw. apply reading_when.
      apply reading_bind; [apply reading_ballpark |].
      intros ?. apply reading_emit. intros [] ?; reflexivity. }
    pose proof (reading_ballpark U _ _ _ Hbp) as Hb'.
    pose proof (continues_configuration _ _ (continues_trans _ _ _ Hw' Hb')) as C.
    apply (f_equal constraints) in C. simpl in C.
    rewrite C, Hconf in Hg. eauto 10.
  - intros s v s' Hconf Hnone Hgo.
    apply (f_equal constraints) in Hconf. simpl in Hconf. rewrite Hc in Hconf.
    destruct (auto_attr_computed _ _ _ _ _ Hnone Hgo) as [s1 Hg].
    apply bind_ok in Hg. destruct Hg as (f0 & s2 & [= <- <-] & Hg).
    apply bind_ok in Hg. destruct Hg as ([] & s3 & [= <-] & Hg).
    injection Hg as Hg _. simpl in Hg.
    rewrite Hconf in Hg. eauto 10.
Qed.

End Constraints.

Lemma two_nonlinear_constraints_witness :
  exists f,
    Scenario.construct false false "2step" None 0 = (Ok f, []) /\
    length (constraints f) = 2%nat.
Proof.
  assert (H : Scenario.construct false false "2step" None 0 =
              (Ok (Scenario.lazy_fit "2step" Scenario.gaussian Scenario.open_bounds), []))
    by reflexivity.
  destruct (two_nonlinear_constraints Scenario.routines _ _ _ _ _ _ _ _ _ _ _ _ _ _ H)
    as (dva & a & b & _ & Hc & _).
  eexists. split; [exact H |]. rewrite Hc. reflexivity.
Defined.

(** ** The fit method *)

Section FitMethod.

Variable U : Routines.

Lemma valid_fit_method_cases (fm : string) :
  if is_valid_fit_method fm
  then fm = "2step" \/ fm = "grid_only" \/ fm = "global_opt"
  else fm <> "2step" /\ fm <> "grid_only" /\ fm <> "global_opt".
Proof.
  unfold is_valid_fit_method, valid_fit_methods. simpl.
  destruct (String.eqb_spec fm "2step") as [->|H1]; simpl; [auto |].
  destruct (String.eqb_spec fm "grid_only") as [->|H2]; simpl; [auto |].
  destruct (String.eqb_spec fm "global_opt") as [->|H3]; simpl; auto.
Qed.

Lemma set_verbose_ok (vb : Z) :
  is_ok (set_verbose vb) = true <-> (vb = 0 \/ vb = 1 \/ vb = 2)%Z.
Proof.
  unfold set_verbose.
  destruct (Z.eqb_spec vb 0); [simpl; intuition |].
  destruct (Z.eqb_spec vb 1); [simpl; intuition |].
  destruct (Z.eqb_spec vb 2); [simpl; intuition |].
  simpl. intuition discriminate.
Qed.

Lemma set_verbose_raises (vb : Z) :
  is_ok (set_verbose vb) = false -> set_verbose vb = Raise UnboundLocalError.
Proof.
  unfold set_verbose.
  destruct (vb =? 0)%Z; [discriminate |]. destruct (vb =? 1)%Z; [discriminate |].
  destruct (vb =? 2)%Z; [discriminate | reflexivity].
Qed.

(** C6 (as amended).  The fit method is valid exactly when it is one of
    ['2step'], ['grid_only'], ['global_opt'].  With an invalid one the
    constructor raises, whatever the other arguments: the assertion
    error, or the error of [set_verbose] when [verbose] is not 0, 1 or 2.
    With [auto_fit] disabled it returns a fit exactly when the fit method
    is valid, [verbose] is 0, 1 or 2, the stimulus of the model has the
    attribute [screen_dva], and the nuisance function, if there is one,
    returns.  With a valid fit method it raises the error of
    [set_verbose], else the attribute error when [screen_dva] is missing,
    else what the nuisance function raises, automatic fit or not. *)
Theorem construction_returns_iff m d gs bs vi ns go fm ol nu vb :
  (is_valid_fit_method fm = true <->
   fm = "2step" \/ fm = "grid_only" \/ fm = "global_opt") /\
  (is_valid_fit_method fm = false ->
   forall af, init U m d gs bs vi ns af go fm ol nu vb =
              (Raise (if is_ok (set_verbose vb) then AssertionError
                      else UnboundLocalError), [])) /\
  ((exists f l, init U m d gs bs vi ns false go fm ol nu vb = (Ok f, l)) <->
   is_valid_fit_method fm = true /\
   (vb = 0 \/ vb = 1 \/ vb = 2)%Z /\
   screen_dva (stimulus m) <> None /\
   match nu with Some n => is_ok (n d) = true | None => True end) /\
  (is_valid_fit_method fm = true ->
   forall af,
     (is_ok (set_verbose vb) = false ->
      init U m d gs bs vi ns af go fm ol nu vb = (Raise UnboundLocalError, [])) /\
     (is_ok (set_verbose vb) = true -> screen_dva (stimulus m) = None ->
      init U m d gs bs vi ns af go fm ol nu vb = (Raise AttributeError, [])) /\
     (is_ok (set_verbose vb) = true -> screen_dva (stimulus m) <> None ->
      forall n e, nu = Some n -> n d = Raise e ->
      init U m d gs bs vi ns af go fm ol nu vb = (Raise e, [NuisanceCall]))).
Proof.
  pose proof (valid_fit_method_cases fm) as Hcases.
  pose proof (set_verbose_ok vb) as Hvb.
  pose proof (set_verbose_raises vb) as Hraise.
  split; [| split; [| split]].
  - destruct (is_valid_fit_method fm); split; intros H; try reflexivity;
      try discriminate; try exact Hcases.
    destruct Hcases as (H1 & H2 & H3). destruct H as [H|[H|H]]; contradiction.
  - intros Hfm af. unfold init.
    destruct (set_verbose vb) as [[v vv]|e].
    + rewrite Hfm. reflexivity.
    + injection (Hraise eq_refl) as ->. reflexivity.
  - split.
    + intros (f & l & H).
      destruct (init_ok U _ _ _ _ _ _ _ _ _ _ _ _ _ _ H)
        as (v & vv & dva & sd & Hv & Hfm & Hdva & Hsd & _).
      split; [exact Hfm |]. split; [apply Hvb; rewrite Hv; reflexivity |].
      split; [rewrite Hdva; discriminate |].
      destruct nu as [n|]; [rewrite Hsd; reflexivity | exact I].
    + intros (Hfm & Hv & Hdva & Hnu). apply Hvb in Hv. unfold init.
      destruct (set_verbose vb) as [[v vv]|]; [| discriminate].
      rewrite Hfm. simpl.
      destruct (screen_dva (stimulus m)) as [dva|]; [| contradiction].
      unfold apply_nuisance. destruct nu as [n|]; [| eauto].
      destruct (n d) as [sd|]; [eauto | discriminate].
  - intros Hfm af. unfold init. repeat split.
    + intros Hv. destruct (set_verbose vb) as [[v vv]|e]; [discriminate |].
      injection (Hraise eq_refl) as ->. reflexivity.
    + intros Hv Hdva. destruct (set_verbose vb) as [[v vv]|]; [| discriminate].
      rewrite Hfm, Hdva. reflexivity.
    + intros Hv Hdva n e -> Hn. destruct (set_verbose vb) as [[v vv]|]; [| discriminate].
      rewrite Hfm. simpl.
      destruct (screen_dva (stimulus m)) as [dva|]; [| contradiction].
      simpl. rewrite Hn. reflexivity.
Qed.

End FitMethod.

(** C6 (as stated) fails: with the valid fit method ['2step'] and
    [auto_fit] disabled, the constructor raises on [verbose=3], on a
    model whose stimulus is a plain [StimulusModel], without
    [screen_dva], and on a nuisance function that raises; with
    [auto_fit] enabled, the fit method ['grid_only'] and [verbose=1] it
    raises as well. *)
Lemma valid_fit_method_construction_raises :
  is_valid_fit_method "2step" = true /\
  Scenario.construct false false "2step" None 3 = (Raise UnboundLocalError, []) /\
  init Scenario.routines Cases.bare Scenario.signal Scenario.search_grid
    Scenario.open_bounds (1, 2, 3)%Z (Some 2%nat) false false "2step" (F.of_Z 2) None 0
    = (Raise AttributeError, []) /\
  Scenario.construct false false "2step" (Some Cases.failing) 0 =
    (Raise ValueError, [NuisanceCall]) /\
  is_valid_fit_method "grid_only" = true /\
  fst (Scenario.construct true false "grid_only" None 1) = Raise AttributeError.
Proof. repeat split; vm_compute; reflexivity. Qed.

(** C7 at the failing input: with a nuisance function (here the removal of
    the mean) the fit holds the processed data, after one application of
    the function, but the data pushed down to the model is the raw data. *)
Theorem model_receives_raw_data :
  exists f,
    Scenario.construct false false "2step" (Some Scenario.demean) 0 =
      (Ok f, [NuisanceCall]) /\
    Scenario.demean Scenario.signal = Ok (data f) /\
    model_data (model f) = Some Scenario.signal /\
    data f <> Scenario.signal.
Proof.
  eexists. split; [reflexivity |].
  split; [reflexivity |]. split; [reflexivity |].
  vm_compute. discriminate.
Qed.

(** C10 at the failing input: constructed with [grid_only=True] and
    [fit_method='2step'], the fit has the method ['grid_only'], yet the
    automatic fit has called the gradient descent, which the automatic fit
    of [fit_method='grid_only'] does not. *)
Theorem grid_only_flag_runs_gradient_descent :
  is_ok (fst (Scenario.construct true true "2step" None 0)) = true /\
  fit_method (self (Scenario.fitted_state true "2step")) = "grid_only" /\
  occurs GradientDescentSearch (log (Scenario.fitted_state true "2step")) = true /\
  is_ok (fst (Scenario.construct true false "grid_only" None 0)) = true /\
  occurs GradientDescentSearch (log (Scenario.fitted_state false "grid_only")) = false.
Proof. repeat split; vm_compute; reflexivity. Qed.

(** C2 at the failing input: for the fit of method ['grid_only'] obtained
    with [grid_only=True] and the default [fit_method='2step'], the
    prediction is the model's prediction at the ballpark vector, but the
    construction has run the gradient descent once. *)
Theorem grid_only_prediction_after_refinement :
  let s := Scenario.fitted_state true "2step" in
  fit_method (self s) = "grid_only" /\
  (exists bp args p,
      fst (ballpark Scenario.routines s) = Ok bp /\
      Py.iterate bp = Ok args /\
      bound (model (self s)) (generate_prediction (model (self s))) args [] = Ok p /\
      fst (prediction Scenario.routines s) = Ok (VArray p)) /\
  executions "gradient_descent" (log s) = 1%nat.
Proof.
  intros s. split; [vm_compute; reflexivity |].
  split; [| vm_compute; reflexivity].
  exists (VArray [F.one; F.zero; F.one;
                  S754_finite false 5629499534213119 (-51);
                  S754_finite false 4503599627370497 (-52)]).
  exists (map VFloat [F.one; F.zero; F.one;
                      S754_finite false 5629499534213119 (-51);
                      S754_finite false 4503599627370497 (-52)]).
  exists [S754_finite false 7881299347898368 (-51);
          S754_finite false 4503599627370497 (-52);
          S754_finite false 7881299347898368 (-51)].
  split; [vm_compute; reflexivity |].
  split; [reflexivity |].
  split; vm_compute; reflexivity.
Qed.

(** ** The ballpark estimate *)

Section Ballpark.

Variable U : Routines.

Lemma auto_attr_miss (name : string) (getter : M value) (s s' : state) (v : value) :
  dict (self s) !! name = None ->
  auto_attr name getter s = (Ok v, s') ->
  exists s1, getter s = (Ok v, s1) /\
             s' = {| self := set_dict (<[name := v]> (dict (self s1))) (self s1);
                     log := log s1 ++ [Computed name v] |}.
Proof.
  intros Hnone. unfold auto_attr. rewrite Hnone.
  destruct (getter s) as [[w|e] s1]; [| discriminate].
  intros [= <- <-]. eauto.
Qed.

(** A read that returns leaves the attribute stored. *)
Lemma auto_attr_ok (name : string) (getter : M value) (s s' : state) (v : value) :
  auto_attr name getter s = (Ok v, s') -> dict (self s') !! name = Some v.
Proof.
  unfold auto_attr. destruct (dict (self s) !! name) as [w|] eqn:E.
  - intros [= <- <-]. exact E.
  - destruct (getter s) as [[w|e] s1]; [| discriminate].
    intros [= <- <-]. simpl. apply lookup_insert_eq.
Qed.

End Ballpark.

(** C1 at the failing input: the model has the three free parameters
    [x], [y] and [sigma]; its ballpark prediction has the signature
    [(x, y, sigma, data=None, unscaled=False)] that the call in
    [ballpark_prediction] needs, and the grid has three dimensions.
    Under ['2step'] and ['grid_only'] the ballpark estimate is the
    combination found by the grid search, extended with the slope and the
    intercept of the regression: 3 + 2 entries.  Under ['global_opt'] it
    is a vector of 7 unset entries: [ballpark] counts the parameters of
    the signature, [data] and [unscaled] included, and adds two. *)
Theorem global_opt_placeholder_counts_the_signature :
  let search := Scenario.lazy_state "2step" in
  let grid := Scenario.lazy_state "grid_only" in
  let global := Scenario.lazy_state "global_opt" in
  let x0 := [F.one; F.zero; F.one] in
  let sl := S754_finite false 5629499534213119 (-51) in
  let ic := S754_finite false 4503599627370497 (-52) in
  free_parameter_count Scenario.gaussian = 3%nat /\
  length Scenario.search_grid = 3%nat /\
  signature_length (generate_ballpark_prediction Scenario.gaussian) = 5%nat /\
  (exists e, fst (brute_force Scenario.routines search) =
             Ok (VTuple [VArray x0; VFloat e; VNone; VNone])) /\
  fst (regression Scenario.routines search) = Ok (sl, ic) /\
  fst (ballpark Scenario.routines search) = Ok (VArray (x0 ++ [sl; ic])) /\
  fst (ballpark Scenario.routines grid) = Ok (VArray (x0 ++ [sl; ic])) /\
  Py.len (VArray (x0 ++ [sl; ic])) = Ok (free_parameter_count Scenario.gaussian + 2)%nat /\
  fst (ballpark Scenario.routines global) = Ok (Py.np_tile_None 7) /\
  Py.len (Py.np_tile_None 7) = Ok 7%nat /\
  7%nat <> (free_parameter_count Scenario.gaussian + 2)%nat.
Proof.
  cbv zeta. split; [reflexivity |]. split; [reflexivity |]. split; [reflexivity |].
  split; [eexists; vm_compute; reflexivity |].
  split; [vm_compute; reflexivity |]. split; [vm_compute; reflexivity |].
  split; [vm_compute; reflexivity |]. split; [reflexivity |].
  split; [vm_compute; reflexivity |]. split; [reflexivity | discriminate].
Qed.

(** ** The estimate *)

Section Estimate.

Variable U : Routines.






End Estimate.



(** ** The cached model *)

Section CacheModel.

Lemma insert_key_permutation (k : float * nat) (l : list (float * nat)) :
  Permutation (Np.insert_key k l) (k :: l).
Proof.
  induction l as [|h t IH]; simpl.
  - reflexivity.
  - destruct (F.ltb (fst h) (fst k)).
    + rewrite IH. apply perm_swap.
    + reflexivity.
Qed.

Lemma insertion_permutation (l : list (float * nat)) :
  Permutation (fold_right Np.insert_key [] l) l.
Proof.
  induction l as [|k l IH]; simpl.
  - reflexivity.
  - rewrite insert_key_permutation. constructor. exact IH.
Qed.

Lemma map_snd_combine {A B : Type} (l : list A) (l' : list B) :
  length l = length l' -> map snd (combine l l') = l'.
Proof.
  revert l'. induction l as [|a l IH]; intros [|b l']; simpl; try discriminate.
  - reflexivity.
  - intros [= H]. f_equal. apply IH, H.
Qed.

(** [np.argsort] returns a permutation of the indices. *)
Lemma argsort_permutation (keys : array) :
  Permutation (Np.argsort keys) (seq 0 (length keys)).
Proof.
  unfold Np.argsort. rewrite insertion_permutation.
  rewrite map_snd_combine; [reflexivity |]. rewrite length_seq. reflexivity.
Qed.

Lemma take_rows_in_range (combos : list array) (idx : list nat) :
  Forall (fun i => (i < length combos)%nat) idx ->
  take_rows combos idx = Ok (map (fun i => nth i combos []) idx).
Proof.
  unfold take_rows. induction 1 as [|i idx Hi _ IH]; simpl.
  - reflexivity.
  - destruct (combos !! i) as [c|] eqn:Ec.
    + simpl. unfold mbind, result_bind, rbind in *. rewrite IH.
      f_equal. f_equal. symmetry. apply nth_lookup_Some with (d := []) in Ec.
      exact Ec.
    + apply lookup_ge_None in Ec. lia.
Qed.

Lemma map_nth_seq {A : Type} (l : list A) (d : A) :
  map (fun i => nth i l d) (seq 0 (length l)) = l.
Proof.
  apply nth_ext with (d := d) (d' := d).
  - rewrite length_map, length_seq. reflexivity.
  - intros n Hn. rewrite length_map, length_seq in Hn.
    rewrite (nth_indep _ d (nth 0 l d)) by (rewrite length_map, length_seq; exact Hn).
    change (nth 0 l d) with ((fun i => nth i l d) 0%nat).
    rewrite map_nth, seq_nth by exact Hn. reflexivity.
Qed.

(** Indexing by a permutation of the indices permutes the rows. *)
Lemma take_rows_permutation (combos : list array) (idx : list nat) :
  Permutation idx (seq 0 (length combos)) ->
  exists rows, take_rows combos idx = Ok rows /\ Permutation rows combos.
Proof.
  intros Hp. exists (map (fun i => nth i combos []) idx). split.
  - apply take_rows_in_range. apply List.Forall_forall. intros i Hi.
    apply (Permutation_in _ Hp), in_seq in Hi. lia.
  - rewrite (Permutation_map _ Hp). rewrite map_nth_seq. reflexivity.
Qed.

Lemma rmap_ok {A B : Type} (f : A -> result B) (l : list A) (r : list B) :
  rmap f l = Ok r -> Forall2 (fun a b => f a = Ok b) l r.
Proof.
  revert r. induction l as [|a l IH]; intros r; simpl.
  - intros [= <-]. constructor.
  - unfold mbind, result_bind, rbind. destruct (f a) as [b|] eqn:Ea; [| discriminate].
    destruct (rmap f l) as [bs|]; [| discriminate].
    intros [= <-]. constructor; [exact Ea | apply IH; reflexivity].
Qed.

Lemma mini_predictor_combo (m : PopulationModel) (combo : array) (e : array * array) :
  mini_predictor m combo = Ok e -> snd e = combo.
Proof.
  unfold mini_predictor, mbind, result_bind, rbind.
  destruct (bound m (generate_prediction m) _ _); [| discriminate].
  destruct (bound _ _ _ _); [| discriminate].
  intros [= <-]. reflexivity.
Qed.

Lemma isnan_add_l (x y : float) : F.isnan x = true -> F.isnan (F.add x y) = true.
Proof. destruct x; try discriminate. reflexivity. Qed.

Lemma isnan_add_r (x y : float) : F.isnan y = true -> F.isnan (F.add x y) = true.
Proof. destruct y; try discriminate. destruct x; reflexivity. Qed.

Lemma accumulate_nan (a : array) (acc : float) :
  F.isnan acc || existsb F.isnan a = true -> F.isnan (Np.accumulate acc a) = true.
Proof.
  unfold Np.accumulate. revert acc. induction a as [|y a IH]; intros acc; simpl.
  - rewrite orb_false_r. auto.
  - intros H. apply IH. rewrite orb_assoc in H.
    apply orb_true_iff in H. destruct H as [H|H]; [| rewrite H; apply orb_true_r].
    apply orb_true_iff in H.
    destruct H as [H|H]; [rewrite (isnan_add_l _ _ H) | rewrite (isnan_add_r _ _ H)];
      reflexivity.
Qed.

Lemma zip_add_nan (r b : array) :
  length r = length b ->
  existsb F.isnan r || existsb F.isnan b = true ->
  existsb F.isnan (zip_with F.add r b) = true.
Proof.
  revert b. induction r as [|x r IH]; intros [|y b] Hl H; simpl in *;
    try discriminate.
  injection Hl as Hl.
  destruct (F.isnan x) eqn:Hx; [rewrite (isnan_add_l _ _ Hx); reflexivity |].
  destruct (F.isnan y) eqn:Hy; [rewrite (isnan_add_r _ _ Hy); reflexivity |].
  simpl in H. rewrite (IH b Hl H). apply orb_true_r.
Qed.

Lemma existsb_take_drop (n : nat) (a : array) :
  existsb F.isnan a = existsb F.isnan (take n a) || existsb F.isnan (drop n a).
Proof. rewrite <- existsb_app, take_drop. reflexivity. Qed.

Lemma add_blocks_nan (blocks : nat) (r a r' rest : array) :
  length r = 8%nat -> (8 * blocks <= length a)%nat ->
  Np.add_blocks r a blocks = (r', rest) ->
  existsb F.isnan r || existsb F.isnan a = true ->
  length r' = 8%nat /\ existsb F.isnan r' || existsb F.isnan rest = true.
Proof.
  revert r a. induction blocks as [|k IH]; intros r a Hr Ha; simpl.
  - intros [= <- <-] H. auto.
  - intros E H.
    assert (Ht : length (take 8 a) = 8%nat) by (rewrite length_take; lia).
    apply IH in E.
    + exact E.
    + rewrite length_zip_with, Hr, Ht. reflexivity.
    + rewrite length_drop. lia.
    + rewrite (existsb_take_drop 8 a), orb_assoc in H.
      apply orb_true_iff in H. destruct H as [H|H]; [| rewrite H; apply orb_true_r].
      rewrite (zip_add_nan r (take 8 a)); [reflexivity | lia | exact H].
Qed.

Lemma add_accumulators_nan (r : array) :
  length r = 8%nat -> existsb F.isnan r = true -> F.isnan (Np.add_accumulators r) = true.
Proof.
  destruct r as [|r0 [|r1 [|r2 [|r3 [|r4 [|r5 [|r6 [|r7 [|r8 r]]]]]]]]]; try discriminate.
  intros _ H. simpl in H. unfold Np.add_accumulators.
  repeat (apply orb_true_iff in H; destruct H as [H|H]);
    try discriminate;
    auto 6 using isnan_add_l, isnan_add_r.
Qed.

Lemma block_sum_nan (a : array) :
  (8 <= length a)%nat -> existsb F.isnan a = true -> F.isnan (Np.block_sum a) = true.
Proof.
  intros Hn H. unfold Np.block_sum.
  destruct (Np.add_blocks (take 8 a) (drop 8 a) (length a / 8 - 1)) as [r rest] eqn:E.
  apply add_blocks_nan in E.
  - destruct E as [Hr E]. apply accumulate_nan.
    apply orb_true_iff in E. destruct E as [E|E]; [| rewrite E; apply orb_true_r].
    rewrite (add_accumulators_nan r Hr E). reflexivity.
  - rewrite length_take. lia.
  - rewrite length_drop. pose proof (Nat.Div0.mul_div_le (length a) 8). lia.
  - rewrite <- existsb_take_drop. exact H.
Qed.

Lemma pairwise_sum_nan (fuel : nat) (a : array) :
  existsb F.isnan a = true -> F.isnan (Np.pairwise_sum fuel a) = true.
Proof.
  revert a. induction fuel as [|k IH]; intros a H; simpl;
    destruct (Nat.ltb_spec (length a) 8) as [H8|H8];
    try (apply accumulate_nan; rewrite H; apply orb_true_r);
    destruct (Nat.leb_spec (length a) 128) as [H128|H128];
    try (apply block_sum_nan; assumption).
  rewrite (existsb_take_drop (length a / 2 - (length a / 2) mod 8) a) in H.
  apply orb_true_iff in H.
  destruct H as [H|H]; [apply isnan_add_l | apply isnan_add_r]; apply IH, H.
Qed.

(** A NaN entry makes the sum NaN. *)
Lemma sum_nan (a : array) (x : float) :
  In x a -> F.isnan x = true -> F.isnan (Np.sum a) = true.
Proof.
  intros Hin Hx. unfold Np.sum. apply isnan_add_r, pairwise_sum_nan.
  apply existsb_exists. exists x. split; assumption.
Qed.

(** The fuel given to [pairwise_sum] is enough: more changes nothing. *)
Lemma pairwise_sum_fuel (fuel fuel' : nat) (a : array) :
  (length a <= fuel)%nat -> (length a <= fuel')%nat ->
  Np.pairwise_sum fuel a = Np.pairwise_sum fuel' a.
Proof.
  revert fuel' a. induction fuel as [|k IH]; intros [|k'] a H H';
    cbn -[Nat.div Nat.modulo Nat.ltb Nat.leb];
    try reflexivity;
    destruct (Nat.ltb_spec (length a) 8) as [H8|H8]; try reflexivity; try lia;
    destruct (Nat.leb_spec (length a) 128) as [H128|H128]; try reflexivity.
  pose proof (Nat.Div0.mul_div_le (length a) 2) as Hd.
  pose proof (Nat.Div0.mod_le (length a / 2) 8) as Hm.
  assert (Hu : ((length a / 2) mod 8 < 8)%nat) by (apply Nat.mod_upper_bound; discriminate).
  assert (Hh : (64 <= length a / 2)%nat).
  { apply (Nat.div_le_lower_bound (length a) 2 64); lia. }
  f_equal; apply IH; rewrite ?length_take, ?length_drop; lia.
Qed.

Lemma evaluated_combos (m : PopulationModel) (rows : list array)
    (evaluated : list (array * array)) :
  rmap (mini_predictor m) rows = Ok evaluated -> map snd evaluated = rows.
Proof.
  intros H. apply rmap_ok in H. induction H as [|c e rows evaluated Hc _ IH]; simpl.
  - reflexivity.
  - rewrite (mini_predictor_combo _ _ _ Hc), IH. reflexivity.
Qed.

(** C9 (as amended).  [cache_model] raises what the sampling of the grid
    raises; otherwise it takes the combinations of the Cartesian product
    of the per-dimension samples in the order given by the sort of the
    random draw, which is a permutation of them, and evaluates the
    predictor on each; if an evaluation raises, so does [cache_model];
    otherwise it returns, in that order, exactly the evaluated
    (prediction, parameter) pairs whose prediction has a sum that is not
    NaN.  Every pair whose prediction has a NaN entry is discarded. *)
Theorem cache_model_keeps_sums_that_are_numbers (m : PopulationModel) (gs : list grid)
    (ncpus : nat) (ns : option nat) (rand : nat -> float) :
  match parameter_space gs ns with
  | Raise e => cache_model m gs ncpus ns rand = Raise e
  | Ok ps =>
      let combos := Np.product ps in
      exists rows,
        take_rows combos (Np.argsort (map rand (seq 0 (length combos)))) = Ok rows /\
        Permutation rows combos /\
        match rmap (mini_predictor m) rows with
        | Raise e => cache_model m gs ncpus ns rand = Raise e
        | Ok evaluated =>
            map snd evaluated = rows /\
            cache_model m gs ncpus ns rand = Ok (List.filter keeps evaluated) /\
            (forall e, In e (List.filter keeps evaluated) <->
                       In e evaluated /\ F.isnan (Np.sum (fst e)) = false) /\
            (forall e x, In e evaluated -> In x (fst e) -> F.isnan x = true ->
                         ~ In e (List.filter keeps evaluated))
        end
  end.
Proof.
  unfold cache_model.
  destruct (parameter_space gs ns) as [ps|e]; [| reflexivity].
  unfold mbind, result_bind, rbind. set (combos := Np.product ps).
  destruct (take_rows_permutation combos
              (Np.argsort (map rand (seq 0 (length combos))))) as (rows & Hrows & Hperm).
  { rewrite argsort_permutation, length_map, length_seq. reflexivity. }
  exists rows. rewrite Hrows. split; [reflexivity |]. split; [exact Hperm |].
  destruct (rmap (mini_predictor m) rows) as [evaluated|e] eqn:Ev; [| reflexivity].
  split; [exact (evaluated_combos m _ _ Ev) |]. split; [reflexivity |].
  split.
  - intros e. rewrite List.filter_In. unfold keeps. rewrite negb_true_iff. reflexivity.
  - intros e x He Hx Hnan Hin. apply List.filter_In in Hin. destruct Hin as [_ Hk].
    unfold keeps in Hk. rewrite (sum_nan _ _ Hx Hnan) in Hk. discriminate.
Qed.

End CacheModel.

(** C9 (as stated) fails in both directions.  For the model whose ballpark
    prediction is [(1/x, x)], sampled at [x = 0] and [x = 1], the pair of
    [x = 0] has an infinite entry and is returned.  For the model whose
    ballpark prediction swings between [x * huge] and its opposite, the
    prediction at [x = 1] has sixteen finite entries, its sum as [np.sum]
    adds them is NaN, and the pair is discarded: only the pair of [x = 0]
    is returned. *)
Lemma cache_model_tests_the_sum :
  cache_model Scenario.reciprocal Scenario.unit_grid 1 (Some 2%nat) Scenario.draw =
    Ok [([F.one; F.one], [F.one]); ([F.inf; F.zero], [F.zero])] /\
  F.isfinite F.inf = false /\
  (exists p,
     mini_predictor Cases.swinging [F.one] = Ok (p, [F.one]) /\
     length p = 16%nat /\
     forallb F.isfinite p = true /\
     Np.sum p = F.nan) /\
  cache_model Cases.swinging Scenario.unit_grid 1 (Some 2%nat) Scenario.draw =
    Ok [(replicate 16 F.zero, [F.zero])].
Proof.
  split; [vm_compute; reflexivity |]. split; [reflexivity |]. split.
  - eexists. split; [vm_compute; reflexivity |]. repeat split; vm_compute; reflexivity.
  - vm_compute. reflexivity.
Qed.

(** ** Confinement of the pipeline stages *)

Section Confinement.

Variable U : Routines.
Variable C : PopulationFit -> Prop.
Variable names : list string.
Variable calls : event -> bool.

Lemma confined_refl (s : state) : confined names calls s s.
Proof.
  split; [reflexivity | reflexivity |].
  exists []. split; [symmetry; apply app_nil_r | reflexivity].
Qed.

Lemma confined_trans (s1 s2 s3 : state) :
  confined names calls s1 s2 -> confined names calls s2 s3 ->
  confined names calls s1 s3.
Proof.
  intros [C1 D1 (l1 & L1 & E1)] [C2 D2 (l2 & L2 & E2)]. split.
  - congruence.
  - intros n Hn. rewrite (D2 n Hn). apply D1, Hn.
  - exists (l1 ++ l2). split.
    + rewrite L2, L1, app_assoc. reflexivity.
    + rewrite forallb_app, E1, E2. reflexivity.
Qed.

Lemma obeys_ret {A : Type} (a : A) : obeys C names calls (mret a).
Proof. intros s r s' _ [= <- <-]. apply confined_refl. Qed.

Lemma obeys_lift {A : Type} (r : result A) : obeys C names calls (lift r).
Proof. intros s r' s' _ [= <- <-]. apply confined_refl. Qed.

Lemma obeys_bind {A B : Type} (c : M A) (k : A -> M B) :
  obeys C names calls c -> (forall a, obeys C names calls (k a)) ->
  obeys C names calls (c ≫= k).
Proof.
  intros Hc Hk s r s' HC. unfold mbind, M_bind.
  destruct (c s) as [[a|e] s1] eqn:Ec; intros H.
  - pose proof (Hc _ _ _ HC Ec) as R1.
    apply (confined_trans _ _ _ R1). apply (Hk a s1 r s'); [| exact H].
    rewrite (configuration_kept _ _ _ _ R1). exact HC.
  - injection H as <- <-. apply (Hc _ _ _ HC Ec).
Qed.

(** What is read from [self] satisfies the assumption on the
    configuration. *)
Lemma obeys_get_self {B : Type} (k : PopulationFit -> M B) :
  (forall f, C (configuration f) -> obeys C names calls (k f)) ->
  obeys C names calls (get_self ≫= k).
Proof. intros Hk s r s' HC H. exact (Hk (self s) HC s r s' HC H). Qed.

Lemma obeys_when (b : bool) (c : M unit) :
  obeys C names calls c -> obeys C names calls (when b c).
Proof. destruct b; [auto | intros _; apply obeys_ret]. Qed.

Lemma obeys_ignore (c : M value) :
  obeys C names calls c -> obeys C names calls (ignore c).
Proof. intros Hc. apply obeys_bind; [exact Hc | intros; apply obeys_ret]. Qed.

Lemma obeys_emit (e : event) :
  allowed names calls e = true -> obeys C names calls (emit e).
Proof.
  intros He s r s' _ [= <- <-]. split; [reflexivity | reflexivity |].
  exists [e]. split; [reflexivity |]. simpl. rewrite He. reflexivity.
Qed.

Lemma obeys_auto_attr (name : string) (getter : M value) :
  listed names name = true -> obeys C names calls getter ->
  obeys C names calls (auto_attr name getter).
Proof.
  intros Hin Hg s r s' HC. unfold auto_attr.
  destruct (dict (self s) !! name) as [v|].
  - intros [= <- <-]. apply confined_refl.
  - destruct (getter s) as [[v|e] s1] eqn:Eg; intros [= <- <-].
    + destruct (Hg _ _ _ HC Eg) as [C1 D1 (l & L & E)]. split; simpl.
      * exact C1.
      * intros n Hn. rewrite lookup_insert_ne; [apply D1, Hn |].
        intros <-. congruence.
      * exists (l ++ [Computed name v]). split.
        { rewrite L, app_assoc. reflexivity. }
        { rewrite forallb_app, E. simpl. rewrite Hin. reflexivity. }
    + apply (Hg _ _ _ HC Eg).
Qed.

(** Memoization on the model changes neither the configuration nor what
    is stored on the fit. *)
Lemma obeys_model_auto_attr (name : string) (getter : M value) :
  obeys C names calls getter -> obeys C names calls (model_auto_attr name getter).
Proof.
  intros Hg s r s' HC. unfold model_auto_attr.
  destruct (model_dict (model (self s)) !! name) as [v|].
  - intros [= <- <-]. apply confined_refl.
  - destruct (getter s) as [[v|e] s1] eqn:Eg; intros [= <- <-].
    + destruct (Hg _ _ _ HC Eg) as [C1 D1 (l & L & E)]. split; simpl.
      * exact C1.
      * exact D1.
      * exists (l ++ [ModelComputed name v]). split.
        { rewrite L, app_assoc. reflexivity. }
        { rewrite forallb_app, E. reflexivity. }
    + apply (Hg _ _ _ HC Eg).
Qed.

Lemma obeys_setattr (name : string) (v : value) :
  listed names name = true -> obeys C names calls (setattr name v).
Proof.
  intros Hin s r s' _ [= <- <-]. split; simpl.
  - reflexivity.
  - intros n Hn. apply lookup_insert_ne. intros <-. congruence.
  - exists []. split; [symmetry; apply app_nil_r | reflexivity].
Qed.

Lemma obeys_set_time (which : bool) :
  calls TimeRead = true -> obeys C names calls (set_time U which).
Proof.
  intros Ht s r s' _ [= <- <-]. split; simpl.
  - destruct which; reflexivity.
  - intros n _. destruct which; reflexivity.
  - exists [TimeRead]. split; [reflexivity |]. simpl. rewrite Ht. reflexivity.
Qed.

End Confinement.

Lemma covers_listed (names required : list string) (n : string) :
  covers required names = true -> listed names n = true -> listed required n = true.
Proof.
  unfold covers, listed. intros Hc Hn.
  apply existsb_exists in Hn. destruct Hn as (x & Hx & Hnx).
  apply String.eqb_eq in Hnx. subst x.
  rewrite forallb_forall in Hc. exact (Hc n Hx).
Qed.

(** Confinement to fewer attributes and calls, under a weaker assumption,
    is confinement to more. *)
Lemma obeys_weaken {A : Type} (C C' : PopulationFit -> Prop)
    (names names' : list string) (calls calls' : event -> bool) (c : M A) :
  (forall f, C' f -> C f) ->
  covers names' names = true ->
  (forall e, calls e = true -> calls' e = true) ->
  obeys C names calls c -> obeys C' names' calls' c.
Proof.
  intros HC Hn Hcalls H s r s' HC' E.
  destruct (H s r s' (HC _ HC') E) as [C1 D1 (l & L & El)]. split.
  - exact C1.
  - intros n Hn'. apply D1.
    destruct (listed names n) eqn:Hl; [| reflexivity].
    rewrite (covers_listed _ _ _ Hn Hl) in Hn'. discriminate.
  - exists l. split; [exact L |].
    rewrite forallb_forall in El. apply forallb_forall. intros e He.
    specialize (El e He). destruct e; simpl in *;
      first [ exact (covers_listed _ _ _ Hn El) | reflexivity | exact (Hcalls _ El) ].
Qed.

(** Decomposition of a goal [obeys C names calls c] along the structure of
    [c], for given names and calls. *)
Ltac obeys_step :=
  match goal with
  | |- obeys _ _ _ (get_self ≫= _) => apply obeys_get_self; intros ? ?
  | |- obeys _ _ _ (_ ≫= _) => apply obeys_bind; [| intros ?]
  | |- obeys _ _ _ (auto_attr _ _) => apply obeys_auto_attr; [reflexivity |]
  | |- obeys _ _ _ (model_auto_attr _ _) => apply obeys_model_auto_attr
  | |- obeys _ _ _ (when _ _) => apply obeys_when
  | |- obeys _ _ _ (ignore _) => apply obeys_ignore
  | |- obeys _ _ _ (emit _) => apply obeys_emit; reflexivity
  | |- obeys _ _ _ (setattr _ _) => apply obeys_setattr; reflexivity
  | |- obeys _ _ _ (set_time _ _) => apply obeys_set_time; reflexivity
  | |- obeys _ _ _ (lift _) => apply obeys_lift
  | |- obeys _ _ _ (mret _) => apply obeys_ret
  | |- obeys _ _ _ (if ?b then _ else _) => destruct b
  | |- obeys _ _ _ (match ?x with _ => _ end) => destruct x
  | |- obeys _ _ _ (let '(_, _) := ?x in _) => destruct x
  end.

(** A stage that is confined to fewer attributes and calls. *)
Ltac obeys_by H :=
  refine (obeys_weaken _ _ _ _ _ _ _ _ _ _ H);
  [ intros ? h; first [exact I | exact h | apply h]
  | reflexivity
  | intros []; simpl; intros; first [reflexivity | discriminate | assumption] ].

(** The tests on given fit methods decided. *)
Ltac decide_eqb :=
  repeat match goal with
         | |- context [String.eqb ?a ?b] =>
             let v := eval vm_compute in (String.eqb a b) in
             lazymatch v with
             | true => change (String.eqb a b) with true
             | false => change (String.eqb a b) with false
             end
         end;
  cbn [negb]; try unfold when; cbv iota.

(** The same when [c] starts by reading [self]: the assumption on the
    configuration decides the tests on the fit method. *)
Ltac obeys_self :=
  apply obeys_get_self;
  let f := fresh "f" in
  let H := fresh "H" in
  intros f H;
  try (cbv beta delta [grid_only_fit global_opt_fit silent_fit] in H;
       cbn [configuration fit_method verbose] in H; rewrite ?H;
       decide_eqb).

Section ConfinedAttributes.

Variable U : Routines.

Lemma obeys_best_cached_model_parameters :
  obeys any_fit ["best_cached_model_parameters"] grid_calls best_cached_model_parameters.
Proof.
  unfold best_cached_model_parameters, cached_model_timeseries, cached_model_parameters,
    resurrect_cached_model.
  repeat obeys_step.
Qed.

Lemma obeys_brute_force : obeys any_fit ["brute_force"] grid_calls (brute_force U).
Proof. unfold brute_force. repeat obeys_step. Qed.

Lemma obeys_ballpark_prediction :
  obeys any_fit ["brute_force"; "ballpark_prediction"] grid_calls (ballpark_prediction U).
Proof.
  unfold ballpark_prediction.
  repeat first [ obeys_by obeys_brute_force | obeys_step ].
Qed.

Lemma obeys_regression :
  obeys any_fit ["brute_force"; "ballpark_prediction"] grid_calls (regression U).
Proof.
  unfold regression.
  repeat first [ obeys_by obeys_ballpark_prediction | obeys_step ].
Qed.

Lemma obeys_ballpark : obeys any_fit ballpark_names grid_calls (ballpark U).
Proof.
  unfold ballpark, slope, intercept.
  repeat first [ obeys_by obeys_brute_force
               | obeys_by obeys_regression
               | obeys_by obeys_best_cached_model_parameters
               | obeys_step ].
Qed.

End ConfinedAttributes.

Section ConfinedStages.

Variable U : Routines.

Lemma obeys_gradient_descent :
  obeys any_fit ("gradient_descent" :: ballpark_names) stage_calls (gradient_descent U).
Proof.
  unfold gradient_descent.
  repeat first [ obeys_by (obeys_ballpark U) | obeys_step ].
Qed.

Lemma obeys_global_opt : obeys any_fit ["global_opt"] global_calls (global_opt U).
Proof. unfold global_opt. repeat obeys_step. Qed.

Lemma obeys_overloaded_estimate :
  obeys any_fit ["overloaded_estimate"] global_calls overloaded_estimate.
Proof. unfold overloaded_estimate. repeat obeys_step. Qed.

Lemma obeys_estimate : obeys any_fit estimate_names stage_calls (estimate U).
Proof.
  unfold estimate.
  repeat first [ obeys_by obeys_gradient_descent | obeys_by obeys_global_opt | obeys_step ].
Qed.

Lemma obeys_prediction : obeys any_fit prediction_names stage_calls (prediction U).
Proof.
  unfold prediction.
  repeat first [ obeys_by obeys_estimate | obeys_by (obeys_ballpark U) | obeys_step ].
Qed.

Lemma obeys_rss : obeys any_fit ("rss" :: prediction_names) stage_calls (rss U).
Proof. unfold rss. repeat first [ obeys_by obeys_prediction | obeys_step ]. Qed.

Lemma obeys_rsquared : obeys any_fit rsquared_names stage_calls (rsquared U).
Proof. unfold rsquared. repeat first [ obeys_by obeys_rss | obeys_step ]. Qed.

Lemma obeys_msg : obeys any_fit msg_names stage_calls (msg U).
Proof.
  unfold msg.
  repeat first [ obeys_by obeys_rsquared | obeys_by obeys_estimate
               | obeys_by obeys_overloaded_estimate | obeys_step ].
Qed.

(** *** With the fit method ['grid_only'] *)

Lemma obeys_prediction_grid_only :
  obeys grid_only_fit ("prediction" :: ballpark_names) grid_calls (prediction U).
Proof.
  unfold prediction. apply obeys_auto_attr; [reflexivity |]. obeys_self.
  repeat first [ obeys_by (obeys_ballpark U) | obeys_step ].
Qed.

Lemma obeys_rss_grid_only :
  obeys grid_only_fit ("rss" :: "prediction" :: ballpark_names) grid_calls (rss U).
Proof. unfold rss. repeat first [ obeys_by obeys_prediction_grid_only | obeys_step ]. Qed.

Lemma obeys_rsquared_grid_only :
  obeys grid_only_fit ("rsquared" :: "rss" :: "prediction" :: ballpark_names) grid_calls
    (rsquared U).
Proof. unfold rsquared. repeat first [ obeys_by obeys_rss_grid_only | obeys_step ]. Qed.

(** *** With the fit method ['global_opt'] *)

Lemma obeys_estimate_global_opt :
  obeys global_opt_fit ["estimate"; "global_opt"] global_calls (estimate U).
Proof.
  unfold estimate. apply obeys_auto_attr; [reflexivity |]. obeys_self.
  repeat first [ obeys_by obeys_global_opt | obeys_step ].
Qed.

Lemma obeys_prediction_global_opt :
  obeys global_opt_fit global_opt_names global_calls (prediction U).
Proof.
  unfold prediction. apply obeys_auto_attr; [reflexivity |]. obeys_self.
  repeat first [ obeys_by obeys_estimate_global_opt | obeys_step ].
Qed.

Lemma obeys_rss_global_opt : obeys global_opt_fit global_opt_names global_calls (rss U).
Proof. unfold rss. repeat first [ obeys_by obeys_prediction_global_opt | obeys_step ]. Qed.

Lemma obeys_rsquared_global_opt :
  obeys global_opt_fit global_opt_names global_calls (rsquared U).
Proof. unfold rsquared. repeat first [ obeys_by obeys_rss_global_opt | obeys_step ]. Qed.

Lemma obeys_msg_global_opt : obeys global_opt_fit global_opt_names global_calls (msg U).
Proof.
  unfold msg.
  repeat first [ obeys_by obeys_rsquared_global_opt | obeys_by obeys_estimate_global_opt
               | obeys_by obeys_overloaded_estimate | obeys_step ].
Qed.

End ConfinedStages.

(** ** The automatic fit, stage by stage *)

Section AutomaticFit.

Variable U : Routines.

(** The stages of an automatic fit that returns. *)
Lemma automatic_fitting_ok (fm : string) (s s' : state) :
  automatic_fitting U fm s = (Ok tt, s') ->
  exists s1 s2 s3 s4 s5 s6,
    set_time U false s = (Ok tt, s1) /\
    when (negb (String.eqb fm "global_opt")) (ignore (ballpark U)) s1 = (Ok tt, s2) /\
    when (negb (String.eqb fm "grid_only"))
      (_ ← ignore (estimate U); ignore overloaded_estimate) s2 = (Ok tt, s3) /\
    set_time U true s3 = (Ok tt, s4) /\
    when (negb (String.eqb fm "grid_only"))
      (_ ← ignore (rss U); ignore (rsquared U)) s4 = (Ok tt, s5) /\
    when (match store_search_space (model (self s5)) with
          | Some _ => false
          | None => true
          end) flush s5 = (Ok tt, s6) /\
    when (verbose (self s6)) (m ← msg U; emit (Printed m)) s6 = (Ok tt, s').
Proof.
  unfold automatic_fitting. intros H.
  apply bind_ok in H. destruct H as ([] & s1 & H1 & H).
  apply bind_ok in H. destruct H as ([] & s2 & H2 & H).
  apply bind_ok in H. destruct H as ([] & s3 & H3 & H).
  apply bind_ok in H. destruct H as ([] & s4 & H4 & H).
  apply bind_ok in H. destruct H as ([] & s5 & H5 & H).
  apply bind_ok in H. destruct H as (f5 & s5' & [= <- <-] & H).
  apply bind_ok in H. destruct H as ([] & s6 & H6 & H).
  apply bind_ok in H. destruct H as (f6 & s6' & [= <- <-] & H).
  exists s1, s2, s3, s4, s5, s6. auto 10.
Qed.

(** A [verbose] that [set_verbose] accepts is silent exactly when it
    is 0. *)
Lemma set_verbose_silent (vb : Z) (v vv : bool) :
  set_verbose vb = Ok (v, vv) -> v = negb (vb =? 0)%Z.
Proof.
  unfold set_verbose. destruct (vb =? 0)%Z; [intros [= <- _]; reflexivity |].
  destruct (vb =? 1)%Z; [intros [= <- _]; reflexivity |].
  destruct (vb =? 2)%Z; [intros [= <- _]; reflexivity | discriminate].
Qed.

(** The fit on which the automatic fit starts. *)
Lemma init_automatic m d gs bs vi ns go fm ol nu vb f l :
  init U m d gs bs vi ns true go fm ol nu vb = (Ok f, l) ->
  exists f0,
    dict f0 = ∅ /\
    fit_method f0 = (if go then "grid_only" else fm) /\
    verbose f0 = negb (vb =? 0)%Z /\
    auto_fit f0 = true /\
    model f0 = set_model_data d m /\
    automatic_fitting U fm
      {| self := f0; log := match nu with Some _ => [NuisanceCall] | None => [] end |}
    = (Ok tt, {| self := f; log := l |}).
Proof.
  intros H. destruct (init_ok U _ _ _ _ _ _ _ _ _ _ _ _ _ _ H)
    as (v & vv & dva & sd & Hv & _ & _ & _ & Hrun).
  cbv zeta in Hrun.
  refine (ex_intro _ _ (conj _ (conj _ (conj _ (conj _ (conj _ Hrun))))));
    try reflexivity.
  exact (set_verbose_silent _ _ _ Hv).
Qed.

Lemma set_time_ok (which : bool) (s s' : state) :
  set_time U which s = (Ok tt, s') ->
  dict (self s') = dict (self s) /\
  configuration (self s') = configuration (self s) /\
  log s' = log s ++ [TimeRead].
Proof. intros [= <-]. destruct which; simpl; auto. Qed.

Lemma flush_ok (s s' : state) :
  flush s = (Ok tt, s') ->
  dict (self s') = <["global_opt" := Py.none_list 6]>
                     (<["brute_force" := Py.none_list 4]>
                        (<["gradient_descent" := Py.none_list 6]> (dict (self s)))) /\
  configuration (self s') = configuration (self s) /\
  log s' = log s.
Proof. intros [= <-]. simpl. auto. Qed.

End AutomaticFit.

(** ** What the log and the store tell *)

Section Traces.

Variable U : Routines.

Lemma obeys_run {A : Type} (C : PopulationFit -> Prop) (names : list string)
    (calls : event -> bool) (c : M A) (s s' : state) (r : result A) :
  obeys C names calls c -> C (configuration (self s)) -> c s = (r, s') ->
  confined names calls s s'.
Proof. intros H HC E. exact (H s r s' HC E). Qed.

Lemma occurs_app (e : event) (l l' : list event) :
  occurs e (l ++ l') = occurs e l || occurs e l'.
Proof. unfold occurs. apply existsb_app. Qed.

(** A call that has been logged stays logged. *)
Lemma confined_occurs (names : list string) (calls : event -> bool) (s s' : state)
    (e : event) :
  confined names calls s s' -> occurs e (log s) = true -> occurs e (log s') = true.
Proof.
  intros [_ _ (l & -> & _)] H. rewrite occurs_app, H. reflexivity.
Qed.

Lemma allowed_not_occurs (names : list string) (calls : event -> bool) (e : event)
    (l : list event) :
  forallb (allowed names calls) l = true -> calls e = false -> occurs e l = false.
Proof.
  intros Hl He. induction l as [|a l IH]; [destruct e; reflexivity |].
  simpl in Hl. apply andb_true_iff in Hl. destruct Hl as [Ha Hl].
  specialize (IH Hl). unfold occurs in *. simpl. rewrite IH, orb_false_r.
  destruct e, a; simpl in *; congruence.
Qed.

Lemma confined_fit_method (names : list string) (calls : event -> bool) (s s' : state) :
  confined names calls s s' -> fit_method (self s') = fit_method (self s).
Proof. intros [C1 _ _]. apply (f_equal fit_method) in C1. exact C1. Qed.

(** A computed gradient descent has called the search routine. *)
Lemma gradient_descent_logged (s s' : state) (r : value) :
  dict (self s) !! "gradient_descent" = None ->
  gradient_descent U s = (Ok r, s') ->
  occurs GradientDescentSearch (log s') = true.
Proof.
  intros Hnone H.
  destruct (auto_attr_miss _ _ _ _ _ Hnone H) as (s1 & Hg & ->). clear H.
  apply bind_ok in Hg. destruct Hg as (f0 & s2 & [= <- <-] & Hg).
  apply bind_ok in Hg. destruct Hg as ([] & s3 & _ & Hg).
  apply bind_ok in Hg. destruct Hg as (bp & s4 & _ & Hg).
  apply bind_ok in Hg. destruct Hg as (f1 & s5 & [= <- <-] & Hg).
  apply bind_ok in Hg. destruct Hg as ([] & s6 & [= <-] & Hg).
  injection Hg as _ <-. simpl.
  rewrite !occurs_app. simpl. rewrite orb_true_r. reflexivity.
Qed.

(** So has a computed estimate, unless the fit method is ['global_opt']. *)
Lemma estimate_logged (s s' : state) (r : value) :
  dict (self s) !! "estimate" = None ->
  dict (self s) !! "gradient_descent" = None ->
  String.eqb (fit_method (self s)) "global_opt" = false ->
  estimate U s = (Ok r, s') ->
  occurs GradientDescentSearch (log s') = true.
Proof.
  intros He Hgd Hfm H.
  destruct (auto_attr_miss _ _ _ _ _ He H) as (s1 & Hg & ->). clear H.
  apply bind_ok in Hg. destruct Hg as (f0 & s2 & [= <- <-] & Hg).
  rewrite Hfm in Hg.
  apply bind_ok in Hg. destruct Hg as (g & s3 & Hg3 & Hg).
  injection Hg as _ <-. simpl.
  rewrite occurs_app, (gradient_descent_logged _ _ _ Hgd Hg3). reflexivity.
Qed.

End Traces.

Lemma obeys_flush (C : PopulationFit -> Prop) (calls : event -> bool) :
  obeys C flushed_names calls flush.
Proof. unfold flush. repeat obeys_step. Qed.

(** The stages of the automatic fit compute the attributes of the pipeline
    and call everything but the nuisance function. *)
Ltac stage_tac U :=
  repeat first [ obeys_by (obeys_ballpark U)
               | obeys_by (obeys_flush any_fit fit_calls)
               | obeys_by (obeys_estimate U)
               | obeys_by obeys_overloaded_estimate
               | obeys_by (obeys_rss U)
               | obeys_by (obeys_rsquared U)
               | obeys_by (obeys_msg U)
               | obeys_step ].

Section Stages.

Variable U : Routines.

Lemma obeys_automatic_fitting (fm : string) :
  obeys any_fit msg_names fit_calls (automatic_fitting U fm).
Proof. unfold automatic_fitting. stage_tac U. Qed.

End Stages.

(** ** The flag [grid_only] *)

Section GridOnlyFlag.

Variable U : Routines.

(** X1.  Whatever the model, the data and the routines: an automatic fit that
    is constructed with the flag [grid_only] and a fit method other than
    ['grid_only'], and that returns, has the method ['grid_only'] and has
    called the gradient descent. *)
Theorem grid_only_flag_refines m d gs bs vi ns fm ol nu vb f l :
  fm <> "grid_only" ->
  init U m d gs bs vi ns true true fm ol nu vb = (Ok f, l) ->
  fit_method f = "grid_only" /\ occurs GradientDescentSearch l = true.
Proof.
  intros Hfm Hinit.
  destruct (init_configuration U _ _ _ _ _ _ _ _ _ _ _ _ _ _ Hinit) as (_ & Hm & _).
  split; [exact Hm |].
  destruct (init_automatic U _ _ _ _ _ _ _ _ _ _ _ _ _ Hinit)
    as (f0 & Hd & Hf0 & _ & _ & _ & Hrun).
  destruct (automatic_fitting_ok U _ _ _ Hrun)
    as (s1 & s2 & s3 & s4 & s5 & s6 & H1 & H2 & H3 & H4 & H5 & H6 & H7).
  change l with (log {| self := f; log := l |}).
  apply (obeys_run any_fit msg_names fit_calls) in H7; [| stage_tac U | exact I].
  apply (obeys_run any_fit msg_names fit_calls) in H6; [| stage_tac U | exact I].
  apply (obeys_run any_fit msg_names fit_calls) in H5; [| stage_tac U | exact I].
  apply (obeys_run any_fit msg_names fit_calls) in H4; [| stage_tac U | exact I].
  apply (confined_occurs _ _ _ _ _ H7), (confined_occurs _ _ _ _ _ H6),
    (confined_occurs _ _ _ _ _ H5), (confined_occurs _ _ _ _ _ H4).
  clear H4 H5 H6 H7 Hrun.
  destruct (set_time_ok U _ _ _ H1) as (D1 & C1 & _). simpl in D1, C1.
  apply (obeys_run any_fit ballpark_names grid_calls) in H2;
    [| stage_tac U | exact I].
  destruct H2 as [C2 D2 _].
  assert (He : dict (self s2) !! "estimate" = None).
  { rewrite D2 by reflexivity. rewrite D1, Hd. apply lookup_empty. }
  assert (Hg : dict (self s2) !! "gradient_descent" = None).
  { rewrite D2 by reflexivity. rewrite D1, Hd. apply lookup_empty. }
  assert (Hf2 : fit_method (self s2) = "grid_only").
  { apply (f_equal fit_method) in C2, C1. simpl in C2, C1. congruence. }
  destruct (String.eqb_spec fm "grid_only") as [|_]; [contradiction |].
  simpl in H3.
  apply bind_ok in H3. destruct H3 as ([] & s7 & H3 & H8).
  apply bind_ok in H3. destruct H3 as (est & s8 & Hest & [= <-]).
  apply (obeys_run any_fit msg_names fit_calls) in H8; [| stage_tac U | exact I].
  apply (confined_occurs _ _ _ _ _ H8).
  apply (estimate_logged U _ _ est He Hg); [| exact Hest].
  rewrite Hf2. reflexivity.
Qed.

End GridOnlyFlag.

Lemma grid_only_flag_refines_witness :
  exists f l,
    Scenario.construct true true "global_opt" None 0 = (Ok f, l) /\
    fit_method f = "grid_only" /\ occurs GradientDescentSearch l = true.
Proof.
  assert (Hok : is_ok (fst (Scenario.construct true true "global_opt" None 0)) = true)
    by (vm_compute; reflexivity).
  destruct (Scenario.construct true true "global_opt" None 0) as [[f|e] l] eqn:E;
    [| discriminate].
  exists f, l. split; [reflexivity |].
  apply (grid_only_flag_refines Scenario.routines Scenario.gaussian Scenario.signal
           Scenario.search_grid Scenario.open_bounds (1, 2, 3)%Z (Some 2%nat)
           "global_opt" (F.of_Z 2) None 0 f l); [discriminate | exact E].
Defined.

#[local] Hint Resolve reading_best_cached_model_parameters reading_brute_force
  reading_ballpark_prediction reading_regression reading_slope reading_intercept
  reading_ballpark reading_gradient_descent reading_global_opt
  reading_overloaded_estimate reading_estimate reading_scaled_ballpark_prediction
  reading_prediction reading_rss reading_rsquared reading_msg : reading.

Section StageByStage.

Variable U : Routines.

(** Each stage of the automatic fit is confined to the attributes of the
    pipeline, and what it finds stored it leaves stored, the flush apart. *)
Lemma automatic_fitting_stages (fm : string) (s s' : state) :
  automatic_fitting U fm s = (Ok tt, s') ->
  exists s1 s2 s3 s4 s5 s6,
    (set_time U false s = (Ok tt, s1) /\
     when (negb (String.eqb fm "global_opt")) (ignore (ballpark U)) s1 = (Ok tt, s2) /\
     when (negb (String.eqb fm "grid_only"))
       (_ ← ignore (estimate U); ignore overloaded_estimate) s2 = (Ok tt, s3) /\
     set_time U true s3 = (Ok tt, s4) /\
     when (negb (String.eqb fm "grid_only"))
       (_ ← ignore (rss U); ignore (rsquared U)) s4 = (Ok tt, s5) /\
     when (match store_search_space (model (self s5)) with
           | Some _ => false
           | None => true
           end) flush s5 = (Ok tt, s6) /\
     when (verbose (self s6)) (m ← msg U; emit (Printed m)) s6 = (Ok tt, s')) /\
    (confined msg_names fit_calls s s1 /\ confined msg_names fit_calls s1 s2 /\
     confined msg_names fit_calls s2 s3 /\ confined msg_names fit_calls s3 s4 /\
     confined msg_names fit_calls s4 s5 /\ confined msg_names fit_calls s5 s6 /\
     confined msg_names fit_calls s6 s') /\
    (dict (self s1) = dict (self s) /\ continues s1 s2 /\ continues s2 s3 /\
     dict (self s4) = dict (self s3) /\ continues s4 s5 /\ continues s6 s').
Proof.
  intros H.
  destruct (automatic_fitting_ok U _ _ _ H)
    as (s1 & s2 & s3 & s4 & s5 & s6 & H1 & H2 & H3 & H4 & H5 & H6 & H7).
  exists s1, s2, s3, s4, s5, s6.
  split; [auto 10 |]. split.
  - repeat apply conj;
      match goal with
      | E : ?c ?a = (Ok tt, ?b) |- confined _ _ ?a ?b =>
          apply (obeys_run any_fit msg_names fit_calls c a b (Ok tt));
          [stage_tac U | exact I | exact E]
      end.
  - repeat apply conj;
      try match goal with
          | E : ?c ?a = (?r, ?b) |- continues ?a ?b =>
              let R := fresh "R" in
              assert (R : reading c) by reading_tac;
              exact (R a r b E)
          end.
    + apply (set_time_ok U _ _ _ H1).
    + apply (set_time_ok U _ _ _ H4).
Qed.

(** An attribute that the flush leaves alone. *)
Lemma flush_keeps (b : bool) (s s' : state) (n : string) :
  when b flush s = (Ok tt, s') ->
  listed flushed_names n = false ->
  dict (self s') !! n = dict (self s) !! n.
Proof.
  destruct b; simpl; [| intros [= <-]; reflexivity].
  intros E Hn. destruct (flush_ok _ _ E) as (-> & _).
  unfold listed in Hn. simpl in Hn.
  rewrite !orb_false_iff in Hn. destruct Hn as (H1 & H2 & H3 & _).
  apply String.eqb_neq in H1, H2, H3.
  rewrite !lookup_insert_ne by congruence. reflexivity.
Qed.

End StageByStage.

(** ** What an automatic fit stores and runs *)

Section AutomaticFitOutcome.

Variable U : Routines.

Lemma ignore_ok (c : M value) (s s' : state) :
  ignore c s = (Ok tt, s') -> exists v, c s = (Ok v, s').
Proof.
  unfold ignore. intros H. apply bind_ok in H.
  destruct H as (v & s1 & H & [= <-]). eauto.
Qed.

Lemma confined_store_search_space (names : list string) (calls : event -> bool)
    (s s' : state) :
  confined names calls s s' ->
  store_search_space (model (self s')) = store_search_space (model (self s)).
Proof.
  intros [C1 _ _].
  apply (f_equal (fun f => store_search_space (model f))) in C1. exact C1.
Qed.

Lemma confined_verbose (names : list string) (calls : event -> bool) (s s' : state) :
  confined names calls s s' -> verbose (self s') = verbose (self s).
Proof. intros [C1 _ _]. apply (f_equal verbose) in C1. exact C1. Qed.

Lemma confined_auto_fit (names : list string) (calls : event -> bool) (s s' : state) :
  confined names calls s s' -> auto_fit (self s') = auto_fit (self s).
Proof. intros [C1 _ _]. apply (f_equal auto_fit) in C1. exact C1. Qed.

(** The model keeps its attributes when the data is pushed down to it. *)
Lemma store_search_space_set_model_data (d : array) (m : PopulationModel) :
  store_search_space (set_model_data d m) = store_search_space m.
Proof. reflexivity. Qed.

(** X2.  Without [store_search_space] on the model, an automatic fit that
    returns has replaced the results of the three searches: reading
    [brute_force], [gradient_descent] or [global_opt] on the constructed
    fit returns a list of [None], whatever the fit method and the
    verbosity. *)
Theorem automatic_fit_flushes_searches m d gs bs vi ns go fm ol nu vb f l :
  store_search_space m = None ->
  init U m d gs bs vi ns true go fm ol nu vb = (Ok f, l) ->
  let s := {| self := f; log := l |} in
  brute_force U s = (Ok (Py.none_list 4), s) /\
  gradient_descent U s = (Ok (Py.none_list 6), s) /\
  global_opt U s = (Ok (Py.none_list 6), s).
Proof.
  intros Hm Hinit s.
  destruct (init_automatic U _ _ _ _ _ _ _ _ _ _ _ _ _ Hinit)
    as (f0 & Hd & Hf0 & Hv & Ha & Hmod & Hrun).
  destruct (automatic_fitting_stages U _ _ _ Hrun)
    as (s1 & s2 & s3 & s4 & s5 & s6 & (H1 & H2 & H3 & H4 & H5 & H6 & H7) &
        (R1 & R2 & R3 & R4 & R5 & R6 & R7) & (D1 & K2 & K3 & D4 & K5 & K7)).
  assert (Hs5 : store_search_space (model (self s5)) = None).
  { rewrite (confined_store_search_space _ _ _ _ R5), (confined_store_search_space _ _ _ _ R4),
      (confined_store_search_space _ _ _ _ R3), (confined_store_search_space _ _ _ _ R2),
      (confined_store_search_space _ _ _ _ R1). simpl. rewrite Hmod. exact Hm. }
  rewrite Hs5 in H6. destruct (flush_ok _ _ H6) as (D6 & _).
  destruct K7 as [_ K7 _]. specialize (K7 OnFit); simpl in K7. fold s in K7.
  repeat split; apply auto_attr_stored, K7; rewrite D6.
  - rewrite lookup_insert_ne by discriminate. apply lookup_insert_eq.
  - rewrite !lookup_insert_ne by discriminate. apply lookup_insert_eq.
  - apply lookup_insert_eq.
Qed.

Lemma obeys_silent_grid_only_fit :
  obeys silent_fit ("gradient_descent" :: "global_opt" :: ballpark_names) grid_fit_calls
    (automatic_fitting U "grid_only").
Proof.
  unfold automatic_fitting. decide_eqb.
  repeat first [ obeys_by (obeys_ballpark U)
               | obeys_by (obeys_flush any_fit grid_fit_calls)
               | obeys_self
               | obeys_step ].
Qed.

Lemma occurs_nuisance_log (nu : option (array -> result array)) (e : event) :
  e <> NuisanceCall ->
  occurs e (match nu with Some _ => [NuisanceCall] | None => [] end) = false.
Proof. intros He. destruct nu, e; try reflexivity. contradiction. Qed.

(** X3.  A silent automatic fit with the fit method ['grid_only'] stops at the
    grid stage: if it returns, the ballpark estimate is stored, neither
    the gradient descent nor the global search has been called, and
    [estimate], [prediction], [rss] and [rsquared] are not computed. *)
Theorem silent_grid_only_fit_stops_at_ballpark m d gs bs vi ns go ol nu f l :
  init U m d gs bs vi ns true go "grid_only" ol nu 0 = (Ok f, l) ->
  (exists bp, dict f !! "ballpark" = Some bp) /\
  occurs GradientDescentSearch l = false /\
  occurs GlobalSearch l = false /\
  dict f !! "estimate" = None /\
  dict f !! "prediction" = None /\
  dict f !! "rss" = None /\
  dict f !! "rsquared" = None.
Proof.
  intros Hinit.
  destruct (init_automatic U _ _ _ _ _ _ _ _ _ _ _ _ _ Hinit)
    as (f0 & Hd & Hf0 & Hv & Ha & Hmod & Hrun).
  simpl in Hv.
  pose proof Hrun as R.
  apply (obeys_run silent_fit _ _ _ _ _ _ obeys_silent_grid_only_fit) in R; [| exact Hv].
  split.
  - destruct (automatic_fitting_stages U _ _ _ Hrun)
      as (s1 & s2 & s3 & s4 & s5 & s6 & (H1 & H2 & H3 & H4 & H5 & H6 & H7) &
          _ & (D1 & K2 & K3 & D4 & K5 & K7)).
    simpl in H2. apply ignore_ok in H2. destruct H2 as (bp & H2).
    apply auto_attr_ok in H2. exists bp.
    destruct K7 as [_ K7 _]. specialize (K7 OnFit); simpl in K7. apply K7.
    rewrite (flush_keeps _ _ _ _ H6) by reflexivity.
    destruct K5 as [_ K5 _]. specialize (K5 OnFit); simpl in K5. apply K5. rewrite D4.
    destruct K3 as [_ K3 _]. specialize (K3 OnFit); simpl in K3. apply K3. exact H2.
  - destruct R as [_ D (l' & Hl & Hl')]. simpl in D, Hl. subst l.
    rewrite !occurs_app, !(occurs_nuisance_log nu) by discriminate.
    rewrite !(allowed_not_occurs _ _ _ _ Hl') by reflexivity.
    rewrite !D by reflexivity. rewrite Hd, !lookup_empty. auto 10.
Qed.

(** The estimate cannot be read from the placeholder of a flushed
    gradient descent. *)
Lemma estimate_of_placeholder (s : state) :
  dict (self s) !! "estimate" = None ->
  dict (self s) !! "gradient_descent" = Some (Py.none_list 6) ->
  String.eqb (fit_method (self s)) "global_opt" = false ->
  estimate U s = (Raise AttributeError, s).
Proof.
  intros He Hg Hfm. unfold estimate, auto_attr. rewrite He.
  unfold mbind at 1, M_bind at 1, get_self. rewrite Hfm.
  unfold mbind, M_bind, gradient_descent.
  rewrite (auto_attr_stored _ _ _ _ Hg). reflexivity.
Qed.

(** X4.  After a silent automatic fit with the fit method ['grid_only'] on a
    model without [store_search_space], reading [estimate] raises the
    attribute error and leaves the fit as it is: the gradient descent it
    would read has been replaced by a list of [None], which has no
    attribute [x]. *)
Theorem estimate_after_grid_only_fit_raises m d gs bs vi ns go ol nu f l :
  store_search_space m = None ->
  init U m d gs bs vi ns true go "grid_only" ol nu 0 = (Ok f, l) ->
  let s := {| self := f; log := l |} in
  estimate U s = (Raise AttributeError, s).
Proof.
  intros Hm Hinit s.
  destruct (init_configuration U _ _ _ _ _ _ _ _ _ _ _ _ _ _ Hinit) as (_ & Hfm & _).
  destruct (init_automatic U _ _ _ _ _ _ _ _ _ _ _ _ _ Hinit)
    as (f0 & Hd & Hf0 & Hv & Ha & Hmod & Hrun).
  simpl in Hv.
  apply estimate_of_placeholder.
  - pose proof Hrun as R.
    apply (obeys_run silent_fit _ _ _ _ _ _ obeys_silent_grid_only_fit) in R; [| exact Hv].
    destruct R as [_ D _]. simpl in D. unfold s. simpl. rewrite D by reflexivity.
    rewrite Hd. apply lookup_empty.
  - destruct (automatic_fitting_stages U _ _ _ Hrun)
      as (s1 & s2 & s3 & s4 & s5 & s6 & (H1 & H2 & H3 & H4 & H5 & H6 & H7) &
          (R1 & R2 & R3 & R4 & R5 & R6 & R7) & (D1 & K2 & K3 & D4 & K5 & K7)).
    assert (Hs5 : store_search_space (model (self s5)) = None).
    { rewrite (confined_store_search_space _ _ _ _ R5), (confined_store_search_space _ _ _ _ R4),
        (confined_store_search_space _ _ _ _ R3), (confined_store_search_space _ _ _ _ R2),
        (confined_store_search_space _ _ _ _ R1). simpl. rewrite Hmod. exact Hm. }
    rewrite Hs5 in H6. destruct (flush_ok _ _ H6) as (D6 & _).
    destruct K7 as [_ K7 _]. specialize (K7 OnFit); simpl in K7. apply K7. rewrite D6.
    rewrite !lookup_insert_ne by discriminate. apply lookup_insert_eq.
  - unfold s. simpl. rewrite Hfm. destruct go; reflexivity.
Qed.

End AutomaticFitOutcome.

(** ** The message of a verbose fit *)

Section VerboseFit.

Variable U : Routines.

(** On an automatic fit of method ['grid_only'], the message reads
    [rsquared] and then the estimate, which nothing has computed. *)
Lemma grid_only_msg_reads_estimate (s s' : state) (m : value) :
  fit_method (self s) = "grid_only" ->
  auto_fit (self s) = true ->
  dict (self s) !! "msg" = None ->
  dict (self s) !! "overloaded_estimate" = None ->
  dict (self s) !! "estimate" = None ->
  msg U s = (Ok m, s') ->
  exists s1 est s2 tail,
    dict (self s1) !! "estimate" = None /\
    dict (self s1) !! "gradient_descent" = dict (self s) !! "gradient_descent" /\
    fit_method (self s1) = "grid_only" /\
    estimate U s1 = (Ok est, s2) /\
    log s' = log s2 ++ tail.
Proof.
  intros Hfm Ha Hm Ho He H.
  destruct (auto_attr_miss _ _ _ _ _ Hm H) as (s3 & Hg & ->). clear H.
  apply bind_ok in Hg. destruct Hg as (f0 & s4 & [= <- <-] & Hg).
  rewrite Ha in Hg.
  apply bind_ok in Hg. destruct Hg as (oe & s4 & Hoe & Hg).
  destruct (auto_attr_miss _ _ _ _ _ Ho Hoe) as (s5 & [= <- <-] & ->). clear Hoe.
  apply bind_ok in Hg. destruct Hg as (f1 & s6 & [= <- <-] & Hg).
  apply bind_ok in Hg. destruct Hg as (t & s6 & [= _ <-] & Hg).
  apply bind_ok in Hg. destruct Hg as (r & s7 & Hr & Hg).
  apply bind_ok in Hg. destruct Hg as (est & s8 & Hest & [= _ <-]).
  pose proof Hr as R.
  apply (obeys_run grid_only_fit _ _ _ _ _ _ (obeys_rsquared_grid_only U)) in R;
    [| exact Hfm].
  destruct R as [C1 D1 _]. simpl in D1.
  exists s7, est, s8, [Computed "msg" m]. repeat split.
  - rewrite D1 by reflexivity. rewrite lookup_insert_ne by discriminate. exact He.
  - rewrite D1 by reflexivity. apply lookup_insert_ne. discriminate.
  - apply (f_equal fit_method) in C1. simpl in C1. congruence.
  - exact Hest.
Qed.

(** The state in which a verbose automatic fit of method ['grid_only']
    computes its message. *)
Lemma verbose_grid_only_fit_msg m d gs bs vi ns go ol nu vb f l :
  vb <> 0%Z ->
  init U m d gs bs vi ns true go "grid_only" ol nu vb = (Ok f, l) ->
  exists s6 s1 est s2 tail,
    (dict (self s6) !! "gradient_descent" =
       match store_search_space m with
       | Some _ => None
       | None => Some (Py.none_list 6)
       end) /\
    dict (self s1) !! "estimate" = None /\
    dict (self s1) !! "gradient_descent" = dict (self s6) !! "gradient_descent" /\
    fit_method (self s1) = "grid_only" /\
    estimate U s1 = (Ok est, s2) /\
    l = log s2 ++ tail.
Proof.
  intros Hvb Hinit.
  destruct (init_automatic U _ _ _ _ _ _ _ _ _ _ _ _ _ Hinit)
    as (f0 & Hd & Hf0 & Hv & Ha & Hmod & Hrun).
  assert (Hv' : verbose f0 = true) by (rewrite Hv; destruct vb; [contradiction | |]; reflexivity).
  assert (Hf : fit_method f0 = "grid_only") by (rewrite Hf0; destruct go; reflexivity).
  clear Hv Hf0.
  destruct (automatic_fitting_stages U _ _ _ Hrun)
    as (s1 & s2 & s3 & s4 & s5 & s6 & (H1 & H2 & H3 & H4 & H5 & H6 & H7) &
        (R1 & R2 & R3 & R4 & R5 & R6 & R7) & (D1 & K2 & K3 & D4 & K5 & K7)).
  pose proof (confined_trans _ _ _ _ _ R1 (confined_trans _ _ _ _ _ R2
               (confined_trans _ _ _ _ _ R3 (confined_trans _ _ _ _ _ R4 R5)))) as R05.
  pose proof (confined_trans _ _ _ _ _ R05 R6) as R06.
  (* what is stored before the flush *)
  injection H3 as <-. injection H5 as <-.
  pose proof H2 as R2'.
  apply (obeys_run any_fit ballpark_names grid_calls) in R2';
    [| apply obeys_when, obeys_ignore, obeys_ballpark | exact I].
  destruct R2' as [_ D2 _].
  assert (D : forall n, listed ballpark_names n = false -> dict (self s4) !! n = None).
  { intros n Hn. rewrite D4, (D2 n Hn), D1. simpl. rewrite Hd. apply lookup_empty. }
  assert (D6 : forall n, listed ballpark_names n = false -> listed flushed_names n = false ->
                         dict (self s6) !! n = None).
  { intros n Hn Hn'. rewrite (flush_keeps _ _ _ _ H6 Hn'). apply D, Hn. }
  assert (G6 : dict (self s6) !! "gradient_descent" =
               match store_search_space m with
               | Some _ => None
               | None => Some (Py.none_list 6)
               end).
  { rewrite (confined_store_search_space _ _ _ _ R05) in H6. simpl in H6. rewrite Hmod in H6.
    rewrite store_search_space_set_model_data in H6.
    destruct (store_search_space m).
    - injection H6 as <-. apply D. reflexivity.
    - destruct (flush_ok _ _ H6) as (-> & _).
      rewrite !lookup_insert_ne by discriminate. apply lookup_insert_eq. }
  rewrite (confined_verbose _ _ _ _ R06) in H7. simpl in H7. rewrite Hv' in H7.
  simpl in H7. apply bind_ok in H7. destruct H7 as (mv & s7 & Hmsg & [= <- <-]).
  apply grid_only_msg_reads_estimate in Hmsg.
  - destruct Hmsg as (sa & est & sb & tail & E1 & E2 & E3 & E4 & E5).
    exists s6, sa, est, sb, (tail ++ [Printed mv]).
    repeat split; try assumption.
    rewrite E5, <- app_assoc. reflexivity.
  - rewrite (confined_fit_method _ _ _ _ R06). exact Hf.
  - rewrite (confined_auto_fit _ _ _ _ R06). exact Ha.
  - apply D6; reflexivity.
  - apply D6; reflexivity.
  - apply D6; reflexivity.
Qed.

(** X5.  A verbose automatic fit with the fit method ['grid_only'] on a model
    without [store_search_space] never returns: its message reads the
    estimate, and the gradient descent behind it has been flushed. *)
Theorem verbose_grid_only_fit_raises m d gs bs vi ns go ol nu vb :
  store_search_space m = None ->
  vb <> 0%Z ->
  is_ok (fst (init U m d gs bs vi ns true go "grid_only" ol nu vb)) = false.
Proof.
  intros Hm Hvb.
  destruct (init U m d gs bs vi ns true go "grid_only" ol nu vb) as [[f|e] l] eqn:Hinit;
    [exfalso | reflexivity].
  destruct (verbose_grid_only_fit_msg _ _ _ _ _ _ _ _ _ _ _ _ Hvb Hinit)
    as (s6 & s1 & est & s2 & tail & G6 & E1 & E2 & E3 & E4 & _).
  rewrite Hm in G6. rewrite G6 in E2.
  rewrite (estimate_of_placeholder U s1 E1 E2) in E4; [discriminate |].
  rewrite E3. reflexivity.
Qed.

(** X6.  A verbose automatic fit with the fit method ['grid_only'] on a model
    with [store_search_space], if it returns, has called the gradient
    descent: its message reads the estimate, which nothing has computed
    before. *)
Theorem verbose_grid_only_fit_refines m d gs bs vi ns go ol nu vb f l :
  store_search_space m <> None ->
  vb <> 0%Z ->
  init U m d gs bs vi ns true go "grid_only" ol nu vb = (Ok f, l) ->
  occurs GradientDescentSearch l = true.
Proof.
  intros Hm Hvb Hinit.
  destruct (verbose_grid_only_fit_msg _ _ _ _ _ _ _ _ _ _ _ _ Hvb Hinit)
    as (s6 & s1 & est & s2 & tail & G6 & E1 & E2 & E3 & E4 & ->).
  destruct (store_search_space m); [| contradiction].
  rewrite G6 in E2.
  assert (Hfm : String.eqb (fit_method (self s1)) "global_opt" = false)
    by (rewrite E3; reflexivity).
  rewrite occurs_app, (estimate_logged U _ _ _ E1 E2 Hfm E4). reflexivity.
Qed.

End VerboseFit.

(** ** The global search, the goodness of fit and the data *)

Section FitStages.

Variable U : Routines.

Lemma obeys_global_opt_fit :
  obeys global_opt_fit global_fit_names global_fit_calls (automatic_fitting U "global_opt").
Proof.
  unfold automatic_fitting. decide_eqb.
  repeat first [ obeys_by (obeys_estimate_global_opt U)
               | obeys_by obeys_overloaded_estimate
               | obeys_by (obeys_rss_global_opt U)
               | obeys_by (obeys_rsquared_global_opt U)
               | obeys_by (obeys_msg_global_opt U)
               | obeys_by (obeys_flush any_fit global_fit_calls)
               | obeys_self
               | obeys_step ].
Qed.

(** A computed estimate of a fit of method ['global_opt'] has called the
    global search. *)
Lemma global_estimate_logged (s s' : state) (r : value) :
  dict (self s) !! "estimate" = None ->
  dict (self s) !! "global_opt" = None ->
  fit_method (self s) = "global_opt" ->
  estimate U s = (Ok r, s') ->
  occurs GlobalSearch (log s') = true.
Proof.
  intros He Hgo Hfm H.
  destruct (auto_attr_miss _ _ _ _ _ He H) as (s1 & Hg & ->). clear H.
  apply bind_ok in Hg. destruct Hg as (f0 & s2 & [= <- <-] & Hg).
  rewrite Hfm in Hg. simpl in Hg.
  apply bind_ok in Hg. destruct Hg as (g & s3 & Hg3 & Hg).
  injection Hg as _ <-.
  destruct (auto_attr_miss _ _ _ _ _ Hgo Hg3) as (s4 & Hs & ->). clear Hg3.
  apply bind_ok in Hs. destruct Hs as (f1 & s5 & [= <- <-] & Hs).
  apply bind_ok in Hs. destruct Hs as ([] & s5 & [= <-] & Hs).
  injection Hs as _ <-. simpl.
  rewrite !occurs_app. simpl. rewrite orb_true_r. reflexivity.
Qed.

(** The stage of the estimate, when it returns. *)
Lemma estimate_stage_ok (s s' : state) :
  (_ ← ignore (estimate U); ignore overloaded_estimate) s = (Ok tt, s') ->
  exists est s1,
    estimate U s = (Ok est, s1) /\ continues s1 s' /\
    confined msg_names fit_calls s1 s'.
Proof.
  intros H. apply bind_ok in H. destruct H as ([] & s1 & H & H').
  apply ignore_ok in H. destruct H as (est & H).
  exists est, s1. split; [exact H |]. split.
  - revert H'. apply reading_ignore, reading_overloaded_estimate.
  - revert H'. apply (obeys_run any_fit); [stage_tac U | exact I].
Qed.

(** What is stored after the estimate and is not flushed is stored at the
    end of the automatic fit. *)
Lemma kept_to_the_end (s3 s4 s5 s6 s' : state) (b : bool) (n : string) (v : value) :
  dict (self s4) = dict (self s3) -> continues s4 s5 ->
  when b flush s5 = (Ok tt, s6) -> continues s6 s' ->
  listed flushed_names n = false ->
  dict (self s3) !! n = Some v -> dict (self s') !! n = Some v.
Proof.
  intros D4 [_ K5 _] H6 [_ K7 _] Hn H.
  apply (K7 OnFit). simpl. rewrite (flush_keeps _ _ _ _ H6 Hn).
  apply (K5 OnFit). simpl. rewrite D4. exact H.
Qed.

(** X7.  An automatic fit with the fit method ['global_opt'] that returns has
    called the global search, and neither the grid search, nor the
    regression, nor the gradient descent; the estimate is stored and the
    ballpark estimate is not computed. *)
Theorem global_opt_fit_skips_the_grid m d gs bs vi ns ol nu vb f l :
  init U m d gs bs vi ns true false "global_opt" ol nu vb = (Ok f, l) ->
  occurs GlobalSearch l = true /\
  occurs BruteForceSearch l = false /\
  occurs Regress l = false /\
  occurs GradientDescentSearch l = false /\
  dict f !! "ballpark" = None /\
  exists est, dict f !! "estimate" = Some est.
Proof.
  intros Hinit.
  destruct (init_automatic U _ _ _ _ _ _ _ _ _ _ _ _ _ Hinit)
    as (f0 & Hd & Hf0 & Hv & Ha & Hmod & Hrun).
  pose proof Hrun as R.
  apply (obeys_run global_opt_fit _ _ _ _ _ _ obeys_global_opt_fit) in R; [| exact Hf0].
  destruct (automatic_fitting_stages U _ _ _ Hrun)
    as (s1 & s2 & s3 & s4 & s5 & s6 & (H1 & H2 & H3 & H4 & H5 & H6 & H7) &
        (R1 & R2 & R3 & R4 & R5 & R6 & R7) & (D1 & K2 & K3 & D4 & K5 & K7)).
  injection H2 as <-.
  change (negb ("global_opt" =? "grid_only")) with true in H3. cbn [when] in H3.
  destruct (estimate_stage_ok _ _ H3) as (est & sa & Hest & Ka & Ra).
  assert (Hnone : forall n, dict (self s1) !! n = None).
  { intros n. rewrite D1. simpl. rewrite Hd. apply lookup_empty. }
  assert (Hfm : fit_method (self s1) = "global_opt").
  { rewrite (confined_fit_method _ _ _ _ R1). exact Hf0. }
  split.
  { change l with (log {| self := f; log := l |}).
    apply (confined_occurs _ _ _ _ _ R7), (confined_occurs _ _ _ _ _ R6),
      (confined_occurs _ _ _ _ _ R5), (confined_occurs _ _ _ _ _ R4),
      (confined_occurs _ _ _ _ _ Ra).
    exact (global_estimate_logged _ _ _ (Hnone _) (Hnone _) Hfm Hest). }
  destruct R as [_ D (l' & Hl & Hl')]. simpl in D, Hl. subst l.
  rewrite !occurs_app, !(occurs_nuisance_log nu) by discriminate.
  rewrite !(allowed_not_occurs _ _ _ _ Hl') by reflexivity.
  rewrite D by reflexivity. rewrite Hd, lookup_empty.
  repeat split. exists est.
  apply (kept_to_the_end _ _ _ _ _ _ _ _ D4 K5 H6 K7); [reflexivity |].
  destruct Ka as [_ Ka _]. specialize (Ka OnFit); simpl in Ka.
  apply Ka. exact (auto_attr_ok _ _ _ _ _ Hest).
Qed.

(** X8.  An automatic fit with a fit method other than ['grid_only'] that
    returns has stored the estimate, the residual sum of squares and
    [rsquared], and the stored [rsquared] lies within [0, 1]. *)
Theorem automatic_fit_stores_goodness m d gs bs vi ns go fm ol nu vb f l :
  fm <> "grid_only" ->
  init U m d gs bs vi ns true go fm ol nu vb = (Ok f, l) ->
  exists est r r2,
    dict f !! "estimate" = Some est /\
    dict f !! "rss" = Some r /\
    dict f !! "rsquared" = Some r2 /\
    in_unit_interval r2 = true.
Proof.
  intros Hfm Hinit.
  destruct (init_automatic U _ _ _ _ _ _ _ _ _ _ _ _ _ Hinit)
    as (f0 & Hd & Hf0 & Hv & Ha & Hmod & Hrun).
  destruct (automatic_fitting_stages U _ _ _ Hrun)
    as (s1 & s2 & s3 & s4 & s5 & s6 & (H1 & H2 & H3 & H4 & H5 & H6 & H7) &
        (R1 & R2 & R3 & R4 & R5 & R6 & R7) & (D1 & K2 & K3 & D4 & K5 & K7)).
  destruct (String.eqb_spec fm "grid_only") as [|_]; [contradiction |].
  cbn [negb when] in H3, H5.
  destruct (estimate_stage_ok _ _ H3) as (est & sa & Hest & Ka & Ra).
  apply bind_ok in H5. destruct H5 as ([] & sb & Hrss & Hrsq).
  apply ignore_ok in Hrss. destruct Hrss as (r & Hrss).
  apply ignore_ok in Hrsq. destruct Hrsq as (r2 & Hrsq).
  (* nothing has computed [rsquared] before *)
  assert (Hnone : dict (self sb) !! "rsquared" = None).
  { pose proof H2 as X2. pose proof H3 as X3. pose proof Hrss as X5.
    apply (obeys_run any_fit before_rsquared_names fit_calls) in X2;
      [| stage_tac U | exact I].
    apply (obeys_run any_fit before_rsquared_names fit_calls) in X3;
      [| stage_tac U | exact I].
    apply (obeys_run any_fit before_rsquared_names fit_calls) in X5;
      [| stage_tac U | exact I].
    rewrite (others_kept _ _ _ _ X5) by reflexivity. rewrite D4.
    rewrite (others_kept _ _ _ _ X3) by reflexivity.
    rewrite (others_kept _ _ _ _ X2) by reflexivity.
    rewrite D1. simpl. rewrite Hd. apply lookup_empty. }
  exists est, r, r2. repeat split.
  - apply (kept_to_the_end _ _ _ _ _ _ _ _ D4 K5 H6 K7); [reflexivity |].
    destruct Ka as [_ Ka _]. specialize (Ka OnFit); simpl in Ka.
    apply Ka. exact (auto_attr_ok _ _ _ _ _ Hest).
  - destruct K7 as [_ K7 _]. specialize (K7 OnFit); simpl in K7. apply K7.
    rewrite (flush_keeps _ _ _ _ H6) by reflexivity.
    destruct (reading_rsquared U _ _ _ Hrsq) as [_ Kr _]. specialize (Kr OnFit); simpl in Kr.
    apply Kr.
    exact (auto_attr_ok _ _ _ _ _ Hrss).
  - destruct K7 as [_ K7 _]. specialize (K7 OnFit); simpl in K7. apply K7.
    rewrite (flush_keeps _ _ _ _ H6) by reflexivity.
    exact (auto_attr_ok _ _ _ _ _ Hrsq).
  - destruct (auto_attr_miss _ _ _ _ _ Hnone Hrsq) as (sc & Hg & _).
    apply bind_ok in Hg. destruct Hg as (x & sd & _ & Hg).
    apply bind_ok in Hg. destruct Hg as (y & se & _ & Hg).
    apply bind_ok in Hg. destruct Hg as (f1 & sf & _ & Hg).
    injection Hg as <- _. apply clean_up_in_unit_interval.
Qed.

Lemma calls_of_app (kind : event -> bool) (l l' : list event) :
  calls_of kind (l ++ l') = (calls_of kind l + calls_of kind l')%nat.
Proof. unfold calls_of. rewrite List.filter_app, List.length_app. reflexivity. Qed.

Lemma allowed_no_call (names : list string) (calls kind : event -> bool)
    (l : list event) :
  (forall e, kind e = true -> allowed names calls e = false) ->
  forallb (allowed names calls) l = true -> calls_of kind l = 0%nat.
Proof.
  intros Hk Hl. unfold calls_of. induction l as [|e l IH]; [reflexivity |].
  simpl in Hl. apply andb_true_iff in Hl. destruct Hl as [He Hl]. simpl.
  destruct (kind e) eqn:E; [| exact (IH Hl)].
  rewrite (Hk e E) in He. discriminate.
Qed.

(** The log of a construction that returns: the call of the nuisance
    function if there is one, then what the automatic fit has logged. *)
Lemma init_log m d gs bs vi ns af go fm ol nu vb f l :
  init U m d gs bs vi ns af go fm ol nu vb = (Ok f, l) ->
  exists l', l = match nu with Some _ => [NuisanceCall] | None => [] end ++ l' /\
             forallb (allowed msg_names fit_calls) l' = true.
Proof.
  intros Hinit. destruct (init_ok U _ _ _ _ _ _ _ _ _ _ _ _ _ _ Hinit)
    as (v & vv & dva & sd & _ & _ & _ & _ & Hrun).
  cbv zeta in Hrun. destruct af.
  - apply (obeys_run any_fit _ _ _ _ _ _ (obeys_automatic_fitting U fm) I) in Hrun.
    destruct Hrun as [_ _ E]. exact E.
  - destruct Hrun as [_ ->]. exists []. rewrite app_nil_r. split; reflexivity.
Qed.

(** X9.  Whatever the arguments, a construction that returns has applied the
    nuisance function once to the data, or not at all if there is none;
    no stage of the automatic fit applies it again or changes the data of
    the fit; and the model has received the data as they were given. *)
Theorem nuisance_applied_once m d gs bs vi ns af go fm ol nu vb f l :
  init U m d gs bs vi ns af go fm ol nu vb = (Ok f, l) ->
  match nu with Some n => n d = Ok (data f) | None => data f = d end /\
  calls_of is_nuisance_call l = match nu with Some _ => 1%nat | None => 0%nat end /\
  model_data (model f) = Some d.
Proof.
  intros Hinit.
  destruct (init_configuration U _ _ _ _ _ _ _ _ _ _ _ _ _ _ Hinit)
    as (_ & _ & _ & Hdata & Hmodel & _).
  destruct (init_log _ _ _ _ _ _ _ _ _ _ _ _ _ _ Hinit) as (l' & -> & Hl').
  split; [exact Hdata |].
  split; [| exact (f_equal model_data Hmodel)].
  rewrite calls_of_app, (allowed_no_call msg_names fit_calls is_nuisance_call l').
  - destruct nu; reflexivity.
  - intros []; simpl; congruence.
  - exact Hl'.
Qed.

End FitStages.

(** ** The grid stage, step by step *)

Section GridStage.

Variable U : Routines.

(** X10.  Read on a fit with no stored attribute, without cached model and with
    a fit method other than ['global_opt'], a [ballpark] that returns has
    run the grid search once, the ballpark prediction once, and the
    regression of the model twice on the same arguments, once for the
    slope and once for the intercept, in this order. *)
Theorem ballpark_runs_regression_twice (s s' : state) (v : value) :
  dict (self s) = ∅ ->
  String.eqb (fit_method (self s)) "global_opt" = false ->
  cached_model_path (model (self s)) = None ->
  ballpark U s = (Ok v, s') ->
  exists bf p sl ic,
    regress U (model (self s)) p (data (self s)) = Ok (sl, ic) /\
    log s' = log s ++ [BruteForceSearch; Computed "brute_force" bf;
                       Computed "ballpark_prediction" (VArray p);
                       Regress; Computed "slope" (VFloat sl);
                       Regress; Computed "intercept" (VFloat ic);
                       Computed "ballpark" v].
Proof.
  intros He Hfm Hpath Hb. set (f := self s) in *.
  assert (Hnone : forall n, dict (self s) !! n = None).
  { intros n. fold f. rewrite He. apply lookup_empty. }
  destruct (auto_attr_miss _ _ _ _ _ (Hnone _) Hb) as (s1 & Hg & ->).
  clear Hb.
  apply bind_ok in Hg. destruct Hg as (f0 & s2 & [= <- <-] & Hg).
  fold f in Hg. rewrite Hfm, Hpath in Hg.
  apply bind_ok in Hg. destruct Hg as (bf & s2 & Hbf & Hg).
  apply bind_ok in Hg. destruct Hg as (x0 & s3 & Hx0 & Hg).
  apply bind_ok in Hg. destruct Hg as (sv & s4 & Hsl & Hg).
  apply bind_ok in Hg. destruct Hg as (iv & s5 & Hic & Hg).
  destruct (auto_attr_miss _ _ _ _ _ (Hnone _) Hbf) as (s6 & Hs & ->). clear Hbf.
  apply bind_ok in Hs. destruct Hs as (f0 & s7 & [= <- <-] & Hs). fold f in Hs.
  apply bind_ok in Hs. destruct Hs as ([] & s7 & [= <-] & Hs).
  injection Hs as Hs <-.
  injection Hx0 as Hx0 <-.
  apply auto_attr_miss in Hsl; [| cbn; look].
  destruct Hsl as (s8 & Hr & ->).
  apply bind_ok in Hr. destruct Hr as ([sl ic] & s9 & Hr & [= <- <-]).
  apply bind_ok in Hr. destruct Hr as (bpv & s10 & Hbp & Hr).
  apply auto_attr_miss in Hbp; [| cbn; look].
  destruct Hbp as (s11 & Hp & ->).
  apply bind_ok in Hp. destruct Hp as (bf' & s12 & Hbf' & Hp).
  unfold brute_force in Hbf'.
  rewrite (auto_attr_stored _ _ _ bf) in Hbf' by (cbn; look).
  injection Hbf' as <- <-.
  apply bind_ok in Hp. destruct Hp as (x0' & s12 & Hx0' & Hp).
  injection Hx0' as Hx0' <-. rewrite Hx0 in Hx0'. injection Hx0' as <-.
  apply bind_ok in Hp. destruct Hp as (args & s12 & Hargs & Hp).
  injection Hargs as Hargs <-.
  apply bind_ok in Hp. destruct Hp as (f0 & s12 & [= <- <-] & Hp).
  apply bind_ok in Hp. destruct Hp as (p & s12 & Hp & [= <- <-]).
  injection Hp as Hp <-.
  apply bind_ok in Hr. destruct Hr as (f0 & s12 & [= <- <-] & Hr).
  apply bind_ok in Hr. destruct Hr as (X & s12 & HX & Hr).
  injection HX as <- <-.
  apply bind_ok in Hr. destruct Hr as ([] & s12 & [= <-] & Hr).
  injection Hr as Hr <-. cbn in Hr. fold f in Hr.
  apply auto_attr_miss in Hic; [| cbn; look].
  destruct Hic as (s8 & Hi & ->).
  apply bind_ok in Hi. destruct Hi as ([sl' ic'] & s9 & Hi & [= <- <-]).
  apply bind_ok in Hi. destruct Hi as (bpv & s10 & Hbp & Hi).
  unfold ballpark_prediction in Hbp.
  rewrite (auto_attr_stored _ _ _ (VArray p)) in Hbp by (cbn; look).
  injection Hbp as <- <-.
  apply bind_ok in Hi. destruct Hi as (f0 & s12 & [= <- <-] & Hi).
  apply bind_ok in Hi. destruct Hi as (X & s12 & HX & Hi).
  injection HX as <- <-.
  apply bind_ok in Hi. destruct Hi as ([] & s12 & [= <-] & Hi).
  injection Hi as Hi <-. cbn in Hi. fold f in Hi.
  rewrite Hr in Hi. injection Hi as <- <-.
  injection Hg as <- <-.
  exists bf, p, sl, ic. split; [exact Hr |].
  cbn. rewrite <- !app_assoc. reflexivity.
Qed.

End GridStage.

(** ** Single attributes *)

Section SingleAttributes.

Variable U : Routines.

(** A continuation has the same model, but for what the model has
    memoized. *)
Lemma continues_model (s s' : state) :
  continues s s' -> forget (model (self s')) = forget (model (self s)).
Proof. intros [C _ _]. exact (f_equal model C). Qed.

Lemma continues_bounded_amplitude (s s' : state) :
  continues s s' ->
  bounded_amplitude (model (self s')) = bounded_amplitude (model (self s)).
Proof. intros C. exact (f_equal bounded_amplitude (continues_model _ _ C)). Qed.

Lemma continues_generate_prediction (s s' : state) (args : list value) :
  continues s s' ->
  bound (model (self s')) (generate_prediction (model (self s'))) args [] =
  bound (model (self s)) (generate_prediction (model (self s))) args [].
Proof.
  intros C.
  exact (f_equal (fun m => bound m (generate_prediction m) args [])
           (continues_model _ _ C)).
Qed.

(** X11.  On a fit of method ['grid_only'], a [prediction] that is computed is
    the prediction of the model at the ballpark estimate; computing it
    calls neither the gradient descent nor the global search, and leaves
    the estimate as it is. *)
Theorem grid_only_prediction_at_ballpark (s s' : state) (v : value) :
  fit_method (self s) = "grid_only" ->
  dict (self s) !! "prediction" = None ->
  prediction U s = (Ok v, s') ->
  (exists bp s1 args p,
      ballpark U s = (Ok bp, s1) /\
      Py.iterate bp = Ok args /\
      bound (model (self s)) (generate_prediction (model (self s))) args [] = Ok p /\
      v = VArray p) /\
  (exists l, log s' = log s ++ l /\
             occurs GradientDescentSearch l = false /\
             occurs GlobalSearch l = false) /\
  dict (self s') !! "estimate" = dict (self s) !! "estimate".
Proof.
  intros Hfm Hnone H.
  pose proof H as R.
  apply (obeys_run grid_only_fit _ _ _ _ _ _ (obeys_prediction_grid_only U)) in R;
    [| exact Hfm].
  destruct R as [_ D (l & Hl & Hl')].
  split; [| split].
  - destruct (auto_attr_miss _ _ _ _ _ Hnone H) as (s1 & Hg & _). clear H.
    apply bind_ok in Hg. destruct Hg as (f0 & s2 & [= <- <-] & Hg).
    rewrite Hfm in Hg. simpl in Hg.
    apply bind_ok in Hg. destruct Hg as (bp & s2 & Hbp & Hg).
    apply bind_ok in Hg. destruct Hg as (args & s3 & [= Hargs <-] & Hg).
    apply bind_ok in Hg. destruct Hg as (f1 & s3 & [= <- <-] & Hg).
    apply bind_ok in Hg. destruct Hg as (p & s3 & [= Hp <-] & [= <- _]).
    rewrite (continues_generate_prediction _ _ _ (reading_ballpark U _ _ _ Hbp)) in Hp.
    exists bp, s2, args, p. auto.
  - exists l. split; [exact Hl |].
    rewrite !(allowed_not_occurs _ _ _ _ Hl') by reflexivity. auto.
  - apply D. reflexivity.
Qed.

Lemma abs_not_negative (x : float) : F.ltb (F.abs x) F.zero = false.
Proof. destruct x as [[]|[]| |[] m e]; reflexivity. Qed.

Lemma abs_at_least_zero (x : float) :
  F.isnan x = false -> F.leb F.zero (F.abs x) = true.
Proof. destruct x as [[]|[]| |[] m e]; intros H; try reflexivity; discriminate. Qed.

(** X12.  On a model with [bounded_amplitude] set, a slope that is computed
    is the absolute value of the slope that [linregress] returns for the
    ballpark prediction and the data of the fit: [regress] returns
    [np.abs(slope)].  It is never below zero, and it is at least zero
    unless the slope of the regression is NaN, which it then is too. *)
Theorem bounded_amplitude_slope (s s' : state) (v : value) :
  bounded_amplitude (model (self s)) = Some true ->
  dict (self s) !! "slope" = None ->
  slope U s = (Ok v, s') ->
  exists bp s1 X sl ic,
    ballpark_prediction U s = (Ok bp, s1) /\
    Py.to_array bp = Ok X /\
    linregress U X (data (self s)) = Ok (sl, ic) /\
    regress U (model (self s)) X (data (self s)) = Ok (F.abs sl, ic) /\
    v = VFloat (F.abs sl) /\
    F.ltb (F.abs sl) F.zero = false /\
    (F.isnan sl = false -> F.leb F.zero (F.abs sl) = true) /\
    (F.isnan sl = true -> F.isnan (F.abs sl) = true).
Proof.
  intros Hb Hnone H.
  destruct (auto_attr_miss _ _ _ _ _ Hnone H) as (s1 & Hg & _). clear H.
  apply bind_ok in Hg. destruct Hg as ([a ic] & s2 & Hr & [= <- _]).
  apply bind_ok in Hr. destruct Hr as (bp & s3 & Hbp & Hr).
  apply bind_ok in Hr. destruct Hr as (f0 & s4 & [= <- <-] & Hr).
  apply bind_ok in Hr. destruct Hr as (X & s4 & [= HX <-] & Hr).
  apply bind_ok in Hr. destruct Hr as ([] & s5 & _ & Hr).
  injection Hr as Hr _.
  pose proof (reading_ballpark_prediction U _ _ _ Hbp) as C.
  unfold regress in Hr |- *.
  rewrite (continues_bounded_amplitude _ _ C), (continues_data _ _ C), Hb in Hr.
  rewrite Hb.
  destruct (linregress U X (data (self s))) as [[sl b]|] eqn:E; [| discriminate].
  injection Hr as <- <-.
  exists bp, s3, X, sl, b.
  split; [exact Hbp |]. split; [exact HX |]. split; [exact E |].
  rewrite E. repeat (split; [reflexivity |]).
  split; [apply abs_not_negative |].
  split; [apply abs_at_least_zero |].
  destruct sl as [[]|[]| |[] m e]; intros N; try reflexivity; discriminate.
Qed.

Lemma div_by_zero_not_finite (y : float) :
  F.isfinite (F.sub F.one (F.div y (F.of_Z 0))) = false.
Proof. destruct y as [[]|[]| |[] m e]; reflexivity. Qed.

(** X13.  When the data have exactly one entry more than the estimate,
    [rsquared_adj] divides by zero.  With [rsquared] a float [r] (the
    clean-up of [rsquared] has not replaced it by the integer 0), the
    value is [1 - (1 - r) * k / 0] for an estimate of [k] entries: an
    infinity or NaN, and it is returned as it is. *)
Theorem rsquared_adj_not_finite (s s' : state) (v est : value) (k : nat) (r : float) :
  dict (self s) !! "rsquared_adj" = None ->
  rsquared_adj U s = (Ok v, s') ->
  dict (self s') !! "rsquared" = Some (VFloat r) ->
  dict (self s') !! "estimate" = Some est ->
  Py.len est = Ok k ->
  length (data (self s)) = S k ->
  let x := F.sub F.one (F.div (F.mul (F.sub F.one r) (F.of_nat k)) F.zero) in
  v = VFloat x /\ F.isfinite x = false.
Proof.
  intros Hnone H Hrsq Hest Hk Hn x.
  destruct (auto_attr_miss _ _ _ _ _ Hnone H) as (s1 & Hg & ->). clear H.
  simpl in Hest, Hrsq. rewrite lookup_insert_ne in Hest, Hrsq by discriminate.
  apply bind_ok in Hg. destruct Hg as (rv & s2 & Hr & Hg).
  apply bind_ok in Hg. destruct Hg as (c & s3 & [= Hc <-] & Hg).
  apply bind_ok in Hg. destruct Hg as (f0 & s3 & [= <- <-] & Hg).
  apply bind_ok in Hg. destruct Hg as (est' & s3 & He & Hg).
  apply bind_ok in Hg. destruct Hg as (k' & s4 & [= Hk' <-] & [= Ha <-]).
  rewrite (auto_attr_ok _ _ _ _ _ He) in Hest. injection Hest as ->.
  rewrite Hk in Hk'. injection Hk' as <-.
  destruct (reading_estimate U _ _ _ He) as [_ Ke _]. specialize (Ke OnFit); simpl in Ke.
  rewrite (Ke _ _ (auto_attr_ok _ _ _ _ _ Hr)) in Hrsq. injection Hrsq as ->.
  injection Hc as <-.
  rewrite (continues_data _ _ (reading_rsquared U _ _ _ Hr)), Hn in Ha.
  cbv [adjusted] in Ha.
  replace (Z.of_nat (S k) - Z.of_nat k - 1)%Z with 0%Z in Ha by lia.
  replace (Z.of_nat (S k) - 1)%Z with (Z.of_nat k) in Ha by lia.
  injection Ha as <-.
  split; [reflexivity | apply div_by_zero_not_finite].
Qed.

(** X14.  The two constraints of a constructed fit index the entries 0, 1 and 2
    of the parameter vector: they can be evaluated on every vector of at
    least three entries, and on a shorter one a constraint raises the
    index error and does not hold. *)
Theorem constraints_need_three_entries m d gs bs vi ns af go fm ol nu vb f l :
  init U m d gs bs vi ns af go fm ol nu vb = (Ok f, l) ->
  forall x : array,
    ((3 <= length x)%nat ->
     Forall (fun c => is_ok (c_fun c x) = true) (constraints f)) /\
    ((length x < 3)%nat ->
     exists c, In c (constraints f) /\ c_fun c x = Raise IndexError /\
               satisfied c x = false).
Proof.
  intros Hinit x.
  destruct (init_configuration U _ _ _ _ _ _ _ _ _ _ _ _ _ _ Hinit)
    as (_ & _ & (dva & _ & ->) & _).
  unfold make_constraints. split.
  - intros Hx. destruct x as [|x0 [|x1 [|x2 x]]]; simpl in Hx; try lia.
    repeat constructor.
  - intros Hx.
    exists {| c_fun := outer_distance ol; c_lb := F.neg_inf;
              c_ub := F.div dva F.two |}.
    split; [simpl; auto |].
    destruct x as [|x0 [|x1 [|x2 x]]]; simpl in Hx; try lia;
      split; reflexivity.
Qed.

End SingleAttributes.

(** ** The grid of the cached model *)

Section CacheModelGrid.

Lemma rmap_length {A B : Type} (f : A -> result B) (l : list A) (r : list B) :
  rmap f l = Ok r -> length r = length l.
Proof.
  intros H. apply rmap_ok in H. symmetry. exact (Forall2_length _ _ _ H).
Qed.

Lemma rmap_Forall {A B : Type} (f : A -> result B) (l : list A) (r : list B) :
  rmap f l = Ok r -> Forall (fun a => is_ok (f a) = true) l.
Proof.
  intros H. apply rmap_ok in H.
  induction H as [|a b l r Ha _ IH]; constructor; [rewrite Ha; reflexivity | exact IH].
Qed.

Lemma rmap_pairs_with_slice (n : nat) (gs : list grid) :
  existsb is_slice gs = true ->
  rmap (fun g => match g, Some n with
                 | GPair lo hi, Some n => Ok (Np.linspace lo hi n)
                 | _, _ => Raise TypeError
                 end) gs = Raise TypeError.
Proof.
  induction gs as [|g gs IH]; [discriminate |].
  simpl. destruct g as [a b c|lo hi]; simpl; [reflexivity |].
  intros H. unfold mbind, result_bind, rbind. rewrite (IH H). reflexivity.
Qed.

(** X15.  When the first grid is a (low, high) pair, [cache_model] raises the
    type error if the number of samples is missing or if one of the
    other grids is a slice, whatever the model: no prediction is
    evaluated. *)
Theorem cache_model_type_error_on_pairs (m : PopulationModel) (lo hi : float)
    (gs : list grid) (ncpus : nat) (ns : option nat) (rand : nat -> float) :
  ns = None \/ existsb is_slice gs = true ->
  cache_model m (GPair lo hi :: gs) ncpus ns rand = Raise TypeError.
Proof.
  intros H. unfold cache_model.
  assert (E : parameter_space (GPair lo hi :: gs) ns = Raise TypeError).
  { destruct ns as [n|]; [| reflexivity].
    destruct H as [H|H]; [discriminate |].
    apply (rmap_pairs_with_slice n (GPair lo hi :: gs)). exact H. }
  rewrite E. reflexivity.
Qed.

(** X16.  When [cache_model] returns, the grids are all of the kind of the
    first one: all slices, or all pairs with the number of samples
    given. *)
Theorem cache_model_grids_of_one_kind (m : PopulationModel) (gs : list grid)
    (ncpus : nat) (ns : option nat) (rand : nat -> float) (r : list (array * array)) :
  cache_model m gs ncpus ns rand = Ok r ->
  gs <> [] /\
  (forallb is_slice gs = true \/ (forallb is_pair gs = true /\ ns <> None)).
Proof.
  unfold cache_model. destruct (parameter_space gs ns) as [ps|] eqn:E; [| discriminate].
  intros _. unfold parameter_space in E.
  destruct gs as [|[a b c|lo hi] gs']; [discriminate | |]; (split; [discriminate |]).
  - left. apply rmap_Forall in E. apply forallb_forall. intros g Hg.
    rewrite List.Forall_forall in E. specialize (E g Hg).
    destruct g; [reflexivity | discriminate].
  - right. apply rmap_Forall in E. split.
    + apply forallb_forall. intros g Hg.
      rewrite List.Forall_forall in E. specialize (E g Hg).
      destruct g; [discriminate | reflexivity].
    + apply List.Forall_inv in E. destruct ns; [discriminate | discriminate].
Qed.

Lemma length_linspace (lo hi : float) (n : nat) : length (Np.linspace lo hi n) = n.
Proof.
  unfold Np.linspace. cbv zeta.
  destruct (Nat.ltb_spec 1 n) as [Hn|Hn].
  - rewrite length_app, length_take, length_map, length_seq. simpl. lia.
  - rewrite length_map, length_seq. reflexivity.
Qed.

Lemma length_product {A : Type} (ps : list (list A)) (n : nat) :
  Forall (fun p => length p = n) ps -> length (Np.product ps) = (n ^ length ps)%nat.
Proof.
  induction 1 as [|p ps Hp _ IH]; [reflexivity |].
  simpl. rewrite <- IH, <- Hp. clear.
  induction p as [|x p IHp]; [reflexivity |].
  simpl. rewrite length_app, length_map, IHp. reflexivity.
Qed.

Lemma parameter_space_pairs (gs : list grid) (n : nat) (ps : list array) :
  forallb is_pair gs = true ->
  parameter_space gs (Some n) = Ok ps ->
  length ps = length gs /\ Forall (fun p => length p = n) ps.
Proof.
  intros Hp E.
  assert (E' : rmap (fun g => match g with
                              | GPair lo hi => Ok (Np.linspace lo hi n)
                              | GSlice _ _ _ => Raise TypeError
                              end) gs = Ok ps).
  { destruct gs as [|[|] gs']; [discriminate | discriminate | exact E]. }
  clear E. split; [exact (rmap_length _ _ _ E') |].
  apply rmap_ok in E'. clear Hp.
  induction E' as [|g p gs ps Hg _ IH]; constructor; [| exact IH].
  destruct g; [discriminate |]. injection Hg as <-. apply length_linspace.
Qed.

(** X17.  With [dims] pairs and [n] samples per pair, a [cache_model] that
    returns has evaluated the predictor on [n ^ dims] combinations, and
    returns at most as many entries. *)
Theorem cache_model_size (m : PopulationModel) (gs : list grid) (ncpus n : nat)
    (rand : nat -> float) (r : list (array * array)) :
  forallb is_pair gs = true ->
  cache_model m gs ncpus (Some n) rand = Ok r ->
  exists rows evaluated,
    rmap (mini_predictor m) rows = Ok evaluated /\
    length evaluated = (n ^ length gs)%nat /\
    r = List.filter keeps evaluated /\
    (length r <= n ^ length gs)%nat.
Proof.
  intros Hp. unfold cache_model.
  destruct (parameter_space gs (Some n)) as [ps|] eqn:E; [| discriminate].
  destruct (parameter_space_pairs _ _ _ Hp E) as [Hl Hf].
  unfold mbind, result_bind, rbind.
  destruct (take_rows _ _) as [rows|] eqn:Er; [| discriminate].
  destruct (rmap (mini_predictor m) rows) as [evaluated|] eqn:Ev; [| discriminate].
  intros [= <-].
  assert (Hlen : length evaluated = (n ^ length gs)%nat).
  { rewrite (rmap_length _ _ _ Ev). unfold take_rows in Er.
    rewrite (rmap_length _ _ _ Er), (Permutation_length (argsort_permutation _)).
    rewrite length_seq, length_map, length_seq, (length_product _ _ Hf).
    f_equal. exact Hl. }
  exists rows, evaluated. repeat split; try assumption.
  rewrite <- Hlen. apply List.filter_length_le.
Qed.

End CacheModelGrid.

(** ** Each search at most once *)

Section Once.

Variable U : Routines.
Variable kind : event -> bool.
Variable name : string.
Hypothesis kind_computed : forall n v, kind (Computed n v) = false.
Hypothesis kind_model_computed : forall n v, kind (ModelComputed n v) = false.

Lemma calls_of_last (l : list event) (e : event) :
  calls_of kind (l ++ [e]) = (calls_of kind l + (if kind e then 1 else 0))%nat.
Proof. rewrite calls_of_app. unfold calls_of. simpl. destruct (kind e); reflexivity. Qed.

(** It is enough that the state reached is as required. *)
Lemma once_kept {A : Type} (c : M A) :
  (forall s r s', searched_once kind name s -> c s = (r, s') ->
                  searched_once kind name s') ->
  once kind name c.
Proof. intros H s r s' J E. pose proof (H s r s' J E) as J'. split; [apply J' | auto]. Qed.

Lemma once_ret {A : Type} (a : A) : once kind name (mret a).
Proof. apply once_kept. intros s r s' J [= <- <-]. exact J. Qed.

Lemma once_lift {A : Type} (r : result A) : once kind name (lift r).
Proof. apply once_kept. intros s r' s' J [= <- <-]. exact J. Qed.

Lemma once_get_self : once kind name get_self.
Proof. apply once_kept. intros s r s' J [= <- <-]. exact J. Qed.

Lemma once_bind {A B : Type} (c : M A) (k : A -> M B) :
  once kind name c -> (forall a, once kind name (k a)) -> once kind name (c ≫= k).
Proof.
  intros Hc Hk s r s' J. unfold mbind, M_bind.
  destruct (c s) as [[a|e] s1] eqn:Ec; intros H.
  - destruct (Hc _ _ _ J Ec) as [_ J1]. apply (Hk a s1 r s' (J1 eq_refl) H).
  - injection H as <- <-. destruct (Hc _ _ _ J Ec) as [J1 _].
    split; [exact J1 | discriminate].
Qed.

Lemma once_when (b : bool) (c : M unit) : once kind name c -> once kind name (when b c).
Proof. destruct b; [auto | intros _; apply once_ret]. Qed.

Lemma once_ignore (c : M value) : once kind name c -> once kind name (ignore c).
Proof. intros Hc. apply once_bind; [exact Hc | intros; apply once_ret]. Qed.

Lemma once_emit (e : event) : kind e = false -> once kind name (emit e).
Proof.
  intros He. apply once_kept. intros s r s' [J1 J2] [= <- <-].
  unfold searched_once. simpl. rewrite calls_of_last, He, Nat.add_0_r. auto.
Qed.

Lemma once_setattr (n : string) (v : value) : once kind name (setattr n v).
Proof.
  apply once_kept. intros s r s' [J1 J2] [= <- <-].
  unfold searched_once. simpl. split; [exact J1 |].
  destruct (String.eqb_spec n name) as [->|Hn].
  - rewrite lookup_insert_eq. discriminate.
  - rewrite lookup_insert_ne by exact Hn. exact J2.
Qed.

Lemma once_set_time (which : bool) : kind TimeRead = false -> once kind name (set_time U which).
Proof.
  intros Ht. apply once_kept. intros s r s' [J1 J2] [= <- <-].
  unfold searched_once. simpl. rewrite calls_of_last, Ht, Nat.add_0_r.
  split; [exact J1 |]. destruct which; exact J2.
Qed.

(** An attribute other than the one of the search. *)
Lemma once_auto_attr (n : string) (getter : M value) :
  n <> name -> once kind name getter -> once kind name (auto_attr n getter).
Proof.
  intros Hn Hg s r s' J. unfold auto_attr.
  destruct (dict (self s) !! n) as [v|].
  - intros [= <- <-]. split; [apply J | auto].
  - destruct (getter s) as [[v|e] s1] eqn:Eg; intros [= <- <-].
    + destruct (Hg _ _ _ J Eg) as [_ J1]. destruct (J1 eq_refl) as [K1 K2].
      assert (K : searched_once kind name
                    {| self := set_dict (<[n := v]> (dict (self s1))) (self s1);
                       log := log s1 ++ [Computed n v] |}).
      { unfold searched_once. simpl.
        rewrite calls_of_last, kind_computed, Nat.add_0_r.
        split; [exact K1 |]. rewrite lookup_insert_ne by exact Hn. exact K2. }
      split; [apply K | auto].
    + destruct (Hg _ _ _ J Eg) as [J1 _]. split; [exact J1 | discriminate].
Qed.

(** An attribute memoized on the model. *)
Lemma once_model_auto_attr (n : string) (getter : M value) :
  once kind name getter -> once kind name (model_auto_attr n getter).
Proof.
  intros Hg s r s' J. unfold model_auto_attr.
  destruct (model_dict (model (self s)) !! n) as [v|].
  - intros [= <- <-]. split; [apply J | auto].
  - destruct (getter s) as [[v|e] s1] eqn:Eg; intros [= <- <-].
    + destruct (Hg _ _ _ J Eg) as [_ J1]. destruct (J1 eq_refl) as [K1 K2].
      unfold searched_once. simpl.
      rewrite calls_of_last, kind_model_computed, Nat.add_0_r. auto.
    + destruct (Hg _ _ _ J Eg) as [J1 _]. split; [exact J1 | discriminate].
Qed.

(** The attribute of the search: what it reads first is quiet, then it
    calls the search, and its result is stored. *)
Lemma once_search {X : Type} (getter : M value) (pre : M X) (e : event)
    (fin : X -> result value) :
  (forall s, getter s = (x ← pre; _ ← emit e; lift (fin x)) s) ->
  quiet kind name pre ->
  once kind name (auto_attr name getter).
Proof.
  intros Hshape Hpre s r s' [J1 J2]. unfold auto_attr.
  destruct (dict (self s) !! name) as [v|] eqn:Hd.
  - intros [= <- <-].
    split; [exact J1 | intros _; split; [exact J1 | rewrite Hd; discriminate]].
  - specialize (J2 eq_refl). rewrite Hshape. unfold mbind, M_bind.
    destruct (pre s) as [[x|e0] s1] eqn:Ep.
    + destruct (Hpre _ _ _ Ep) as [Q1 Q2]. rewrite J2 in Q1. simpl.
      assert (Hle : (calls_of kind (log s1 ++ [e]) <= 1)%nat).
      { rewrite calls_of_last, Q1. destruct (kind e); lia. }
      destruct (fin x) as [v|e1]; simpl; intros [= <- <-].
      * assert (K : searched_once kind name
                      {| self := set_dict (<[name := v]> (dict (self s1))) (self s1);
                         log := (log s1 ++ [e]) ++ [Computed name v] |}).
        { unfold searched_once. simpl.
          rewrite calls_of_last, kind_computed, Nat.add_0_r.
          split; [exact Hle |]. rewrite lookup_insert_eq. discriminate. }
        split; [apply K | auto].
      * split; [exact Hle | discriminate].
    + destruct (Hpre _ _ _ Ep) as [Q1 _]. intros [= <- <-].
      rewrite Q1, J2. split; [lia | discriminate].
Qed.

(** Confinement away from the search and from its attribute is quiet. *)
Lemma obeys_quiet {A : Type} (names : list string) (calls : event -> bool) (c : M A) :
  obeys any_fit names calls c ->
  listed names name = false ->
  (forall e, kind e = true -> calls e = false) ->
  quiet kind name c.
Proof.
  intros Hc Hn Hk s r s' E.
  destruct (Hc s r s' I E) as [_ D (l & -> & Hl)]. split; [| exact (D _ Hn)].
  rewrite calls_of_app, (allowed_no_call names calls kind l); [lia | | exact Hl].
  intros e He. destruct e; simpl;
    first [ rewrite kind_computed in He; discriminate
          | rewrite kind_model_computed in He; discriminate
          | exact (Hk _ He) ].
Qed.

End Once.

(** Decomposition of a goal [once kind name c] along the structure of
    [c]; the attributes met are other than [name]. *)
Ltac once_step :=
  match goal with
  | |- once _ _ (_ ≫= _) => apply once_bind; [| intros ?]
  | |- once _ _ (auto_attr _ _) =>
      apply once_auto_attr;
      [ first [ assumption | intros; reflexivity ]
      | first [ discriminate
              | match goal with H : forall n, In n _ -> n <> _ |- _ => apply H; simpl; tauto end ]
      | ]
  | |- once _ _ (model_auto_attr _ _) =>
      apply once_model_auto_attr; [first [assumption | intros; reflexivity] |]
  | |- once _ _ (when _ _) => apply once_when
  | |- once _ _ (ignore _) => apply once_ignore
  | |- once _ _ (emit _) => apply once_emit; first [reflexivity | assumption | solve [auto]]
  | |- once _ _ (setattr _ _) => apply once_setattr
  | |- once _ _ (set_time _ _) => apply once_set_time; first [reflexivity | assumption]
  | |- once _ _ (lift _) => apply once_lift
  | |- once _ _ get_self => apply once_get_self
  | |- once _ _ (mret _) => apply once_ret
  | |- once _ _ (if ?b then _ else _) => destruct b
  | |- once _ _ (match ?x with _ => _ end) => destruct x
  | |- once _ _ (let '(_, _) := ?x in _) => destruct x
  | |- once _ _ _ => assumption
  end.

Section OnceAttributes.

Variable U : Routines.
Variable kind : event -> bool.
Variable name : string.
Hypothesis kind_computed : forall n v, kind (Computed n v) = false.
Hypothesis kind_model_computed : forall n v, kind (ModelComputed n v) = false.
Hypothesis kind_printed : forall v, kind (Printed v) = false.
Hypothesis kind_regress : kind Regress = false.
Hypothesis kind_time : kind TimeRead = false.
Hypothesis kind_nuisance : kind NuisanceCall = false.
Hypothesis other : forall n, In n derived_names -> n <> name.
Hypothesis once_brute_force : once kind name (brute_force U).
Hypothesis once_global_opt : once kind name (global_opt U).
Hypothesis once_gradient_descent_step :
  once kind name (ballpark U) -> once kind name (gradient_descent U).

Lemma once_best_cached_model_parameters : once kind name best_cached_model_parameters.
Proof.
  unfold best_cached_model_parameters, cached_model_timeseries, cached_model_parameters,
    resurrect_cached_model.
  repeat once_step.
Qed.

Lemma once_ballpark_prediction : once kind name (ballpark_prediction U).
Proof. unfold ballpark_prediction. repeat once_step. Qed.

Lemma once_regression : once kind name (regression U).
Proof. pose proof once_ballpark_prediction. unfold regression. repeat once_step. Qed.

Lemma once_slope : once kind name (slope U).
Proof. pose proof once_regression. unfold slope. repeat once_step. Qed.

Lemma once_intercept : once kind name (intercept U).
Proof. pose proof once_regression. unfold intercept. repeat once_step. Qed.

Lemma once_ballpark : once kind name (ballpark U).
Proof.
  pose proof once_best_cached_model_parameters. pose proof once_slope.
  pose proof once_intercept. unfold ballpark. repeat once_step.
Qed.

Lemma once_gradient_descent : once kind name (gradient_descent U).
Proof. exact (once_gradient_descent_step once_ballpark). Qed.

Lemma once_overloaded_estimate : once kind name overloaded_estimate.
Proof. unfold overloaded_estimate. repeat once_step. Qed.

Lemma once_estimate : once kind name (estimate U).
Proof. pose proof once_gradient_descent. unfold estimate. repeat once_step. Qed.

Lemma once_scaled_ballpark_prediction : once kind name (scaled_ballpark_prediction U).
Proof.
  pose proof once_ballpark_prediction. pose proof once_slope. pose proof once_intercept.
  unfold scaled_ballpark_prediction. repeat once_step.
Qed.

Lemma once_prediction : once kind name (prediction U).
Proof.
  pose proof once_ballpark. pose proof once_estimate. unfold prediction. repeat once_step.
Qed.

Lemma once_rss : once kind name (rss U).
Proof. pose proof once_prediction. unfold rss. repeat once_step. Qed.

Lemma once_rsquared : once kind name (rsquared U).
Proof. pose proof once_rss. unfold rsquared. repeat once_step. Qed.

Lemma once_rsquared_adj : once kind name (rsquared_adj U).
Proof.
  pose proof once_rsquared. pose proof once_estimate. unfold rsquared_adj. repeat once_step.
Qed.

Lemma once_rsquared0 : once kind name (rsquared0 U).
Proof. pose proof once_scaled_ballpark_prediction. unfold rsquared0. repeat once_step. Qed.

Lemma once_msg : once kind name (msg U).
Proof.
  pose proof once_overloaded_estimate. pose proof once_rsquared. pose proof once_estimate.
  unfold msg. repeat once_step.
Qed.

Lemma once_attributes (n : string) (c : M value) :
  In (n, c) (attributes U) -> once kind name c.
Proof.
  unfold attributes. simpl. intros H.
  repeat (destruct H as [[= <- <-]|H];
          [ first [ exact once_best_cached_model_parameters | exact once_brute_force
                  | exact once_ballpark | exact once_gradient_descent
                  | exact once_global_opt | exact once_overloaded_estimate
                  | exact once_estimate | exact once_ballpark_prediction
                  | exact once_scaled_ballpark_prediction | exact once_slope
                  | exact once_intercept | exact once_prediction | exact once_rsquared
                  | exact once_rsquared_adj | exact once_rsquared0 | exact once_rss
                  | exact once_msg ] |]).
  contradiction.
Qed.

Lemma once_automatic_fitting (fm : string) : once kind name (automatic_fitting U fm).
Proof.
  pose proof once_ballpark. pose proof once_estimate. pose proof once_overloaded_estimate.
  pose proof once_rss. pose proof once_rsquared. pose proof once_msg.
  unfold automatic_fitting, flush. repeat once_step.
Qed.

(** Whatever the construction does, it has called the search at most
    once. *)
Lemma once_init m d gs bs vi ns af go fm ol nu vb :
  (calls_of kind (snd (init U m d gs bs vi ns af go fm ol nu vb)) <= 1)%nat.
Proof.
  unfold init. destruct (set_verbose vb) as [[v vv]|]; [| unfold calls_of; simpl; lia].
  destruct (is_valid_fit_method fm); simpl; [| unfold calls_of; simpl; lia].
  destruct (screen_dva (stimulus m)) as [dva|]; [| unfold calls_of; simpl; lia].
  assert (H0 : calls_of kind (snd (apply_nuisance nu d)) = 0%nat).
  { destruct nu; unfold calls_of; simpl; [rewrite kind_nuisance |]; reflexivity. }
  destruct (apply_nuisance nu d) as [[sd|e] l0]; simpl in H0 |- *; [| rewrite H0; lia].
  destruct af; [| simpl; rewrite H0; lia].
  match goal with
  | |- context [automatic_fitting U fm ?s0] =>
      assert (J : searched_once kind name s0)
        by (split; simpl; [rewrite H0; lia | intros _; exact H0]);
      destruct (automatic_fitting U fm s0) as [[[]|e] s1] eqn:E;
      apply (once_automatic_fitting fm _ _ _ J) in E; exact (proj1 E)
  end.
Qed.

(** A construction that returns leaves the fit as required. *)
Lemma once_init_ok m d gs bs vi ns af go fm ol nu vb f l :
  init U m d gs bs vi ns af go fm ol nu vb = (Ok f, l) ->
  searched_once kind name {| self := f; log := l |}.
Proof.
  intros Hinit. destruct (init_ok U _ _ _ _ _ _ _ _ _ _ _ _ _ _ Hinit)
    as (v & vv & dva & sd & _ & _ & _ & _ & Hrun).
  cbv zeta in Hrun.
  assert (H0 : calls_of kind match nu with Some _ => [NuisanceCall] | None => [] end = 0%nat).
  { destruct nu; unfold calls_of; simpl; [rewrite kind_nuisance |]; reflexivity. }
  destruct af.
  - refine (proj2 (once_automatic_fitting fm _ _ _ _ Hrun) eq_refl).
    split; simpl; [rewrite H0; lia | intros _; exact H0].
  - destruct Hrun as [-> ->]. split; simpl; [rewrite H0; lia | intros _; exact H0].
Qed.

End OnceAttributes.

Section OnceSearches.

Variable U : Routines.

Lemma other_than_searches (name : string) :
  listed derived_names name = false -> forall n, In n derived_names -> n <> name.
Proof.
  intros H n Hn <-. unfold listed in H.
  assert (H' : existsb (String.eqb n) derived_names = true).
  { apply existsb_exists. exists n. split; [exact Hn | apply String.eqb_refl]. }
  congruence.
Qed.

Lemma quiet_get_self (kind : event -> bool) (name : string) : quiet kind name get_self.
Proof. intros s r s' [= <- <-]. auto. Qed.

(** The seed of the gradient descent, read before the search. *)
Lemma gradient_descent_shape (s : state) :
  (f ← get_self;
   _ ← when (very_verbose f) (bp ← ballpark U; emit (Printed bp));
   bp ← ballpark U;
   f ← get_self;
   _ ← emit GradientDescentSearch;
   lift (gradient_descent_search U (data f) utils_error_function
           (bound (model f) (generate_prediction (model f)))
           bp (bounds f) (very_verbose f) (constraints f))) s =
  (x ← (f ← get_self;
        _ ← when (very_verbose f) (bp ← ballpark U; emit (Printed bp));
        bp ← ballpark U;
        f ← get_self;
        mret (f, bp));
   _ ← emit GradientDescentSearch;
   lift (gradient_descent_search U (data (fst x)) utils_error_function
           (bound (model (fst x)) (generate_prediction (model (fst x))))
           (snd x) (bounds (fst x)) (very_verbose (fst x)) (constraints (fst x)))) s.
Proof.
  unfold mbind, M_bind, get_self, mret, M_ret.
  destruct (when _ _ s) as [[[]|e] s1]; [| reflexivity].
  destruct (ballpark U s1) as [[bp|e] s2]; reflexivity.
Qed.

Lemma once_brute_force_search_attribute :
  once is_brute_force_search "brute_force" (brute_force U).
Proof.
  unfold brute_force.
  eapply once_search with (pre := get_self) (e := BruteForceSearch);
    [reflexivity | intros s; reflexivity | apply quiet_get_self].
Qed.

Lemma once_global_search_attribute : once is_global_search "global_opt" (global_opt U).
Proof.
  unfold global_opt.
  eapply once_search with (pre := get_self) (e := GlobalSearch);
    [reflexivity | intros s; reflexivity | apply quiet_get_self].
Qed.

Lemma once_gradient_descent_search_attribute :
  once is_gradient_descent_search "gradient_descent" (gradient_descent U).
Proof.
  unfold gradient_descent.
  eapply once_search with (e := GradientDescentSearch);
    [reflexivity | exact gradient_descent_shape |].
  apply (obeys_quiet _ _ (fun _ _ => eq_refl) (fun _ _ => eq_refl)
           ballpark_names seed_calls);
    [| reflexivity | intros []; simpl; congruence].
  repeat first [ obeys_by (obeys_ballpark U) | obeys_step ].
Qed.

(** The assumptions of the lemmas above, for each of the three
    searches. *)
Ltac once_searches :=
  first [ reflexivity
        | solve [intros; reflexivity]
        | solve [apply other_than_searches; reflexivity]
        | exact once_brute_force_search_attribute
        | exact once_global_search_attribute
        | solve [intros _; exact once_gradient_descent_search_attribute]
        | solve [unfold brute_force; repeat once_step]
        | solve [unfold global_opt; repeat once_step]
        | solve [intros ?; unfold gradient_descent; repeat once_step] ].

(** X18.  Whatever the arguments and whether the construction returns or
    raises, it has called each of the three search routines at most
    once. *)
Theorem construction_searches_at_most_once m d gs bs vi ns af go fm ol nu vb :
  let l := snd (init U m d gs bs vi ns af go fm ol nu vb) in
  (calls_of is_brute_force_search l <= 1)%nat /\
  (calls_of is_gradient_descent_search l <= 1)%nat /\
  (calls_of is_global_search l <= 1)%nat.
Proof.
  intros l. unfold l. repeat split.
  - apply (once_init U is_brute_force_search "brute_force"); once_searches.
  - apply (once_init U is_gradient_descent_search "gradient_descent"); once_searches.
  - apply (once_init U is_global_search "global_opt"); once_searches.
Qed.

(** X19.  After a construction that returns, with or without automatic fit,
    reading a memoized attribute does not repeat a search: counted from
    the start of the construction, each of the three search routines has
    been called at most once when the read returns or raises. *)
Theorem read_searches_at_most_once m d gs bs vi ns af go fm ol nu vb f l n c :
  init U m d gs bs vi ns af go fm ol nu vb = (Ok f, l) ->
  In (n, c) (attributes U) ->
  let l' := log (snd (c {| self := f; log := l |})) in
  (calls_of is_brute_force_search l' <= 1)%nat /\
  (calls_of is_gradient_descent_search l' <= 1)%nat /\
  (calls_of is_global_search l' <= 1)%nat.
Proof.
  intros Hinit Hin l'. unfold l'.
  destruct (c {| self := f; log := l |}) as [r s'] eqn:E. simpl.
  repeat split.
  - refine (proj1 (once_attributes U is_brute_force_search "brute_force"
                     _ _ _ _ _ _ _ n c Hin _ _ _ _ E));
      try once_searches.
    refine (once_init_ok U is_brute_force_search "brute_force"
              _ _ _ _ _ _ _ _ _ _ _ _ _ _ _ _ _ _ _ _ _ _ _ _ Hinit);
      once_searches.
  - refine (proj1 (once_attributes U is_gradient_descent_search "gradient_descent"
                     _ _ _ _ _ _ _ n c Hin _ _ _ _ E));
      try once_searches.
    refine (once_init_ok U is_gradient_descent_search "gradient_descent"
              _ _ _ _ _ _ _ _ _ _ _ _ _ _ _ _ _ _ _ _ _ _ _ _ Hinit);
      once_searches.
  - refine (proj1 (once_attributes U is_global_search "global_opt"
                     _ _ _ _ _ _ _ n c Hin _ _ _ _ E));
      try once_searches.
    refine (once_init_ok U is_global_search "global_opt"
              _ _ _ _ _ _ _ _ _ _ _ _ _ _ _ _ _ _ _ _ _ _ _ _ Hinit);
      once_searches.
Qed.

End OnceSearches.

(** ** The best cached model *)

Section BestCachedModel.

Lemma ltb_irrefl (x : float) : F.ltb x x = false.
Proof.
  unfold F.ltb, SFltb, SFcompare. destruct x as [[]|[]| |[] m e]; try reflexivity;
    rewrite Z.compare_refl; change (Pos.compare_cont Eq m m) with (Pos.compare m m);
    rewrite Pos.compare_refl; reflexivity.
Qed.

(** The strict order of the floats is transitive. *)
Lemma ltb_trans (a b c : float) :
  F.ltb a b = true -> F.ltb b c = true -> F.ltb a c = true.
Proof.
  unfold F.ltb, SFltb, SFcompare.
  destruct a as [[]|[]| |[] ma ea], b as [[]|[]| |[] mb eb], c as [[]|[]| |[] mc ec];
    try discriminate; try reflexivity;
    change (Pos.compare_cont Eq ma mb) with (Pos.compare ma mb);
    change (Pos.compare_cont Eq mb mc) with (Pos.compare mb mc);
    change (Pos.compare_cont Eq ma mc) with (Pos.compare ma mc);
    destruct (Z.compare_spec ea eb), (Z.compare_spec eb ec), (Z.compare_spec ea ec);
    try discriminate; try reflexivity; try lia; subst;
    destruct (Pos.compare_spec ma mb), (Pos.compare_spec mb mc),
      (Pos.compare_spec ma mc);
    simpl; try discriminate; try reflexivity; try lia.
Qed.

(** [np.argmin] on an array without NaN: no entry is below the entry at
    the index it returns. *)
Lemma argmin_from_spec (all a : list float) :
  forall best ibest i pre,
    all = pre ++ a -> length pre = i ->
    all !! ibest = Some best -> F.isnan best = false ->
    Forall (fun x => F.isnan x = false) a ->
    (forall y, In y pre -> F.ltb y best = false) ->
    exists m, all !! Np.argmin_from best ibest i a = Some m /\
              forall y, In y all -> F.ltb y m = false.
Proof.
  induction a as [|x a IH]; intros best ibest i pre Hall Hlen Hbest Hnan Ha Hpre.
  - simpl. exists best. split; [exact Hbest |].
    rewrite app_nil_r in Hall. subst all. exact Hpre.
  - simpl. rewrite Hnan.
    pose proof (Forall_inv Ha) as Hx. pose proof (Forall_inv_tail Ha) as Ha'.
    simpl in Hx. rewrite Hx. simpl.
    assert (Hall' : all = (pre ++ [x]) ++ a) by (rewrite <- app_assoc; exact Hall).
    assert (Hlen' : length (pre ++ [x]) = S i) by (rewrite length_app; simpl; lia).
    destruct (F.ltb x best) eqn:Hlt.
    + apply (IH x i (S i) (pre ++ [x]) Hall' Hlen'); try assumption.
      * rewrite Hall. rewrite lookup_app_r by lia.
        replace (i - length pre)%nat with 0%nat by lia. reflexivity.
      * intros y Hy. apply in_app_or in Hy. destruct Hy as [Hy|[<-|[]]].
        { destruct (F.ltb y x) eqn:Hyx; [| reflexivity].
          rewrite <- (Hpre y Hy). symmetry. exact (ltb_trans _ _ _ Hyx Hlt). }
        { apply ltb_irrefl. }
    + apply (IH best ibest (S i) (pre ++ [x]) Hall' Hlen'); try assumption.
      intros y Hy. apply in_app_or in Hy. destruct Hy as [Hy|[<-|[]]];
        [exact (Hpre y Hy) | exact Hlt].
Qed.

Lemma argmin_from_lt (a : list float) :
  forall best ibest i,
    (ibest < i)%nat -> (Np.argmin_from best ibest i a < i + length a)%nat.
Proof.
  induction a as [|y a IH]; intros best ibest i Hi; simpl; [lia |].
  destruct (F.isnan best); [lia |].
  destruct (F.isnan y || F.ltb y best).
  - specialize (IH y i (S i)). lia.
  - specialize (IH best ibest (S i)). lia.
Qed.

Lemma argmin_lt (a : list float) (idx : nat) :
  Np.argmin a = Ok idx -> (idx < length a)%nat.
Proof.
  destruct a as [|x a]; [discriminate |]. intros [= <-].
  pose proof (argmin_from_lt a x 0 1). simpl. lia.
Qed.

Lemma argmin_min (a : list float) (idx : nat) :
  Np.argmin a = Ok idx ->
  Forall (fun x => F.isnan x = false) a ->
  exists m, a !! idx = Some m /\ forall y, In y a -> F.ltb y m = false.
Proof.
  destruct a as [|x a]; [discriminate |]. intros [= <-] Ha.
  apply (argmin_from_spec (x :: a) a x 0 1 [x] eq_refl eq_refl eq_refl
           (Forall_inv Ha) (Forall_inv_tail Ha)).
  intros y [<-|[]]. apply ltb_irrefl.
Qed.

(** A model as its constructor leaves it has a faithful memo: nothing is
    stored without the path of a cache, and with it the views that
    [resurrect_cached_model] has computed from the file. *)
Lemma faithful_memo_constructed (m : PopulationModel) (table : list (array * array)) :
  cached_model_file m = Ok table ->
  model_dict m = ∅ \/
  model_dict m = {[ "resurrect_cached_model" :=
                      VTuple [VMatrix (map fst table); VMatrix (map snd table)] ]} ->
  faithful_memo m.
Proof.
  intros Ht [E|E] n v H; rewrite E in H.
  - rewrite lookup_empty in H. discriminate.
  - apply lookup_singleton_Some in H. destruct H as [<- <-].
    exists table. split; [exact Ht | reflexivity].
Qed.

Lemma serves_model_auto_attr (name : string) (getter : M value) :
  serves name getter -> serves name (model_auto_attr name getter).
Proof.
  intros Hg s r s' Hf. unfold model_auto_attr.
  destruct (model_dict (model (self s)) !! name) as [v|] eqn:Hd.
  - intros [= <- <-]. repeat split; try assumption. exact (Hf _ _ Hd).
  - destruct (getter s) as [[v|e] s1] eqn:Eg; intros [= <- <-].
    destruct (Hg _ _ _ Hf Eg) as (Hf1 & Hfile & Hdata & table & Ht & Hv).
    split; [| split; [exact Hfile | split; [exact Hdata | exists table; auto]]].
    intros n w. simpl. destruct (String.eqb_spec n name) as [->|Hn].
    + rewrite lookup_insert_eq. intros [= <-]. exists table.
      split; [rewrite Hfile; exact Ht | exact Hv].
    + rewrite lookup_insert_ne by congruence. apply Hf1.
Qed.

Lemma serves_resurrect_cached_model : serves "resurrect_cached_model" resurrect_cached_model.
Proof.
  apply serves_model_auto_attr. intros s r s' Hf H.
  apply bind_ok in H. destruct H as (f & s1 & [= <- <-] & H).
  apply bind_ok in H. destruct H as (dat & s1 & [= Hdat <-] & [= <- <-]).
  repeat split; try assumption. exists dat. split; [exact Hdat | reflexivity].
Qed.

Lemma serves_cached_model_timeseries :
  serves "cached_model_timeseries" cached_model_timeseries.
Proof.
  apply serves_model_auto_attr. intros s r s' Hf H.
  apply bind_ok in H. destruct H as (rc & s1 & Hrc & [= Hget <-]).
  destruct (serves_resurrect_cached_model _ _ _ Hf Hrc)
    as (Hf1 & Hfile & Hdata & table & Ht & Hv).
  cbn in Hv. injection Hv as <-. cbn in Hget. injection Hget as <-.
  repeat split; try assumption. exists table. split; [exact Ht | reflexivity].
Qed.

Lemma serves_cached_model_parameters :
  serves "cached_model_parameters" cached_model_parameters.
Proof.
  apply serves_model_auto_attr. intros s r s' Hf H.
  apply bind_ok in H. destruct H as (rc & s1 & Hrc & [= Hget <-]).
  destruct (serves_resurrect_cached_model _ _ _ Hf Hrc)
    as (Hf1 & Hfile & Hdata & table & Ht & Hv).
  cbn in Hv. injection Hv as <-. cbn in Hget. injection Hget as <-.
  repeat split; try assumption. exists table. split; [exact Ht | reflexivity].
Qed.

(** X20.  On a model whose memoized views are those of its cache file, a
    [best_cached_model_parameters] that is computed is the parameter
    vector of a row of the cached table, and when no row has NaN as its
    sum of squared differences to the data, no row has a smaller sum than
    the row that is chosen; the views the model has memoized on the way
    are those of the file. *)
Theorem best_cached_parameters_minimise_rss (s s' : state) (v : value) :
  faithful_memo (model (self s)) ->
  dict (self s) !! "best_cached_model_parameters" = None ->
  best_cached_model_parameters s = (Ok v, s') ->
  exists table errs idx ts p e,
    cached_model_file (model (self s)) = Ok table /\
    rmap (fun row => d ← Np.subtract row (data (self s)); Ok (Ne.sum (Np.square d)))
      (map fst table) = Ok errs /\
    table !! idx = Some (ts, p) /\
    errs !! idx = Some e /\
    v = VArray p /\
    (Forall (fun x => F.isnan x = false) errs ->
     forall y, In y errs -> F.ltb y e = false) /\
    faithful_memo (model (self s')).
Proof.
  intros Hf Hnone H.
  destruct (auto_attr_miss _ _ _ _ _ Hnone H) as (s1 & Hg & ->). clear H.
  apply bind_ok in Hg. destruct Hg as (a & s2 & Ha & Hg).
  destruct (serves_cached_model_timeseries _ _ _ Hf Ha)
    as (Hf2 & Hfile2 & Hdata2 & table & Ht & Hv).
  cbn in Hv. injection Hv as <-.
  apply bind_ok in Hg. destruct Hg as (rows & s3 & [= Hrows <-] & Hg).
  cbn in Hrows. subst rows.
  apply bind_ok in Hg. destruct Hg as (f0 & s3 & [= <- <-] & Hg).
  apply bind_ok in Hg. destruct Hg as (errs & s3 & [= Herrs <-] & Hg).
  apply bind_ok in Hg. destruct Hg as (idx & s3 & [= Hidx <-] & Hg).
  apply bind_ok in Hg. destruct Hg as (ps & s3 & Hps & Hg).
  destruct (serves_cached_model_parameters _ _ _ Hf2 Hps)
    as (Hf3 & Hfile3 & Hdata3 & table' & Ht' & Hv').
  rewrite Hfile2, Ht in Ht'. injection Ht' as <-.
  cbn in Hv'. injection Hv' as <-.
  injection Hg as Hg <-. cbn in Hg. rewrite list_lookup_fmap in Hg.
  destruct (table !! idx) as [[ts p]|] eqn:Et; [| discriminate].
  injection Hg as <-.
  rewrite Hdata2 in Herrs.
  destruct (lookup_lt_is_Some_2 errs idx (argmin_lt _ _ Hidx)) as [e He].
  exists table, errs, idx, ts, p, e.
  repeat (split; [first [assumption | reflexivity] |]).
  split; [| exact Hf3].
  intros Hnan. destruct (argmin_min _ _ Hidx Hnan) as (m & Hm & Hmin).
  rewrite He in Hm. injection Hm as <-. exact Hmin.
Qed.

End BestCachedModel.

(** ** The spatiotemporal fit *)

(** X21.  [SpatioTemporalFit.generate_prediction] and
    [SpatioTemporalFit.prediction] pass eleven positional arguments to
    [compute_model_ts], which has ten parameters: whatever the arguments
    and whatever the body computes, both raise the type error; with the
    second argument left out the call reaches the body. *)
Theorem compute_model_ts_arity (body : list value -> result array)
    (stimulus : Strf.VisualStimulus) (tr_length : value)
    (theta rho_given spatial_sigma temporal_sigma weight : value) :
  Strf.generate_prediction body stimulus tr_length
    theta rho_given spatial_sigma temporal_sigma weight = Raise TypeError /\
  Strf.prediction body stimulus tr_length
    theta spatial_sigma temporal_sigma weight = Raise TypeError /\
  Strf.compute_model_ts body
    [theta; spatial_sigma; temporal_sigma; weight;
     Strf.deg_x stimulus; Strf.deg_y stimulus; Strf.stim_arr stimulus; tr_length;
     Strf.projector_hz stimulus; Strf.rho] [] =
  body [theta; spatial_sigma; temporal_sigma; weight;
        Strf.deg_x stimulus; Strf.deg_y stimulus; Strf.stim_arr stimulus; tr_length;
        Strf.projector_hz stimulus; Strf.rho].
Proof. split; [| split]; reflexivity. Qed.

(** ** The properties at concrete fits *)

Lemma automatic_fit_flushes_searches_witness :
  exists f l,
    Scenario.construct true false "2step" None 0 = (Ok f, l) /\
    let s := {| self := f; log := l |} in
    brute_force Scenario.routines s = (Ok (Py.none_list 4), s) /\
    gradient_descent Scenario.routines s = (Ok (Py.none_list 6), s) /\
    global_opt Scenario.routines s = (Ok (Py.none_list 6), s).
Proof.
  assert (Hok : is_ok (fst (Scenario.construct true false "2step" None 0)) = true)
    by (vm_compute; reflexivity).
  destruct (Scenario.construct true false "2step" None 0) as [[f|e] l] eqn:E;
    [| discriminate].
  exists f, l. split; [reflexivity |].
  apply (automatic_fit_flushes_searches Scenario.routines Scenario.gaussian
           Scenario.signal Scenario.search_grid Scenario.open_bounds (1, 2, 3)%Z
           (Some 2%nat) false "2step" (F.of_Z 2) None 0 f l);
    [reflexivity | exact E].
Defined.

Lemma silent_grid_only_fit_stops_at_ballpark_witness :
  exists f l,
    Scenario.construct true false "grid_only" None 0 = (Ok f, l) /\
    (exists bp, dict f !! "ballpark" = Some bp) /\
    occurs GradientDescentSearch l = false /\
    occurs GlobalSearch l = false /\
    dict f !! "estimate" = None /\
    dict f !! "prediction" = None /\
    dict f !! "rss" = None /\
    dict f !! "rsquared" = None.
Proof.
  assert (Hok : is_ok (fst (Scenario.construct true false "grid_only" None 0)) = true)
    by (vm_compute; reflexivity).
  destruct (Scenario.construct true false "grid_only" None 0) as [[f|e] l] eqn:E;
    [| discriminate].
  exists f, l. split; [reflexivity |].
  exact (silent_grid_only_fit_stops_at_ballpark Scenario.routines Scenario.gaussian
           Scenario.signal Scenario.search_grid Scenario.open_bounds (1, 2, 3)%Z
           (Some 2%nat) false (F.of_Z 2) None f l E).
Defined.

Lemma estimate_after_grid_only_fit_raises_witness :
  exists f l,
    Scenario.construct true false "grid_only" None 0 = (Ok f, l) /\
    fst (estimate Scenario.routines {| self := f; log := l |}) = Raise AttributeError.
Proof.
  assert (Hok : is_ok (fst (Scenario.construct true false "grid_only" None 0)) = true)
    by (vm_compute; reflexivity).
  destruct (Scenario.construct true false "grid_only" None 0) as [[f|e] l] eqn:E;
    [| discriminate].
  exists f, l. split; [reflexivity |].
  rewrite (estimate_after_grid_only_fit_raises Scenario.routines Scenario.gaussian
             Scenario.signal Scenario.search_grid Scenario.open_bounds (1, 2, 3)%Z
             (Some 2%nat) false (F.of_Z 2) None f l eq_refl E).
  reflexivity.
Defined.

Lemma verbose_grid_only_fit_raises_witness :
  is_ok (fst (Scenario.construct true false "grid_only" None 1)) = false.
Proof.
  apply (verbose_grid_only_fit_raises Scenario.routines Scenario.gaussian
           Scenario.signal Scenario.search_grid Scenario.open_bounds (1, 2, 3)%Z
           (Some 2%nat) false (F.of_Z 2) None 1); [reflexivity | discriminate].
Defined.

Lemma verbose_grid_only_fit_refines_witness :
  exists f l,
    init Scenario.routines Cases.testing Scenario.signal Scenario.search_grid
      Scenario.open_bounds (1, 2, 3)%Z (Some 2%nat) true false "grid_only" (F.of_Z 2)
      None 1 = (Ok f, l) /\
    fit_method f = "grid_only" /\
    occurs GradientDescentSearch l = true.
Proof.
  assert (Hok : is_ok (fst (init Scenario.routines Cases.testing Scenario.signal
                              Scenario.search_grid Scenario.open_bounds (1, 2, 3)%Z
                              (Some 2%nat) true false "grid_only" (F.of_Z 2) None 1))
                = true) by (vm_compute; reflexivity).
  destruct (init Scenario.routines Cases.testing Scenario.signal Scenario.search_grid
              Scenario.open_bounds (1, 2, 3)%Z (Some 2%nat) true false "grid_only"
              (F.of_Z 2) None 1) as [[f|e] l] eqn:E; [| discriminate].
  exists f, l. split; [reflexivity |]. split.
  - destruct (init_configuration _ _ _ _ _ _ _ _ _ _ _ _ _ _ _ E) as (_ & H & _).
    exact H.
  - apply (verbose_grid_only_fit_refines Scenario.routines Cases.testing
             Scenario.signal Scenario.search_grid Scenario.open_bounds (1, 2, 3)%Z
             (Some 2%nat) false (F.of_Z 2) None 1 f l);
      [discriminate | discriminate | exact E].
Defined.

Lemma global_opt_fit_skips_the_grid_witness :
  exists f l,
    Scenario.construct true false "global_opt" None 0 = (Ok f, l) /\
    occurs GlobalSearch l = true /\
    occurs BruteForceSearch l = false /\
    occurs Regress l = false /\
    occurs GradientDescentSearch l = false /\
    dict f !! "ballpark" = None /\
    exists est, dict f !! "estimate" = Some est.
Proof.
  assert (Hok : is_ok (fst (Scenario.construct true false "global_opt" None 0)) = true)
    by (vm_compute; reflexivity).
  destruct (Scenario.construct true false "global_opt" None 0) as [[f|e] l] eqn:E;
    [| discriminate].
  exists f, l. split; [reflexivity |].
  exact (global_opt_fit_skips_the_grid Scenario.routines Scenario.gaussian
           Scenario.signal Scenario.search_grid Scenario.open_bounds (1, 2, 3)%Z
           (Some 2%nat) (F.of_Z 2) None 0 f l E).
Defined.

Lemma automatic_fit_stores_goodness_witness :
  exists f l,
    Scenario.construct true false "2step" None 0 = (Ok f, l) /\
    exists est r r2,
      dict f !! "estimate" = Some est /\
      dict f !! "rss" = Some r /\
      dict f !! "rsquared" = Some r2 /\
      in_unit_interval r2 = true.
Proof.
  assert (Hok : is_ok (fst (Scenario.construct true false "2step" None 0)) = true)
    by (vm_compute; reflexivity).
  destruct (Scenario.construct true false "2step" None 0) as [[f|e] l] eqn:E;
    [| discriminate].
  exists f, l. split; [reflexivity |].
  apply (automatic_fit_stores_goodness Scenario.routines Scenario.gaussian
           Scenario.signal Scenario.search_grid Scenario.open_bounds (1, 2, 3)%Z
           (Some 2%nat) false "2step" (F.of_Z 2) None 0 f l);
    [discriminate | exact E].
Defined.

Lemma nuisance_applied_once_witness :
  exists f l,
    Scenario.construct true false "2step" (Some Scenario.demean) 0 = (Ok f, l) /\
    Scenario.demean Scenario.signal = Ok (data f) /\
    calls_of is_nuisance_call l = 1%nat /\
    model_data (model f) = Some Scenario.signal.
Proof.
  assert (Hok : is_ok (fst (Scenario.construct true false "2step" (Some Scenario.demean)
                              0)) = true) by (vm_compute; reflexivity).
  destruct (Scenario.construct true false "2step" (Some Scenario.demean) 0)
    as [[f|e] l] eqn:E; [| discriminate].
  exists f, l. split; [reflexivity |].
  exact (nuisance_applied_once Scenario.routines Scenario.gaussian
           Scenario.signal Scenario.search_grid Scenario.open_bounds (1, 2, 3)%Z
           (Some 2%nat) true false "2step" (F.of_Z 2) (Some Scenario.demean) 0 f l E).
Defined.

Lemma ballpark_runs_regression_twice_witness :
  let s := Scenario.lazy_state "2step" in
  exists v, fst (ballpark Scenario.routines s) = Ok v /\
            calls_of is_regress (log (snd (ballpark Scenario.routines s))) = 2%nat.
Proof.
  intros s.
  assert (Hv : fst (ballpark Scenario.routines s) =
               Ok (VArray [F.one; F.zero; F.one;
                           S754_finite false 5629499534213119 (-51);
                           S754_finite false 4503599627370497 (-52)])).
  { vm_compute. reflexivity. }
  assert (Hc : ballpark Scenario.routines s =
               (fst (ballpark Scenario.routines s), snd (ballpark Scenario.routines s)))
    by apply surjective_pairing.
  rewrite Hv in Hc.
  destruct (ballpark_runs_regression_twice Scenario.routines s _ _ eq_refl eq_refl
              eq_refl Hc) as (bf & p & sl & ic & _ & Hl).
  eexists. split; [exact Hv |]. rewrite Hl. reflexivity.
Defined.

Lemma grid_only_prediction_at_ballpark_witness :
  let s := Scenario.lazy_state "grid_only" in
  exists v, fst (prediction Scenario.routines s) = Ok v /\
            dict (self (snd (prediction Scenario.routines s))) !! "estimate" = None.
Proof.
  intros s.
  assert (Hv : fst (prediction Scenario.routines s) =
               Ok (VArray [S754_finite false 7881299347898368 (-51);
                           S754_finite false 4503599627370497 (-52);
                           S754_finite false 7881299347898368 (-51)])).
  { vm_compute. reflexivity. }
  assert (Hc : prediction Scenario.routines s =
               (fst (prediction Scenario.routines s), snd (prediction Scenario.routines s)))
    by apply surjective_pairing.
  rewrite Hv in Hc.
  destruct (grid_only_prediction_at_ballpark Scenario.routines s _ _ eq_refl eq_refl Hc)
    as (_ & _ & H).
  eexists. split; [exact Hv |]. rewrite H. reflexivity.
Defined.

Lemma bounded_amplitude_slope_witness :
  let s := Cases.falling_state in
  exists bp s1 X sl ic,
    ballpark_prediction Scenario.routines s = (Ok bp, s1) /\
    Py.to_array bp = Ok X /\
    linregress Scenario.routines X (data (self s)) = Ok (sl, ic) /\
    fst (slope Scenario.routines s) = Ok (VFloat (F.abs sl)) /\
    F.abs sl = S754_finite false 6582184070772263 (-53) /\
    F.ltb (F.abs sl) F.zero = false.
Proof.
  intros s.
  assert (Hv : fst (slope Scenario.routines s) =
               Ok (VFloat (S754_finite false 6582184070772263 (-53)))).
  { vm_compute. reflexivity. }
  assert (Hc : slope Scenario.routines s =
               (fst (slope Scenario.routines s), snd (slope Scenario.routines s)))
    by apply surjective_pairing.
  rewrite Hv in Hc.
  destruct (bounded_amplitude_slope Scenario.routines s _ _ eq_refl eq_refl Hc)
    as (bp & s1 & X & sl & ic & Hbp & HX & Hl & _ & Hx & Hneg & _).
  injection Hx as Hx.
  exists bp, s1, X, sl, ic. rewrite Hv, <- Hx. auto 10.
Defined.

Lemma rsquared_adj_not_finite_witness :
  let s := Cases.short_state in
  length (data (self s)) = 4%nat /\
  fst (estimate Scenario.routines s) = Ok (VArray [F.one; F.one; F.one]) /\
  fst (rsquared Scenario.routines s) = Ok (VFloat F.zero) /\
  fst (rsquared_adj Scenario.routines s) = Ok (VFloat F.neg_inf) /\
  F.isfinite F.neg_inf = false.
Proof.
  intros s.
  assert (Hv : fst (rsquared_adj Scenario.routines s) = Ok (VFloat F.neg_inf)).
  { vm_compute. reflexivity. }
  assert (Hc : rsquared_adj Scenario.routines s =
               (fst (rsquared_adj Scenario.routines s),
                snd (rsquared_adj Scenario.routines s)))
    by apply surjective_pairing.
  rewrite Hv in Hc.
  assert (He : dict (self (snd (rsquared_adj Scenario.routines s))) !! "estimate" =
               Some (VArray [F.one; F.one; F.one])).
  { vm_compute. reflexivity. }
  assert (Hr : dict (self (snd (rsquared_adj Scenario.routines s))) !! "rsquared" =
               Some (VFloat F.zero)).
  { vm_compute. reflexivity. }
  destruct (rsquared_adj_not_finite Scenario.routines s _ _ _ 3%nat _ eq_refl Hc Hr He
              eq_refl eq_refl) as [Hx Hinf].
  split; [reflexivity |]. split; [vm_compute; reflexivity |].
  split; [vm_compute; reflexivity |]. split; [exact Hv |].
  exact Hinf.
Defined.

Lemma constraints_need_three_entries_witness :
  exists f,
    Scenario.construct false false "2step" None 0 = (Ok f, []) /\
    Forall (fun c => is_ok (c_fun c [F.one; F.one; F.one]) = true) (constraints f) /\
    exists c, In c (constraints f) /\ c_fun c [F.one; F.one] = Raise IndexError.
Proof.
  assert (H : Scenario.construct false false "2step" None 0 =
              (Ok (Scenario.lazy_fit "2step" Scenario.gaussian Scenario.open_bounds), []))
    by reflexivity.
  pose proof (constraints_need_three_entries Scenario.routines _ _ _ _ _ _ _ _ _ _ _ _
                _ _ H) as C.
  eexists. split; [exact H |]. split.
  - apply (C [F.one; F.one; F.one]). simpl. lia.
  - destruct (proj2 (C [F.one; F.one])) as (c & Hc & Hr & _); [simpl; lia |].
    exists c. split; assumption.
Defined.

Lemma cache_model_grids_of_one_kind_witness :
  cache_model Scenario.reciprocal Scenario.unit_grid 1 (Some 2%nat) Scenario.draw =
    Ok [([F.one; F.one], [F.one]); ([F.inf; F.zero], [F.zero])] /\
  forallb is_pair Scenario.unit_grid = true.
Proof.
  assert (H : cache_model Scenario.reciprocal Scenario.unit_grid 1 (Some 2%nat)
                Scenario.draw =
              Ok [([F.one; F.one], [F.one]); ([F.inf; F.zero], [F.zero])])
    by (vm_compute; reflexivity).
  split; [exact H |].
  destruct (cache_model_grids_of_one_kind _ _ _ _ _ _ H) as [_ [Hs | [Hp _]]];
    [discriminate | exact Hp].
Defined.

Lemma cache_model_size_witness :
  exists r,
    cache_model Scenario.reciprocal Scenario.unit_grid 1 (Some 2%nat) Scenario.draw = Ok r /\
    (length r <= 2)%nat.
Proof.
  assert (H : cache_model Scenario.reciprocal Scenario.unit_grid 1 (Some 2%nat)
                Scenario.draw =
              Ok [([F.one; F.one], [F.one]); ([F.inf; F.zero], [F.zero])])
    by (vm_compute; reflexivity).
  destruct (cache_model_size Scenario.reciprocal Scenario.unit_grid 1 2 Scenario.draw _
              eq_refl H) as (rows & evaluated & _ & _ & _ & Hle).
  eexists. split; [exact H | exact Hle].
Defined.

Lemma read_searches_at_most_once_witness :
  let s := Scenario.lazy_state "2step" in
  Scenario.construct false false "2step" None 0 = (Ok (self s), log s) /\
  let l' := log (snd (rsquared Scenario.routines s)) in
  (calls_of is_brute_force_search l' <= 1)%nat /\
  (calls_of is_gradient_descent_search l' <= 1)%nat /\
  (calls_of is_global_search l' <= 1)%nat.
Proof.
  intros s.
  assert (H : Scenario.construct false false "2step" None 0 = (Ok (self s), log s))
    by reflexivity.
  split; [exact H |].
  apply (read_searches_at_most_once Scenario.routines _ _ _ _ _ _ _ _ _ _ _ _ _ _
           "rsquared" (rsquared Scenario.routines) H).
  unfold attributes. cbn [In]. do 12 right. left. reflexivity.
Defined.

Lemma cache_model_type_error_on_pairs_witness :
  cache_model Scenario.reciprocal [GPair F.zero F.one; GSlice F.zero F.one F.one] 1
    (Some 2%nat) Scenario.draw = Raise TypeError /\
  cache_model Scenario.reciprocal [GPair F.zero F.one] 1 None Scenario.draw =
    Raise TypeError.
Proof.
  split; apply cache_model_type_error_on_pairs; [right | left]; reflexivity.
Defined.

Lemma best_cached_parameters_minimise_rss_witness :
  fst (best_cached_model_parameters Cases.cached_state) =
    Ok (VArray [F.one; F.zero; F.one]) /\
  exists table errs idx ts p e,
    cached_model_file (model (self Cases.cached_state)) = Ok table /\
    rmap (fun row => d ← Np.subtract row (data (self Cases.cached_state));
                     Ok (Ne.sum (Np.square d)))
      (map fst table) = Ok errs /\
    table !! idx = Some (ts, p) /\
    errs !! idx = Some e /\
    VArray [F.one; F.zero; F.one] = VArray p /\
    (Forall (fun x => F.isnan x = false) errs ->
     forall y, In y errs -> F.ltb y e = false) /\
    faithful_memo
      (model (self (snd (best_cached_model_parameters Cases.cached_state)))).
Proof.
  assert (Hv : fst (best_cached_model_parameters Cases.cached_state) =
               Ok (VArray [F.one; F.zero; F.one])).
  { vm_compute. reflexivity. }
  assert (Hc : best_cached_model_parameters Cases.cached_state =
               (fst (best_cached_model_parameters Cases.cached_state),
                snd (best_cached_model_parameters Cases.cached_state)))
    by apply surjective_pairing.
  rewrite Hv in Hc.
  split; [exact Hv |].
  exact (best_cached_parameters_minimise_rss Cases.cached_state _ _
           (faithful_memo_constructed (model (self Cases.cached_state)) Cases.cached_table
              eq_refl (or_intror eq_refl))
           eq_refl Hc).
Defined.
